(** * Pathshala Coach: question selection, answer scoring and skill tiers

    A shallow embedding of [backend/server.py]: the request handlers
    [create_user], [get_user], [start_diagnostic_test], [submit_answer],
    [complete_assessment], [get_adaptive_practice], [get_ai_feedback],
    [get_daily_study_plan], [get_user_assessments] and [get_user_progress],
    together with [generate_adaptive_question] and the three catalogs they
    read; and of the earlier [create_user] of [backend/server_original.py].

    Modelling conventions.
    - The four MongoDB collections are lists of documents in insertion order;
      [find_one] returns the first match, [update_one] rewrites the first
      match, [insert_one] appends.  Persistence itself never fails.
    - Python dicts whose iteration order is observed ([skill_levels],
      [subject_scores]) are association lists in insertion order.
    - Python floats are exact rationals ([Q]).
    - [uuid.uuid4()], the [random] module, [datetime.now()] and the language
      model are streams of future results carried by the [World]; theorems
      quantify over every such stream.
    - A handler is a state-and-exception computation [M]: what was written
      before an exception stays written. *)

From Stdlib Require Import String List ZArith QArith Lia Bool Arith PeanoNat DecimalString.
From Stdlib Require Import Permutation Sorted.
Import ListNotations.
Open Scope string_scope.
Open Scope list_scope.
Open Scope nat_scope.

(** ** Enumerations *)

Inductive SubjectType : Type :=
| QUANTITATIVE | REASONING | ENGLISH | GENERAL_KNOWLEDGE | CURRENT_AFFAIRS.

Definition SubjectType_value (s : SubjectType) : string :=
  match s with
  | QUANTITATIVE => "quantitative"
  | REASONING => "reasoning"
  | ENGLISH => "english"
  | GENERAL_KNOWLEDGE => "general_knowledge"
  | CURRENT_AFFAIRS => "current_affairs"
  end.

(** [SubjectType(v)]: the member whose value is [v]; [None] stands for the
    ValueError raised on any other string. *)
Definition SubjectType_of (v : string) : option SubjectType :=
  if String.eqb v "quantitative" then Some QUANTITATIVE
  else if String.eqb v "reasoning" then Some REASONING
  else if String.eqb v "english" then Some ENGLISH
  else if String.eqb v "general_knowledge" then Some GENERAL_KNOWLEDGE
  else if String.eqb v "current_affairs" then Some CURRENT_AFFAIRS
  else None.

Inductive DifficultyLevel : Type := BEGINNER | INTERMEDIATE | ADVANCED.


Definition DifficultyLevel_of (v : string) : option DifficultyLevel :=
  if String.eqb v "beginner" then Some BEGINNER
  else if String.eqb v "intermediate" then Some INTERMEDIATE
  else if String.eqb v "advanced" then Some ADVANCED
  else None.

Inductive Language : Type := LANG_ENGLISH | LANG_HINDI.

(** ** Documents *)

Record User : Type := mkUser {
  u_id : string;
  u_name : string;
  u_phone : string;
  u_target_exam : string;
  u_preferred_language : Language;
  u_skill_levels : list (string * string);   (* subject -> difficulty *)
  u_created_at : nat
}.

Record Question : Type := mkQuestion {
  q_id : string;
  q_subject : SubjectType;
  q_difficulty : DifficultyLevel;
  q_question_text_en : string;
  q_question_text_hi : string;
  q_options_en : list string;
  q_options_hi : list string;
  q_correct_answer : Z;                       (* index of correct option *)
  q_explanation_en : string;
  q_explanation_hi : string;
  q_exam_type : string
}.

Record Answer : Type := mkAnswer {
  ans_question_id : string;
  ans_selected_option : Z;
  ans_is_correct : bool;
  ans_time_taken : Z
}.

Record Assessment : Type := mkAssessment {
  a_id : string;
  a_user_id : string;
  a_test_type : string;
  a_questions : list string;                  (* question IDs *)
  a_answers : list Answer;
  a_score : Q;
  a_subject_scores : list (string * Q);
  a_completed_at : option nat;
  a_created_at : nat
}.

Record StudyPlan : Type := mkStudyPlan {
  sp_id : string;
  sp_user_id : string;
  sp_date : string;                           (* YYYY-MM-DD *)
  sp_subjects : list string;
  sp_questions_count : Z;
  sp_estimated_time : Z;
  sp_status : string;
  sp_created_at : nat
}.

(** Request bodies. *)
Record UserCreate : Type := mkUserCreate {
  uc_name : string;
  uc_phone : string;
  uc_target_exam : string;
  uc_preferred_language : Language
}.

Record SubmitAnswerRequest : Type := mkSubmitAnswerRequest {
  sar_assessment_id : string;
  sar_question_id : string;
  sar_selected_option : Z;
  sar_time_taken : Z
}.

(** ** The catalogs *)

(** One entry of a catalog: a dict literal whose subject and difficulty are
    still plain strings. *)
Record QDict : Type := mkQDict {
  d_subject : string;
  d_difficulty : string;
  d_question_text_en : string;
  d_question_text_hi : string;
  d_options_en : list string;
  d_options_hi : list string;
  d_correct_answer : Z;
  d_explanation_en : string;
  d_explanation_hi : string;
  d_exam_type : string
}.

(** The sample question bank, in source order. *)
Definition SAMPLE_QUESTIONS : list QDict :=
[
  mkQDict "quantitative" "beginner"
    "What is 25% of 800?"
    "800 का 25% क्या है?"
    ["150"; "200"; "250"; "300"]
    ["150"; "200"; "250"; "300"]
    1
    "25% of 800 = (25/100) × 800 = 200"
    "800 का 25% = (25/100) × 800 = 200"
    "SSC";
  mkQDict "quantitative" "beginner"
    "If a man buys 12 apples for Rs. 60, what is the cost of one apple?"
    "यदि एक व्यक्ति 60 रुपये में 12 सेब खरीदता है, तो एक सेब की कीमत क्या है?"
    ["Rs. 4"; "Rs. 5"; "Rs. 6"; "Rs. 7"]
    ["₹4"; "₹5"; "₹6"; "₹7"]
    1
    "Cost of one apple = Total cost / Number of apples = 60/12 = Rs. 5"
    "एक सेब की कीमत = कुल कीमत / सेब की संख्या = 60/12 = ₹5"
    "SSC";
  mkQDict "quantitative" "intermediate"
    "A train travels 180 km in 3 hours. What is its speed in km/hr?"
    "एक ट्रेन 3 घंटे में 180 किमी की यात्रा करती है। इसकी गति किमी/घंटा में क्या है?"
    ["50 km/hr"; "60 km/hr"; "70 km/hr"; "80 km/hr"]
    ["50 किमी/घंटा"; "60 किमी/घंटा"; "70 किमी/घंटा"; "80 किमी/घंटा"]
    1
    "Speed = Distance / Time = 180 km / 3 hours = 60 km/hr"
    "गति = दूरी / समय = 180 किमी / 3 घंटे = 60 किमी/घंटा"
    "SSC";
  mkQDict "reasoning" "beginner"
    "If CODING is written as DPEJOH, how is FILING written?"
    "यदि CODING को DPEJOH लिखा जाता है, तो FILING कैसे लिखा जाएगा?"
    ["GJMJOH"; "GJMJPI"; "GJLJOH"; "GJMJNG"]
    ["GJMJOH"; "GJMJPI"; "GJLJOH"; "GJMJNG"]
    0
    "Each letter is shifted by +1 in the alphabet. F→G, I→J, L→M, I→J, N→O, G→H"
    "प्रत्येक अक्षर को वर्णमाला में +1 से बदला जाता है। F→G, I→J, L→M, I→J, N→O, G→H"
    "SSC";
  mkQDict "reasoning" "beginner"
    "Complete the series: 2, 4, 8, 16, ?"
    "श्रृंखला पूरी करें: 2, 4, 8, 16, ?"
    ["24"; "28"; "32"; "36"]
    ["24"; "28"; "32"; "36"]
    2
    "Each number is double the previous number. 16 × 2 = 32"
    "प्रत्येक संख्या पिछली संख्या की दोगुनी है। 16 × 2 = 32"
    "Banking";
  mkQDict "reasoning" "intermediate"
    "In a certain code, CAT is written as FDW. How is DOG written?"
    "एक निश्चित कूट में, CAT को FDW लिखा जाता है। DOG कैसे लिखा जाएगा?"
    ["GRJ"; "ERK"; "FQI"; "HRL"]
    ["GRJ"; "ERK"; "FQI"; "HRL"]
    0
    "Each letter is shifted by +3 positions: D→G, O→R, G→J"
    "प्रत्येक अक्षर को +3 स्थान आगे बढ़ाया गया है: D→G, O→R, G→J"
    "SSC";
  mkQDict "english" "beginner"
    "Choose the correct synonym for 'ABUNDANT':"
    "'ABUNDANT' का सही समानार्थी शब्द चुनें:"
    ["Scarce"; "Plentiful"; "Limited"; "Rare"]
    ["दुर्लभ"; "प्रचुर"; "सीमित"; "कम"]
    1
    "Abundant means existing in large quantities; plentiful."
    "Abundant का अर्थ है बड़ी मात्रा में मौजूद; प्रचुर।"
    "Banking";
  mkQDict "english" "beginner"
    "Choose the correct antonym for 'HAPPY':"
    "'HAPPY' का सही विपरीतार्थी शब्द चुनें:"
    ["Joyful"; "Sad"; "Cheerful"; "Pleased"]
    ["खुशी"; "दुखी"; "प्रसन्न"; "संतुष्ट"]
    1
    "The antonym of happy is sad."
    "Happy का विपरीतार्थी शब्द sad है।"
    "SSC";
  mkQDict "english" "intermediate"
    "Fill in the blank: The meeting was _____ due to rain."
    "रिक्त स्थान भरें: बारिश के कारण बैठक _____ थी।"
    ["called off"; "called on"; "called up"; "called for"]
    ["रद्द कर दी गई"; "बुलाई गई"; "फोन किया गया"; "मांग की गई"]
    0
    "'Called off' means cancelled or postponed."
    "'Called off' का अर्थ है रद्द या स्थगित करना।"
    "Banking";
  mkQDict "general_knowledge" "beginner"
    "Who is the current President of India (as of 2024)?"
    "भारत के वर्तमान राष्ट्रपति कौन हैं (2024 तक)?"
    ["Ram Nath Kovind"; "Droupadi Murmu"; "Pranab Mukherjee"; "A.P.J. Abdul Kalam"]
    ["राम नाथ कोविंद"; "द्रौपदी मुर्मू"; "प्रणब मुखर्जी"; "ए.पी.जे. अब्दुल कलाम"]
    1
    "Droupadi Murmu is the current President of India, serving since July 2022."
    "द्रौपदी मुर्मू भारत की वर्तमान राष्ट्रपति हैं, जो जुलाई 2022 से सेवा कर रही हैं।"
    "State PSC";
  mkQDict "general_knowledge" "beginner"
    "What is the capital of India?"
    "भारत की राजधानी क्या है?"
    ["Mumbai"; "New Delhi"; "Kolkata"; "Chennai"]
    ["मुंबई"; "नई दिल्ली"; "कोलकाता"; "चेन्नई"]
    1
    "New Delhi is the capital of India."
    "नई दिल्ली भारत की राजधानी है।"
    "SSC";
  mkQDict "general_knowledge" "intermediate"
    "Which river is known as the 'Ganga of South India'?"
    "कौन सी नदी को 'दक्षिण भारत की गंगा' कहा जाता है?"
    ["Krishna"; "Godavari"; "Cauvery"; "Tungabhadra"]
    ["कृष्णा"; "गोदावरी"; "कावेरी"; "तुंगभद्रा"]
    1
    "Godavari is known as the 'Ganga of South India' due to its length and cultural significance."
    "गोदावरी को इसकी लंबाई और सांस्कृतिक महत्व के कारण 'दक्षिण भारत की गंगा' कहा जाता है।"
    "State PSC"
].

(** The mock adaptive questions.  The module assigns this name twice; the
    second assignment (twenty entries) is the one every function sees. *)
Definition MOCK_ADAPTIVE_QUESTIONS : list QDict :=
[
  mkQDict "quantitative" "intermediate"
    "What is 15% of 240?"
    "240 का 15% क्या है?"
    ["30"; "36"; "40"; "45"]
    ["30"; "36"; "40"; "45"]
    1
    "15% of 240 = (15/100) × 240 = 36"
    "240 का 15% = (15/100) × 240 = 36"
    "SSC";
  mkQDict "reasoning" "intermediate"
    "Find the next number in series: 2, 6, 12, 20, ?"
    "श्रृंखला में अगली संख्या ज्ञात करें: 2, 6, 12, 20, ?"
    ["28"; "30"; "32"; "34"]
    ["28"; "30"; "32"; "34"]
    1
    "Pattern: n(n+1), so 5×6 = 30"
    "पैटर्न: n(n+1), इसलिए 5×6 = 30"
    "SSC";
  mkQDict "english" "intermediate"
    "Choose the correct synonym for 'Abundant':"
    "'Abundant' के लिए सही समानार्थी शब्द चुनें:"
    ["Scarce"; "Plentiful"; "Rare"; "Limited"]
    ["कम"; "प्रचुर"; "दुर्लभ"; "सीमित"]
    1
    "Abundant means existing in large quantities; plentiful"
    "Abundant का अर्थ है बड़ी मात्रा में मौजूद; प्रचुर"
    "SSC";
  mkQDict "general_knowledge" "intermediate"
    "Who is known as the 'Father of the Indian Constitution'?"
    "किसे 'भारतीय संविधान के पिता' के रूप में जाना जाता है?"
    ["Mahatma Gandhi"; "Jawaharlal Nehru"; "Dr. B.R. Ambedkar"; "Sardar Patel"]
    ["महात्मा गांधी"; "जवाहरलाल नेहरू"; "डॉ. बी.आर. अंबेडकर"; "सरदार पटेल"]
    2
    "Dr. B.R. Ambedkar was the chairman of the Drafting Committee"
    "डॉ. बी.आर. अंबेडकर मसौदा समिति के अध्यक्ष थे"
    "SSC";
  mkQDict "quantitative" "advanced"
    "If a train 150m long passes a platform 300m long in 18 seconds, find its speed in km/h."
    "यदि 150m लंबी ट्रेन 300m लंबे प्लेटफॉर्म को 18 सेकंड में पार करती है, तो उसकी गति km/h में ज्ञात करें।"
    ["60"; "75"; "90"; "100"]
    ["60"; "75"; "90"; "100"]
    2
    "Total distance = 150+300 = 450m, Speed = 450/18 = 25 m/s = 90 km/h"
    "कुल दूरी = 150+300 = 450m, गति = 450/18 = 25 m/s = 90 km/h"
    "SSC";
  mkQDict "quantitative" "intermediate"
    "A sum of money doubles itself in 5 years at simple interest. In how many years will it become 4 times?"
    "एक राशि साधारण ब्याज पर 5 वर्ष में दोगुनी हो जाती है। कितने वर्षों में यह 4 गुनी हो जाएगी?"
    ["10 years"; "15 years"; "20 years"; "25 years"]
    ["10 वर्ष"; "15 वर्ष"; "20 वर्ष"; "25 वर्ष"]
    1
    "If money doubles in 5 years, rate = 20%. To become 4 times, it needs 15 years"
    "यदि पैसा 5 वर्ष में दोगुना होता है, तो दर = 20%। 4 गुना होने के लिए 15 वर्ष चाहिए"
    "Banking";
  mkQDict "reasoning" "intermediate"
    "In a certain code, 'COMPUTER' is written as 'RFUVQNPC'. How is 'MEDICINE' written in that code?"
    "एक निश्चित कोड में 'COMPUTER' को 'RFUVQNPC' लिखा जाता है। उस कोड में 'MEDICINE' कैसे लिखा जाएगा?"
    ["MFEDJJOE"; "EOJDEJFM"; "MJDJEOFE"; "EOJDJEFM"]
    ["MFEDJJOE"; "EOJDEJFM"; "MJDJEOFE"; "EOJDJEFM"]
    1
    "Each letter is replaced by the letter at the same position from the end of alphabet"
    "प्रत्येक अक्षर को वर्णमाला के अंत से समान स्थिति के अक्षर से बदला जाता है"
    "Banking";
  mkQDict "english" "intermediate"
    "Choose the correctly spelled word:"
    "सही वर्तनी वाला शब्द चुनें:"
    ["Accommodation"; "Acommodation"; "Accomodation"; "Acomodation"]
    ["Accommodation"; "Acommodation"; "Accomodation"; "Acomodation"]
    0
    "Accommodation has double 'c' and double 'm'"
    "Accommodation में दो 'c' और दो 'm' हैं"
    "Banking";
  mkQDict "general_knowledge" "intermediate"
    "Which bank is known as the 'Banker's Bank' in India?"
    "भारत में किस बैंक को 'बैंकरों का बैंक' कहा जाता है?"
    ["SBI"; "RBI"; "HDFC"; "ICICI"]
    ["SBI"; "RBI"; "HDFC"; "ICICI"]
    1
    "RBI (Reserve Bank of India) is the central bank and banker's bank"
    "RBI (भारतीय रिजर्व बैंक) केंद्रीय बैंक और बैंकरों का बैंक है"
    "Banking";
  mkQDict "quantitative" "advanced"
    "A man invests Rs. 10,000 at 10% compound interest for 2 years. What is the compound interest?"
    "एक व्यक्ति 2 वर्ष के लिए 10% चक्रवृद्धि ब्याज पर 10,000 रुपये निवेश करता है। चक्रवृद्धि ब्याज क्या है?"
    ["Rs. 2,100"; "Rs. 2,200"; "Rs. 2,300"; "Rs. 2,400"]
    ["2,100 रुपये"; "2,200 रुपये"; "2,300 रुपये"; "2,400 रुपये"]
    0
    "CI = P[(1+r/100)^n - 1] = 10000[(1.1)^2 - 1] = 10000[1.21 - 1] = 2100"
    "चक्रवृद्धि ब्याज = P[(1+r/100)^n - 1] = 10000[(1.1)^2 - 1] = 2100"
    "Banking";
  mkQDict "quantitative" "intermediate"
    "The average of 5 numbers is 20. If one number is excluded, the average becomes 18. What is the excluded number?"
    "5 संख्याओं का औसत 20 है। यदि एक संख्या को हटा दिया जाए, तो औसत 18 हो जाता है। हटाई गई संख्या क्या है?"
    ["26"; "28"; "30"; "32"]
    ["26"; "28"; "30"; "32"]
    1
    "Sum of 5 numbers = 100, Sum of 4 numbers = 72, Excluded number = 100-72 = 28"
    "5 संख्याओं का योग = 100, 4 संख्याओं का योग = 72, हटाई गई संख्या = 28"
    "State PSC";
  mkQDict "reasoning" "intermediate"
    "If 'PEN' is coded as 'QFO', then 'INK' will be coded as:"
    "यदि 'PEN' को 'QFO' के रूप में कोड किया जाता है, तो 'INK' को कैसे कोड किया जाएगा:"
    ["JOL"; "JOM"; "JON"; "JOP"]
    ["JOL"; "JOM"; "JON"; "JOP"]
    0
    "Each letter is moved one position forward in the alphabet"
    "प्रत्येक अक्षर वर्णमाला में एक स्थान आगे बढ़ाया जाता है"
    "State PSC";
  mkQDict "english" "intermediate"
    "Choose the correct antonym for 'Benevolent':"
    "'Benevolent' के लिए सही विलोम शब्द चुनें:"
    ["Kind"; "Generous"; "Malevolent"; "Charitable"]
    ["दयालु"; "उदार"; "दुर्भावनापूर्ण"; "दानशील"]
    2
    "Benevolent means kind and generous, so malevolent (evil) is its antonym"
    "Benevolent का अर्थ दयालु और उदार है, इसलिए malevolent (दुर्भावनापूर्ण) इसका विलोम है"
    "State PSC";
  mkQDict "general_knowledge" "intermediate"
    "Which state is known as the 'Land of Five Rivers'?"
    "किस राज्य को 'पांच नदियों की भूमि' कहा जाता है?"
    ["Punjab"; "Haryana"; "Uttar Pradesh"; "Rajasthan"]
    ["पंजाब"; "हरियाणा"; "उत्तर प्रदेश"; "राजस्थान"]
    0
    "Punjab means 'five waters' - the land of five rivers"
    "पंजाब का अर्थ 'पांच पानी' है - पांच नदियों की भूमि"
    "State PSC";
  mkQDict "quantitative" "advanced"
    "A rectangular field is 40m long and 30m wide. A path 2m wide runs around it. Find the area of the path."
    "एक आयताकार मैदान 40m लंबा और 30m चौड़ा है। इसके चारों ओर 2m चौड़ा रास्ता है। रास्ते का क्षेत्रफल ज्ञात करें।"
    ["296 sq m"; "300 sq m"; "304 sq m"; "308 sq m"]
    ["296 वर्ग मी"; "300 वर्ग मी"; "304 वर्ग मी"; "308 वर्ग मी"]
    0
    "Outer area = 44×34 = 1496, Inner area = 40×30 = 1200, Path area = 1496-1200 = 296"
    "बाहरी क्षेत्र = 44×34 = 1496, आंतरिक क्षेत्र = 40×30 = 1200, रास्ते का क्षेत्र = 296"
    "State PSC";
  mkQDict "quantitative" "intermediate"
    "A train covers 120 km in 2 hours. What is its speed in m/s?"
    "एक ट्रेन 2 घंटे में 120 किमी की दूरी तय करती है। m/s में इसकी गति क्या है?"
    ["16.67 m/s"; "20 m/s"; "25 m/s"; "30 m/s"]
    ["16.67 m/s"; "20 m/s"; "25 m/s"; "30 m/s"]
    0
    "Speed = 120/2 = 60 km/h = 60×1000/3600 = 16.67 m/s"
    "गति = 120/2 = 60 km/h = 60×1000/3600 = 16.67 m/s"
    "Railway";
  mkQDict "reasoning" "intermediate"
    "If 'TRAIN' is coded as 'USBIJ', then 'PLANE' will be coded as:"
    "यदि 'TRAIN' को 'USBIJ' के रूप में कोड किया जाता है, तो 'PLANE' को कैसे कोड किया जाएगा:"
    ["QMBOF"; "QNBOF"; "QMBOG"; "QNBOF"]
    ["QMBOF"; "QNBOF"; "QMBOG"; "QNBOF"]
    0
    "Each letter is moved one position forward in the alphabet"
    "प्रत्येक अक्षर वर्णमाला में एक स्थान आगे बढ़ाया जाता है"
    "Railway";
  mkQDict "english" "intermediate"
    "Choose the correct meaning of 'Punctual':"
    "'Punctual' का सही अर्थ चुनें:"
    ["Late"; "On time"; "Early"; "Delayed"]
    ["देर से"; "समय पर"; "जल्दी"; "विलंबित"]
    1
    "Punctual means being on time or prompt"
    "Punctual का अर्थ समय पर या तुरंत होना है"
    "Railway";
  mkQDict "general_knowledge" "intermediate"
    "Which is the longest railway platform in India?"
    "भारत में सबसे लंबा रेलवे प्लेटफॉर्म कौन सा है?"
    ["Gorakhpur"; "Kollam"; "Kharagpur"; "Bhubaneswar"]
    ["गोरखपुर"; "कोल्लम"; "खड़गपुर"; "भुवनेश्वर"]
    0
    "Gorakhpur Junction has the longest railway platform in India (1,366.33 m)"
    "गोरखपुर जंक्शन में भारत का सबसे लंबा रेलवे प्लेटफॉर्म है (1,366.33 m)"
    "Railway";
  mkQDict "quantitative" "advanced"
    "Two trains start from stations A and B towards each other. Train from A travels at 60 km/h and from B at 40 km/h. If they meet after 2 hours, find the distance between A and B."
    "दो ट्रेनें स्टेशन A और B से एक-दूसरे की ओर चलती हैं। A से ट्रेन 60 km/h और B से 40 km/h की गति से चलती है। यदि वे 2 घंटे बाद मिलती हैं, तो A और B के बीच की दूरी ज्ञात करें।"
    ["200 km"; "220 km"; "240 km"; "260 km"]
    ["200 km"; "220 km"; "240 km"; "260 km"]
    0
    "Relative speed = 60+40 = 100 km/h, Distance = 100×2 = 200 km"
    "सापेक्ष गति = 60+40 = 100 km/h, दूरी = 100×2 = 200 km"
    "Railway"
].

(** The [subjects] lists of MOCK_STUDY_PLANS (second assignment, the one in
    force); the other keys of each bundle are never read. *)
Definition MOCK_STUDY_PLANS : list (list string) :=
[ ["quantitative"; "reasoning"];
  ["english"; "general_knowledge"];
  ["quantitative"; "english"; "reasoning"] ].

(** ** The world: database and external collaborators *)

(** What the language model's reply amounts to once [json.loads] and the
    [Question] constructor have looked at it. *)
Record Payload : Type := mkPayload {
  p_question_text_en : string;
  p_question_text_hi : string;
  p_options_en : list string;
  p_options_hi : list string;
  p_correct_answer : Z;
  p_explanation_en : string;
  p_explanation_hi : string
}.

Inductive LLMReply : Type :=
| NotJSON                     (* json.loads raises: also the apology text
                                 get_openai_response returns on an API error *)
| JSONUnusable                (* parses, but a key is missing or a value has a
                                 type the Question model refuses *)
| JSONQuestion (p : Payload). (* parses to the seven keys with accepted types *)

Record DB : Type := mkDB {
  db_users : list User;
  db_questions : list Question;
  db_assessments : list Assessment;
  db_study_plans : list StudyPlan
}.

Record World : Type := mkWorld {
  db : DB;
  uuid_stream : nat -> string;     (* future results of str(uuid.uuid4()) *)
  rand_stream : nat -> nat;        (* future draws of the random module *)
  clock : nat -> nat;              (* future readings of datetime.now() *)
  llm : nat -> LLMReply            (* future replies of the language model *)
}.

Definition set_db (d : DB) (w : World) : World :=
  mkWorld d (uuid_stream w) (rand_stream w) (clock w) (llm w).

Definition tail_of {A : Type} (s : nat -> A) : nat -> A := fun n => s (S n).

(** Exceptions a handler can raise.  FastAPI turns every exception other than
    an HTTPException into a 500 response. *)
Inductive exn : Type :=
| HTTPException (status_code : Z) (detail : string)
| ValueError
| IndexError
| ValidationError
| UnboundLocalError.

Inductive Result (A : Type) : Type :=
| Ok (a : A)
| Raise (e : exn).
Arguments Ok {A} a.
Arguments Raise {A} e.

Definition M (A : Type) : Type := World -> Result A * World.

Definition ret {A : Type} (a : A) : M A := fun w => (Ok a, w).

Definition bind {A B : Type} (m : M A) (k : A -> M B) : M B :=
  fun w => match m w with
           | (Ok a, w') => k a w'
           | (Raise e, w') => (Raise e, w')
           end.

Definition raise {A : Type} (e : exn) : M A := fun w => (Raise e, w).

(** [try: body except Exception as e: handler e]; the handler starts from the
    world the body left behind. *)
Definition try_except {A : Type} (body : M A) (handler : exn -> M A) : M A :=
  fun w => match body w with
           | (Ok a, w') => (Ok a, w')
           | (Raise e, w') => handler e w'
           end.

Declare Scope m_scope.
Delimit Scope m_scope with m.
Notation "x <- c1 ;; c2" := (bind c1 (fun x => c2))
  (at level 61, c1 at next level, right associativity) : m_scope.
Notation "' pat <- c1 ;; c2" := (bind c1 (fun x => match x with pat => c2 end))
  (at level 61, pat pattern, c1 at next level, right associativity) : m_scope.
Notation "c1 ;; c2" := (bind c1 (fun _ => c2))
  (at level 61, right associativity) : m_scope.
Open Scope m_scope.

Definition read_db : M DB := fun w => (Ok (db w), w).
Definition write_db (d : DB) : M unit := fun w => (Ok tt, set_db d w).

Definition uuid4 : M string :=
  fun w => (Ok (uuid_stream w 0),
            mkWorld (db w) (tail_of (uuid_stream w)) (rand_stream w) (clock w) (llm w)).

Definition datetime_now : M nat :=
  fun w => (Ok (clock w 0),
            mkWorld (db w) (uuid_stream w) (rand_stream w) (tail_of (clock w)) (llm w)).

Definition random_draw : M nat :=
  fun w => (Ok (rand_stream w 0),
            mkWorld (db w) (uuid_stream w) (tail_of (rand_stream w)) (clock w) (llm w)).

Definition ask_llm : M LLMReply :=
  fun w => (Ok (llm w 0),
            mkWorld (db w) (uuid_stream w) (rand_stream w) (clock w) (tail_of (llm w))).

(** ** Collections *)

Definition find_one {A : Type} (p : A -> bool) (docs : list A) : option A :=
  find p docs.

Fixpoint update_one {A : Type} (p : A -> bool) (f : A -> A) (docs : list A) : list A :=
  match docs with
  | [] => []
  | d :: rest => if p d then f d :: rest else d :: update_one p f rest
  end.

Definition insert_one {A : Type} (d : A) (docs : list A) : list A := docs ++ [d].

Definition insert_many {A : Type} (ds : list A) (docs : list A) : list A := docs ++ ds.

(** ** Dicts with observable order *)

Fixpoint dict_get {V : Type} (k : string) (d : list (string * V)) : option V :=
  match d with
  | [] => None
  | (k', v) :: rest => if String.eqb k' k then Some v else dict_get k rest
  end.

(** [d[k] = v]: overwrite in place, or append a new key at the end. *)
Fixpoint dict_set {V : Type} (k : string) (v : V) (d : list (string * V)) : list (string * V) :=
  match d with
  | [] => [(k, v)]
  | (k', v') :: rest =>
      if String.eqb k' k then (k, v) :: rest else (k', v') :: dict_set k v rest
  end.

Definition dict_keys {V : Type} (d : list (string * V)) : list string := map fst d.

(** Membership in a Python set kept as the list of its insertions. *)
Definition mem_nat (n : nat) (s : list nat) : bool := existsb (Nat.eqb n) s.
Definition mem_str (x : string) (s : list string) : bool := existsb (String.eqb x) s.

(** ** The random module

    Only the contract is modelled: [random.choice] returns one element,
    [random.sample] returns [k] elements at distinct positions,
    [random.shuffle] returns a permutation; which one is decided by the draws
    of [rand_stream]. *)

Definition remove_nth {A : Type} (i : nat) (l : list A) : list A :=
  firstn i l ++ skipn (S i) l.

Definition random_choice {A : Type} (l : list A) : M A :=
  match l with
  | [] => raise IndexError
  | d :: _ => r <- random_draw ;; ret (nth (r mod length l) l d)
  end.

Fixpoint random_sample {A : Type} (population : list A) (k : nat) : M (list A) :=
  match k with
  | 0 => ret []
  | S k' =>
      match population with
      | [] => raise ValueError
      | d :: _ =>
          r <- random_draw ;;
          let i := r mod length population in
          rest <- random_sample (remove_nth i population) k' ;;
          ret (nth i population d :: rest)
      end
  end.

Definition random_shuffle {A : Type} (l : list A) : M (list A) :=
  random_sample l (length l).

(** ** Database access from a handler *)

Definition modify_db (f : DB -> DB) : M unit :=
  d <- read_db ;; write_db (f d).

Definition users_insert_one (u : User) (d : DB) : DB :=
  mkDB (insert_one u (db_users d)) (db_questions d) (db_assessments d) (db_study_plans d).

Definition users_update_one (p : User -> bool) (f : User -> User) (d : DB) : DB :=
  mkDB (update_one p f (db_users d)) (db_questions d) (db_assessments d) (db_study_plans d).

Definition questions_insert_one (q : Question) (d : DB) : DB :=
  mkDB (db_users d) (insert_one q (db_questions d)) (db_assessments d) (db_study_plans d).

Definition questions_insert_many (qs : list Question) (d : DB) : DB :=
  mkDB (db_users d) (insert_many qs (db_questions d)) (db_assessments d) (db_study_plans d).

Definition assessments_insert_one (a : Assessment) (d : DB) : DB :=
  mkDB (db_users d) (db_questions d) (insert_one a (db_assessments d)) (db_study_plans d).

Definition assessments_update_one (p : Assessment -> bool) (f : Assessment -> Assessment)
    (d : DB) : DB :=
  mkDB (db_users d) (db_questions d) (update_one p f (db_assessments d)) (db_study_plans d).

Definition study_plans_insert_one (sp : StudyPlan) (d : DB) : DB :=
  mkDB (db_users d) (db_questions d) (db_assessments d) (insert_one sp (db_study_plans d)).

(** Query filters. *)
Definition user_has_id (user_id : string) (u : User) : bool := String.eqb (u_id u) user_id.
Definition user_has_phone (phone : string) (u : User) : bool := String.eqb (u_phone u) phone.
Definition question_has_id (question_id : string) (q : Question) : bool :=
  String.eqb (q_id q) question_id.
Definition assessment_has_id (assessment_id : string) (a : Assessment) : bool :=
  String.eqb (a_id a) assessment_id.
Definition plan_for (user_id today : string) (sp : StudyPlan) : bool :=
  String.eqb (sp_user_id sp) user_id && String.eqb (sp_date sp) today.

(** The [$set] updates the handlers issue. *)
Definition set_answers (answers : list Answer) (a : Assessment) : Assessment :=
  mkAssessment (a_id a) (a_user_id a) (a_test_type a) (a_questions a) answers
               (a_score a) (a_subject_scores a) (a_completed_at a) (a_created_at a).

Definition set_completion (score : Q) (subject_scores : list (string * Q))
    (completed_at : nat) (a : Assessment) : Assessment :=
  mkAssessment (a_id a) (a_user_id a) (a_test_type a) (a_questions a) (a_answers a)
               score subject_scores (Some completed_at) (a_created_at a).

Definition set_skill_levels (skill_levels : list (string * string)) (u : User) : User :=
  mkUser (u_id u) (u_name u) (u_phone u) (u_target_exam u) (u_preferred_language u)
         skill_levels (u_created_at u).

(** ** POST /users *)

Definition create_user (user_data : UserCreate) : M User :=
  d <- read_db ;;
  match find_one (user_has_phone (uc_phone user_data)) (db_users d) with
  | Some existing_user => ret existing_user
  | None =>
      new_id <- uuid4 ;;
      created_at <- datetime_now ;;
      let user := mkUser new_id (uc_name user_data) (uc_phone user_data)
                         (uc_target_exam user_data) (uc_preferred_language user_data)
                         [] created_at in
      modify_db (users_insert_one user) ;;
      ret user
  end.

(** ** POST /diagnostic-test *)

(** What the response shows of a question: everything but the answer and
    the explanations. *)
Record QuestionSummary : Type := mkQuestionSummary {
  qs_id : string;
  qs_subject : SubjectType;
  qs_difficulty : DifficultyLevel;
  qs_question_text_en : string;
  qs_question_text_hi : string;
  qs_options_en : list string;
  qs_options_hi : list string;
  qs_exam_type : string
}.

Definition summary_of (q : Question) : QuestionSummary :=
  mkQuestionSummary (q_id q) (q_subject q) (q_difficulty q) (q_question_text_en q)
                    (q_question_text_hi q) (q_options_en q) (q_options_hi q) (q_exam_type q).

Record DiagnosticResponse : Type := mkDiagnosticResponse {
  dr_assessment_id : string;
  dr_questions : list QuestionSummary;
  dr_total_questions : nat
}.

(** The catalog entries paired with their object identity [id(q)]: an entry
    is identified by its position in the catalog. *)
Definition with_identity (catalog : list QDict) : list (nat * QDict) :=
  combine (seq 0 (length catalog)) catalog.

Definition diagnostic_subjects : list string :=
  ["quantitative"; "reasoning"; "english"; "general_knowledge"].

Definition unused (used_questions : list nat) (q : nat * QDict) : bool :=
  negb (mem_nat (fst q) used_questions).

(** The [for subject in subjects] loop; its state is [questions] and
    [used_questions]. *)
Fixpoint sample_per_subject (catalog : list (nat * QDict)) (subjects : list string)
    (questions : list (nat * QDict)) (used_questions : list nat)
    : M (list (nat * QDict) * list nat) :=
  match subjects with
  | [] => ret (questions, used_questions)
  | subject :: subjects' =>
      let subject_questions :=
        filter (fun q => String.eqb (d_subject (snd q)) subject) catalog in
      let available_questions := filter (unused used_questions) subject_questions in
      selected <- random_sample available_questions
                                (Nat.min 3 (length available_questions)) ;;
      sample_per_subject catalog subjects' (questions ++ selected)
                         (used_questions ++ map fst selected)
  end.

(** The [while len(questions) < 10] loop.  Every pass either appends one
    question or breaks, so the guard holds for exactly the first
    [10 - len(questions)] passes; [passes] counts them down. *)
Fixpoint fill_up (passes : nat) (catalog : list (nat * QDict))
    (questions : list (nat * QDict)) (used_questions : list nat)
    : M (list (nat * QDict) * list nat) :=
  match passes with
  | 0 => ret (questions, used_questions)
  | S passes' =>
      let remaining_questions := filter (unused used_questions) catalog in
      match remaining_questions with
      | [] => ret (questions, used_questions)          (* break *)
      | _ :: _ =>
          selected <- random_choice remaining_questions ;;
          fill_up passes' catalog (questions ++ [selected])
                  (used_questions ++ [fst selected])
      end
  end.

(** The questions of a diagnostic, before they are stored. *)
Definition select_diagnostic_questions (catalog : list QDict) : M (list QDict) :=
  ' (questions, used_questions) <-
      sample_per_subject (with_identity catalog) diagnostic_subjects [] [] ;;
  ' (questions, _) <-
      fill_up (10 - length questions) (with_identity catalog) questions used_questions ;;
  questions <- random_shuffle questions ;;
  ret (map snd questions).

Fixpoint uuid4_for_each {A : Type} (l : list A) : M (list string) :=
  match l with
  | [] => ret []
  | _ :: l' => i <- uuid4 ;; rest <- uuid4_for_each l' ;; ret (i :: rest)
  end.

(** [Question(id=..., **question_data)] after the two enum conversions. *)
Definition question_of_dict (new_id : string) (q_data : QDict) : M Question :=
  match SubjectType_of (d_subject q_data), DifficultyLevel_of (d_difficulty q_data) with
  | Some subject, Some difficulty =>
      ret (mkQuestion new_id subject difficulty
             (d_question_text_en q_data) (d_question_text_hi q_data)
             (d_options_en q_data) (d_options_hi q_data) (d_correct_answer q_data)
             (d_explanation_en q_data) (d_explanation_hi q_data) (d_exam_type q_data))
  | _, _ => raise ValueError
  end.

Fixpoint question_objects_of (ids : list string) (questions : list QDict)
    : M (list Question) :=
  match ids, questions with
  | i :: ids', q_data :: questions' =>
      question <- question_of_dict i q_data ;;
      rest <- question_objects_of ids' questions' ;;
      ret (question :: rest)
  | _, _ => ret []
  end.

Definition start_diagnostic_test_on (catalog : list QDict) (user_id : string)
    : M DiagnosticResponse :=
  questions <- select_diagnostic_questions catalog ;;
  question_ids <- uuid4_for_each questions ;;
  assessment_id <- uuid4 ;;
  created_at <- datetime_now ;;
  let assessment :=
    mkAssessment assessment_id user_id "diagnostic" question_ids [] 0 [] None created_at in
  question_objects <- question_objects_of (a_questions assessment) questions ;;
  modify_db (questions_insert_many question_objects) ;;
  modify_db (assessments_insert_one assessment) ;;
  ret (mkDiagnosticResponse (a_id assessment) (map summary_of question_objects)
                            (length questions)).

Definition start_diagnostic_test (user_id : string) : M DiagnosticResponse :=
  start_diagnostic_test_on SAMPLE_QUESTIONS user_id.

(** ** POST /submit-answer *)

Record SubmitAnswerResponse : Type := mkSubmitAnswerResponse {
  sr_is_correct : bool;
  sr_correct_answer : Z;
  sr_explanation_english : string;
  sr_explanation_hindi : string
}.

Definition submit_answer (answer_data : SubmitAnswerRequest) : M SubmitAnswerResponse :=
  d <- read_db ;;
  match find_one (assessment_has_id (sar_assessment_id answer_data)) (db_assessments d) with
  | None => raise (HTTPException 404 "Assessment not found")
  | Some assessment =>
      match find_one (question_has_id (sar_question_id answer_data)) (db_questions d) with
      | None => raise (HTTPException 404 "Question not found")
      | Some question_data =>
          let is_correct :=
            Z.eqb (sar_selected_option answer_data) (q_correct_answer question_data) in
          let answer := mkAnswer (sar_question_id answer_data)
                                 (sar_selected_option answer_data)
                                 is_correct
                                 (sar_time_taken answer_data) in
          let answers := a_answers assessment ++ [answer] in
          modify_db (assessments_update_one
                       (assessment_has_id (sar_assessment_id answer_data))
                       (set_answers answers)) ;;
          ret (mkSubmitAnswerResponse is_correct
                 (q_correct_answer question_data)
                 (q_explanation_en question_data)
                 (q_explanation_hi question_data))
      end
  end.

(** ** POST /complete-assessment *)

Record CompleteAssessmentResponse : Type := mkCompleteAssessmentResponse {
  cr_overall_score : Q;
  cr_subject_scores : list (string * Q);
  cr_skill_levels : list (string * string);
  cr_total_questions : nat;
  cr_correct_answers : nat
}.

(** [(correct / total) * 100 if total > 0 else 0]. *)
Definition percentage (correct total : nat) : Q :=
  if 0 <? total
  then (inject_Z (Z.of_nat correct) / inject_Z (Z.of_nat total) * 100)%Q
  else 0%Q.

(** One pass of the [for answer in assessment.answers] loop over the
    [{"correct": c, "total": t}] counters, kept as pairs [(c, t)].  The
    questions collection is only read while the loop runs. *)
Definition count_answer (stored_questions : list Question)
    (subject_scores : list (string * (nat * nat))) (answer : Answer)
    : list (string * (nat * nat)) :=
  match find_one (question_has_id (ans_question_id answer)) stored_questions with
  | None => subject_scores
  | Some question_data =>
      let subject := SubjectType_value (q_subject question_data) in
      let subject_scores :=
        match dict_get subject subject_scores with
        | None => dict_set subject (0, 0) subject_scores
        | Some _ => subject_scores
        end in
      let subject_scores :=
        match dict_get subject subject_scores with
        | Some (c, t) => dict_set subject (c, t + 1) subject_scores
        | None => subject_scores
        end in
      if ans_is_correct answer
      then match dict_get subject subject_scores with
           | Some (c, t) => dict_set subject (c + 1, t) subject_scores
           | None => subject_scores
           end
      else subject_scores
  end.

Definition count_answers (stored_questions : list Question) (answers : list Answer)
    : list (string * (nat * nat)) :=
  fold_left (count_answer stored_questions) answers [].

(** The in-place conversion of every counter to its percentage. *)
Definition to_percentages (counters : list (string * (nat * nat))) : list (string * Q) :=
  map (fun e => (fst e, percentage (fst (snd e)) (snd (snd e)))) counters.

(** The threshold chain of the skill update. *)
Definition skill_level_of_score (score : Q) : string :=
  if Qle_bool 80 score then "advanced"
  else if Qle_bool 50 score then "intermediate"
  else "beginner".

(** [skill_levels = {}] filled by the loop over [subject_scores.items()]. *)
Definition skill_levels_of (subject_scores : list (string * Q)) : list (string * string) :=
  fold_left (fun skill_levels e => dict_set (fst e) (skill_level_of_score (snd e)) skill_levels)
            subject_scores [].

Definition complete_assessment (assessment_id : string) : M CompleteAssessmentResponse :=
  d <- read_db ;;
  match find_one (assessment_has_id assessment_id) (db_assessments d) with
  | None => raise (HTTPException 404 "Assessment not found")
  | Some assessment =>
      let total_questions := length (a_answers assessment) in
      let correct_answers := length (filter ans_is_correct (a_answers assessment)) in
      let overall_score := percentage correct_answers total_questions in
      let subject_scores :=
        to_percentages (count_answers (db_questions d) (a_answers assessment)) in
      completed_at <- datetime_now ;;
      modify_db (assessments_update_one (assessment_has_id assessment_id)
                   (set_completion overall_score subject_scores completed_at)) ;;
      d' <- read_db ;;
      match find_one (user_has_id (a_user_id assessment)) (db_users d') with
      | Some _ =>
          let skill_levels := skill_levels_of subject_scores in
          modify_db (users_update_one (user_has_id (a_user_id assessment))
                       (set_skill_levels skill_levels)) ;;
          ret (mkCompleteAssessmentResponse overall_score subject_scores skill_levels
                 total_questions correct_answers)
      | None =>
          (* the return statement reads skill_levels, never assigned *)
          raise UnboundLocalError
      end
  end.

(** ** generate_adaptive_question *)

(** The seven keys the caller reads from a catalog entry. *)
Definition payload_of_dict (q : QDict) : Payload :=
  mkPayload (d_question_text_en q) (d_question_text_hi q) (d_options_en q)
            (d_options_hi q) (d_correct_answer q) (d_explanation_en q)
            (d_explanation_hi q).

(** Returns whatever [json.loads] produced ([None]: a value from which no
    Question can be built), or a sample question when the reply is not
    JSON.  The bare [except] makes it exception-free. *)
Definition generate_adaptive_question (subject difficulty : string) : M (option Payload) :=
  reply <- ask_llm ;;
  match reply with
  | JSONQuestion p => ret (Some p)
  | JSONUnusable => ret None
  | NotJSON =>
      let matching_questions :=
        filter (fun q => String.eqb (d_subject q) subject
                         && String.eqb (d_difficulty q) difficulty)
               SAMPLE_QUESTIONS in
      match matching_questions with
      | _ :: _ => q <- random_choice matching_questions ;; ret (Some (payload_of_dict q))
      | [] =>
          match SAMPLE_QUESTIONS with
          | q0 :: _ => ret (Some (payload_of_dict q0))
          | [] => raise IndexError
          end
      end
  end.

(** ** GET /adaptive-practice *)

Record AdaptivePracticeResponse : Type := mkAdaptivePracticeResponse {
  ar_questions : list Question;
  ar_assessment_id : string
}.

Definition weighted_entry (e : string * string) : list string :=
  let (subject, level) := e in
  if String.eqb level "beginner" then repeat subject 3
  else if String.eqb level "intermediate" then repeat subject 2
  else [subject].

Definition weakest_subjects_of (skill_levels : list (string * string)) : list string :=
  match flat_map weighted_entry skill_levels with
  | [] => ["quantitative"; "reasoning"; "english"; "general_knowledge"]
  | weakest_subjects => weakest_subjects
  end.

(** The body of the inner [try]: ask the generator, build the Question under
    the learner's exam, store it. *)
Definition generated_question (user : User) (selected_subject difficulty : string)
    : M Question :=
  question_data <- generate_adaptive_question selected_subject difficulty ;;
  match question_data,
        SubjectType_of selected_subject, DifficultyLevel_of difficulty with
  | Some p, Some subject, Some level =>
      new_id <- uuid4 ;;
      let question :=
        mkQuestion new_id subject level
                   (p_question_text_en p) (p_question_text_hi p)
                   (p_options_en p) (p_options_hi p) (p_correct_answer p)
                   (p_explanation_en p) (p_explanation_hi p)
                   (u_target_exam user) in
      modify_db (questions_insert_one question) ;;
      ret question
  | _, _, _ => raise ValidationError
  end.

(** The body of the inner [except]: a mock question whose English text was
    not used yet in this request, stored under the mock's own exam type. *)
Definition mock_question_for (used_questions : list string) : M (Question * list string) :=
  let available_questions :=
    filter (fun q => negb (mem_str (d_question_text_en q) used_questions))
           MOCK_ADAPTIVE_QUESTIONS in
  let '(available_questions, used_questions) :=
    match available_questions with
    | [] => (MOCK_ADAPTIVE_QUESTIONS, [])
    | _ :: _ => (available_questions, used_questions)
    end in
  mock_question <- random_choice available_questions ;;
  let used_questions := used_questions ++ [d_question_text_en mock_question] in
  new_id <- uuid4 ;;
  question <- question_of_dict new_id mock_question ;;
  modify_db (questions_insert_one question) ;;
  ret (question, used_questions).

(** One pass of [for _ in range(count)]. *)
Definition adaptive_pass (user : User) (state : list Question * list string)
    : M (list Question * list string) :=
  let '(questions, used_questions) := state in
  selected_subject <- random_choice (weakest_subjects_of (u_skill_levels user)) ;;
  let difficulty :=
    match dict_get selected_subject (u_skill_levels user) with
    | Some level => level
    | None => "beginner"
    end in
  try_except
    (question <- generated_question user selected_subject difficulty ;;
     ret (questions ++ [question], used_questions))
    (fun _ =>
       ' (question, used_questions) <- mock_question_for used_questions ;;
       ret (questions ++ [question], used_questions)).

Fixpoint adaptive_passes (n : nat) (user : User) (state : list Question * list string)
    : M (list Question * list string) :=
  match n with
  | 0 => ret state
  | S n' => state' <- adaptive_pass user state ;; adaptive_passes n' user state'
  end.

Definition get_adaptive_practice (user_id : string) (count : Z)
    : M AdaptivePracticeResponse :=
  try_except
    (d <- read_db ;;
     match find_one (user_has_id user_id) (db_users d) with
     | None => raise (HTTPException 404 "User not found")
     | Some user =>
         assessment_id <- uuid4 ;;
         created_at <- datetime_now ;;
         let assessment :=
           mkAssessment assessment_id user_id (u_target_exam user) [] [] 0 [] None
                        created_at in
         modify_db (assessments_insert_one assessment) ;;
         ' (questions, _) <- adaptive_passes (Z.to_nat count) user ([], []) ;;
         ret (mkAdaptivePracticeResponse questions (a_id assessment))
     end)
    (fun _ => raise (HTTPException 500 "Internal server error")).

(** ** GET /study-plan/{user_id} *)

Definition weak_entry (e : string * string) : list string :=
  let (subject, level) := e in
  if String.eqb level "beginner" then repeat subject 2
  else if String.eqb level "intermediate" then [subject]
  else [].

(** [today] is the value of [datetime.now().strftime("%Y-%m-%d")] at the
    call.  [list(set(l))] is modelled by [nodup]: Python leaves the order of
    the result open. *)
Definition get_daily_study_plan (today : string) (user_id : string) : M StudyPlan :=
  d <- read_db ;;
  match find_one (user_has_id user_id) (db_users d) with
  | None => raise (HTTPException 404 "User not found")
  | Some user =>
      match find_one (plan_for user_id today) (db_study_plans d) with
      | Some existing_plan => ret existing_plan
      | None =>
          weak_subjects <-
            match flat_map weak_entry (u_skill_levels user) with
            | [] => random_choice MOCK_STUDY_PLANS
            | weak_subjects => ret weak_subjects
            end ;;
          new_id <- uuid4 ;;
          created_at <- datetime_now ;;
          let plan :=
            mkStudyPlan new_id user_id today
                        (nodup string_dec (firstn 3 weak_subjects))
                        20 20 "pending" created_at in
          modify_db (study_plans_insert_one plan) ;;
          ret plan
      end
  end.

(** ** Vocabulary of the statements *)

(** The answer a request records against a stored question. *)
Definition recorded_answer (req : SubmitAnswerRequest) (q : Question) : Answer :=
  mkAnswer (sar_question_id req) (sar_selected_option req)
           (Z.eqb (sar_selected_option req) (q_correct_answer q))
           (sar_time_taken req).




(** A tier mapping the Question model accepts: every key is a subject and
    every value a difficulty level. *)
Definition accepted_entry (e : string * string) : bool :=
  match SubjectType_of (fst e), DifficultyLevel_of (snd e) with
  | Some _, Some _ => true
  | _, _ => false
  end.

Definition accepted_skill_levels (skill_levels : list (string * string)) : Prop :=
  forallb accepted_entry skill_levels = true.

(** ** Sample states *)

Definition sample_uuids : nat -> string :=
  fun n => String.append "uuid-" (NilZero.string_of_uint (Nat.to_uint n)).

Definition sample_learner : User :=
  mkUser "L1" "Asha" "9999900000" "SSC" LANG_ENGLISH [] 0.

Definition sample_stored_question : Question :=
  mkQuestion "Q1" QUANTITATIVE BEGINNER "What is 25% of 800?" "q-hi"
             ["150"; "200"; "250"; "300"] ["150"; "200"; "250"; "300"] 1
             "e-en" "e-hi" "SSC".

Definition sample_assessment : Assessment :=
  mkAssessment "A1" "L1" "diagnostic" ["Q1"] [] 0 [] None 0.

(** An assessment in progress: the same question answered right, then wrong. *)
Definition answered_assessment : Assessment :=
  mkAssessment "A2" "L1" "diagnostic" ["Q1"]
               [mkAnswer "Q1" 1 true 10; mkAnswer "Q1" 3 false 7] 0 [] None 0.

Definition sample_db : DB :=
  mkDB [sample_learner] [sample_stored_question]
       [sample_assessment; answered_assessment] [].

(** A world whose generator never answers in JSON. *)
Definition sample_world : World :=
  mkWorld sample_db sample_uuids (fun n => n) (fun n => n) (fun _ => NotJSON).

Definition sample_request : SubmitAnswerRequest :=
  mkSubmitAnswerRequest "A1" "Q1" 1 12.


(** A well-formed counter of the subject tally: at least one answer counted,
    and no more correct answers than answers. *)
Definition counter_ok (e : string * (nat * nat)) : Prop :=
  fst (snd e) <= snd (snd e) /\ 0 < snd (snd e).

Definition in_percent_range (e : string * Q) : Prop :=
  (0 <= snd e)%Q /\ (snd e <= 100)%Q.


(** The scores [complete_assessment] computes for an assessment, given the
    stored questions. *)
Definition overall_score_of (a : Assessment) : Q :=
  percentage (length (filter ans_is_correct (a_answers a))) (length (a_answers a)).

Definition subject_scores_of (stored_questions : list Question) (a : Assessment)
    : list (string * Q) :=
  to_percentages (count_answers stored_questions (a_answers a)).

(** The threshold law of the tiers. *)
Definition tier_law (score : Q) (tier : string) : Prop :=
  ((80 <= score)%Q -> tier = "advanced") /\
  ((50 <= score)%Q -> (score < 80)%Q -> tier = "intermediate") /\
  ((score < 50)%Q -> tier = "beginner").


(** A learner who already holds a tier for english, and an assessment of
    theirs with one right answer to a quantitative question. *)
Definition tiered_learner : User :=
  mkUser "L2" "Meena" "9999900002" "Banking" LANG_HINDI [("english", "advanced")] 0.

Definition tiered_assessment : Assessment :=
  mkAssessment "A3" "L2" "diagnostic" ["Q1"] [mkAnswer "Q1" 1 true 9] 0 [] None 0.

Definition tiered_world : World :=
  mkWorld (mkDB [sample_learner; tiered_learner] [sample_stored_question]
                [tiered_assessment] [])
          sample_uuids (fun n => n) (fun n => n) (fun _ => NotJSON).


(** The entries of a subject, and how many questions the per-subject loop
    collects: up to three from each subject. *)
Definition subject_slice (catalog : list (nat * QDict)) (subject : string)
    : list (nat * QDict) :=
  filter (fun q => String.eqb (d_subject (snd q)) subject) catalog.

Definition per_subject_count (catalog : list (nat * QDict)) (subjects : list string) : nat :=
  list_sum (map (fun s => Nat.min 3 (length (subject_slice catalog s))) subjects).

(** A catalog entry both enum constructors accept. *)
Definition convertible_dict (q : QDict) : bool :=
  match SubjectType_of (d_subject q), DifficultyLevel_of (d_difficulty q) with
  | Some _, Some _ => true
  | _, _ => false
  end.

(** A stored question that copies a catalog entry. *)
Definition copies_dict (q : Question) (d : QDict) : Prop :=
  q_question_text_en q = d_question_text_en d /\
  q_options_en q = d_options_en d /\
  q_options_hi q = d_options_hi d /\
  q_correct_answer q = d_correct_answer d /\
  q_exam_type q = d_exam_type d.


(** A stored question that copies the generator's payload. *)
Definition copies_payload (q : Question) (p : Payload) : Prop :=
  q_question_text_en q = p_question_text_en p /\
  q_options_en q = p_options_en p /\
  q_options_hi q = p_options_hi p /\
  q_correct_answer q = p_correct_answer p.

(** Where a question of an adaptive-practice batch comes from, in terms of
    the generator replies of the world the request started in:
    - the payload of a usable reply, filed under the learner's exam;
    - an entry of the sample bank, when a reply was not JSON, filed under the
      learner's exam;
    - an entry of the mock catalog under the entry's own exam type, when a
      reply was unusable or the learner's tier mapping holds a subject or a
      level the Question model refuses. *)
Definition question_source (w : World) (user : User) (q : Question) : Prop :=
  (exists n p, llm w n = JSONQuestion p /\ copies_payload q p /\
               q_exam_type q = u_target_exam user) \/
  (exists n d, llm w n = NotJSON /\ In d SAMPLE_QUESTIONS /\
               copies_payload q (payload_of_dict d) /\
               q_exam_type q = u_target_exam user) \/
  (exists m, In m MOCK_ADAPTIVE_QUESTIONS /\ copies_dict q m /\
             ((exists n, llm w n = JSONUnusable) \/
              ~ accepted_skill_levels (u_skill_levels user))).

(** The difficulty an adaptive pass asks for. *)
Definition difficulty_for (user : User) (selected_subject : string) : string :=
  match dict_get selected_subject (u_skill_levels user) with
  | Some level => level
  | None => "beginner"
  end.



(** A learner with valid tiers facing a generator whose replies parse as
    JSON but never yield a Question. *)
Definition unusable_world : World :=
  mkWorld (db tiered_world) sample_uuids (fun n => n) (fun n => n) (fun _ => JSONUnusable).




(** How many questions a diagnostic over a catalog holds: what the
    per-subject loop collects when that is ten or more, otherwise ten or the
    whole catalog, whichever is smaller. *)
Definition diagnostic_count (catalog : list QDict) : nat :=
  let collected := per_subject_count (with_identity catalog) diagnostic_subjects in
  if 10 <=? collected then collected else Nat.min 10 (length catalog).


(** ** The remaining handlers *)

(** *** GET /users/{user_id} *)

Definition get_user (user_id : string) : M User :=
  d <- read_db ;;
  match find_one (user_has_id user_id) (db_users d) with
  | None => raise (HTTPException 404 "User not found")
  | Some user_data => ret user_data
  end.

(** *** POST /ai-feedback *)

Record FeedbackRequest : Type := mkFeedbackRequest {
  fr_question_id : string;
  fr_user_answer : Z;
  fr_language : Language
}.

Record FeedbackResponse : Type := mkFeedbackResponse {
  fb_feedback : string;
  fb_correct_explanation : string;
  fb_study_tips : string
}.

(** [l[i]] on a Python list: negative indices count from the end, and an
    index outside [-len(l), len(l)) is an IndexError ([None]). *)
Definition py_getitem {A : Type} (l : list A) (i : Z) : option A :=
  if (0 <=? i)%Z then nth_error l (Z.to_nat i)
  else if (- Z.of_nat (length l) <=? i)%Z
       then nth_error l (Z.to_nat (Z.of_nat (length l) + i))
       else None.

(** [Language.value[:2]] picks the explanation key. *)
Definition explanation_in (language : Language) (q : Question) : string :=
  match language with
  | LANG_ENGLISH => q_explanation_en q
  | LANG_HINDI => q_explanation_hi q
  end.

(** [ai_feedback] is the text [get_openai_response] returns for the prompt
    (the model's answer, or the apology on an API error); the call uses up
    one reply of the language model.  The prompt itself only matters through
    the two list lookups it evaluates before the call. *)
Definition get_ai_feedback (ai_feedback : string) (feedback_request : FeedbackRequest)
    : M FeedbackResponse :=
  d <- read_db ;;
  match find_one (question_has_id (fr_question_id feedback_request)) (db_questions d) with
  | None => raise (HTTPException 404 "Question not found")
  | Some question_data =>
      match py_getitem (q_options_en question_data) (q_correct_answer question_data),
            py_getitem (q_options_en question_data) (fr_user_answer feedback_request) with
      | Some _, Some _ =>
          _ <- ask_llm ;;
          ret (mkFeedbackResponse ai_feedback
                 (explanation_in (fr_language feedback_request) question_data)
                 "Focus on similar question patterns and practice daily for better retention.")
      | _, _ => raise IndexError
      end
  end.

(** *** Sorted queries

    [cursor.sort(key, direction)] is modelled by a stable insertion sort;
    the statements below do not depend on how ties are ordered. *)

Fixpoint insert_sorted {A : Type} (before : A -> A -> bool) (x : A) (l : list A) : list A :=
  match l with
  | [] => [x]
  | y :: rest => if before x y then x :: l else y :: insert_sorted before x rest
  end.

Definition sort_with {A : Type} (before : A -> A -> bool) (l : list A) : list A :=
  fold_right (insert_sorted before) [] l.

Definition completed_key (a : Assessment) : nat :=
  match a_completed_at a with
  | Some t => t
  | None => 0
  end.

Definition is_completed (a : Assessment) : bool :=
  match a_completed_at a with
  | Some _ => true
  | None => false
  end.

Definition owned_by (user_id : string) (a : Assessment) : bool :=
  String.eqb (a_user_id a) user_id.

(** *** GET /assessments/{user_id} *)

Definition get_user_assessments (user_id : string) : M (list Assessment) :=
  d <- read_db ;;
  ret (sort_with (fun a b => a_created_at b <=? a_created_at a)
                 (filter (owned_by user_id) (db_assessments d))).

(** *** GET /progress/{user_id} *)

Record ProgressResponse : Type := mkProgressResponse {
  pr_total_tests_taken : nat;
  pr_average_score : Q;
  pr_recent_scores : list Q;
  pr_improvement_trend : Q;
  pr_skill_levels : list (string * string);
  pr_strong_subjects : list string;
  pr_weak_subjects : list string
}.

Definition sum_scores (scores : list Q) : Q := fold_right Qplus 0%Q scores.

(** [l[-7:]]. *)
Definition last_seven {A : Type} (l : list A) : list A := skipn (length l - 7) l.

Definition subjects_at (level : string) (skill_levels : list (string * string))
    : list string :=
  map fst (filter (fun e => String.eqb (snd e) level) skill_levels).

(** [round2] stands for Python's [round(x, 2)]. *)
Definition get_user_progress (round2 : Q -> Q) (user_id : string) : M ProgressResponse :=
  d <- read_db ;;
  match find_one (user_has_id user_id) (db_users d) with
  | None => raise (HTTPException 404 "User not found")
  | Some user_data =>
      let assessments :=
        sort_with (fun a b => completed_key a <=? completed_key b)
                  (filter (fun a => owned_by user_id a && is_completed a)
                          (db_assessments d)) in
      let total_assessments := length assessments in
      let avg_score :=
        if 0 <? total_assessments
        then (sum_scores (map a_score assessments)
              / inject_Z (Z.of_nat total_assessments))%Q
        else 0%Q in
      let recent_scores := map a_score (last_seven assessments) in
      let improvement_trend :=
        if 2 <=? length recent_scores
        then (last recent_scores 0 - hd 0 recent_scores)%Q
        else 0%Q in
      ret (mkProgressResponse total_assessments (round2 avg_score) recent_scores
             (round2 improvement_trend) (u_skill_levels user_data)
             (subjects_at "advanced" (u_skill_levels user_data))
             (subjects_at "beginner" (u_skill_levels user_data)))
  end.


(** An assessment whose learner is not in the users collection. *)
Definition orphan_assessment : Assessment :=
  mkAssessment "A9" "gone" "diagnostic" ["Q1"] [mkAnswer "Q1" 1 true 5] 0 [] None 0.

Definition orphan_world : World :=
  mkWorld (mkDB [sample_learner] [sample_stored_question] [orphan_assessment] [])
          sample_uuids (fun n => n) (fun n => n) (fun _ => NotJSON).

(** The sums of a subject tally. *)
Definition counted_total (counters : list (string * (nat * nat))) : nat :=
  list_sum (map (fun e => snd (snd e)) counters).

Definition counted_correct (counters : list (string * (nat * nat))) : nat :=
  list_sum (map (fun e => fst (snd e)) counters).

(** Whether the question an answer refers to is still stored. *)
Definition question_known (stored_questions : list Question) (answer : Answer) : bool :=
  match find_one (question_has_id (ans_question_id answer)) stored_questions with
  | Some _ => true
  | None => false
  end.


(** The English prompt texts of the mock catalog. *)
Definition mock_texts : list string := map d_question_text_en MOCK_ADAPTIVE_QUESTIONS.

(** The assessment record an adaptive-practice request opens. *)
Definition opened_assessment (w : World) (user_id : string) (user : User) : Assessment :=
  mkAssessment (uuid_stream w 0) user_id (u_target_exam user) [] [] 0 [] None (clock w 0).


(** The first five entries of the sample bank: a catalog too small for ten
    questions. *)
Definition small_catalog : list QDict := firstn 5 SAMPLE_QUESTIONS.


(** The completed assessments of a learner, as [get_user_progress] selects
    them. *)
Definition counts_for (user_id : string) (a : Assessment) : bool :=
  owned_by user_id a && is_completed a.


(** ** server_original.py

    The earlier version of [create_user]: no lookup by phone. *)
Definition create_user_original (user_data : UserCreate) : M User :=
  new_id <- uuid4 ;;
  created_at <- datetime_now ;;
  let user := mkUser new_id (uc_name user_data) (uc_phone user_data)
                     (uc_target_exam user_data) (uc_preferred_language user_data)
                     [] created_at in
  modify_db (users_insert_one user) ;;
  ret user.



(** * Properties *)

(** ** Collections *)

Lemma find_one_update_one {A : Type} (p : A -> bool) (f : A -> A) (docs : list A) (x : A) :
  find_one p docs = Some x ->
  p (f x) = true ->
  find_one p (update_one p f docs) = Some (f x).
Proof.
  unfold find_one. induction docs as [|d rest IH]; simpl; intros Hfind Hp.
  - discriminate.
  - destruct (p d) eqn:Hd.
    + injection Hfind as ->. simpl. now rewrite Hp.
    + simpl. rewrite Hd. now apply IH.
Qed.

Lemma find_one_insert_one_fresh {A : Type} (p : A -> bool) (docs : list A) (x : A) :
  find_one p docs = None ->
  p x = true ->
  find_one p (insert_one x docs) = Some x.
Proof.
  unfold find_one, insert_one. induction docs as [|d rest IH]; simpl; intros Hfind Hp.
  - now rewrite Hp.
  - destruct (p d); [discriminate | now apply IH].
Qed.

Lemma find_one_holds {A : Type} (p : A -> bool) (docs : list A) (x : A) :
  find_one p docs = Some x -> p x = true /\ In x docs.
Proof.
  unfold find_one. intros H. apply find_some in H. tauto.
Qed.

(** ** SubmitAnswer *)

Lemma submit_answer_run (w : World) (req : SubmitAnswerRequest)
    (a : Assessment) (q : Question) :
  find_one (assessment_has_id (sar_assessment_id req)) (db_assessments (db w)) = Some a ->
  find_one (question_has_id (sar_question_id req)) (db_questions (db w)) = Some q ->
  submit_answer req w =
    (Ok (mkSubmitAnswerResponse
           (Z.eqb (sar_selected_option req) (q_correct_answer q))
           (q_correct_answer q) (q_explanation_en q) (q_explanation_hi q)),
     set_db (assessments_update_one (assessment_has_id (sar_assessment_id req))
               (set_answers (a_answers a ++ [recorded_answer req q])) (db w)) w).
Proof.
  intros Ha Hq. unfold submit_answer, bind, read_db, modify_db, write_db, ret.
  simpl. rewrite Ha, Hq. reflexivity.
Qed.

Lemma submit_answer_ok_inv (w w' : World) (req : SubmitAnswerRequest)
    (resp : SubmitAnswerResponse) :
  submit_answer req w = (Ok resp, w') ->
  exists a q,
    find_one (assessment_has_id (sar_assessment_id req)) (db_assessments (db w)) = Some a /\
    find_one (question_has_id (sar_question_id req)) (db_questions (db w)) = Some q.
Proof.
  unfold submit_answer, bind, read_db, raise. simpl.
  destruct (find_one (assessment_has_id _) _) as [a|]; [|discriminate].
  destruct (find_one (question_has_id _) _) as [q|]; [|discriminate].
  intros _. now exists a, q.
Qed.

(** C1.  When the assessment and the question exist, [submit_answer] succeeds
    in every state of the database, whatever answers the assessment already
    holds; the flag it returns is [selected_option == correct_answer] of the
    stored question, and the assessment read back afterwards ends with an
    answer carrying the same flag. *)
Theorem submit_answer_is_correct_flag (w : World) (req : SubmitAnswerRequest)
    (a : Assessment) (q : Question) :
  find_one (assessment_has_id (sar_assessment_id req)) (db_assessments (db w)) = Some a ->
  find_one (question_has_id (sar_question_id req)) (db_questions (db w)) = Some q ->
  exists resp w' a',
    submit_answer req w = (Ok resp, w') /\
    sr_is_correct resp = Z.eqb (sar_selected_option req) (q_correct_answer q) /\
    find_one (assessment_has_id (sar_assessment_id req)) (db_assessments (db w')) = Some a' /\
    a_answers a' = a_answers a ++ [recorded_answer req q] /\
    ans_is_correct (last (a_answers a') (recorded_answer req q)) =
      Z.eqb (sar_selected_option req) (q_correct_answer q).
Proof.
  intros Ha Hq.
  eexists _, _, (set_answers (a_answers a ++ [recorded_answer req q]) a).
  split; [exact (submit_answer_run w req a q Ha Hq)|].
  split; [reflexivity|].
  split.
  - simpl. apply find_one_update_one; [assumption|].
    apply find_one_holds in Ha. exact (proj1 Ha).
  - split; [reflexivity|]. simpl. now rewrite last_last.
Qed.

Lemma submit_answer_is_correct_flag_witness :
  find_one (assessment_has_id (sar_assessment_id sample_request))
           (db_assessments (db sample_world)) = Some sample_assessment /\
  find_one (question_has_id (sar_question_id sample_request))
           (db_questions (db sample_world)) = Some sample_stored_question /\
  exists resp w' a',
    submit_answer sample_request sample_world = (Ok resp, w') /\
    sr_is_correct resp =
      Z.eqb (sar_selected_option sample_request) (q_correct_answer sample_stored_question) /\
    find_one (assessment_has_id (sar_assessment_id sample_request))
             (db_assessments (db w')) = Some a' /\
    a_answers a' =
      a_answers sample_assessment ++ [recorded_answer sample_request sample_stored_question] /\
    ans_is_correct (last (a_answers a')
                         (recorded_answer sample_request sample_stored_question)) =
      Z.eqb (sar_selected_option sample_request) (q_correct_answer sample_stored_question).
Proof.
  split; [reflexivity|]. split; [reflexivity|].
  apply (submit_answer_is_correct_flag sample_world sample_request
           sample_assessment sample_stored_question); reflexivity.
Defined.

(** C10.  A successful [submit_answer] rewrites one document: the first
    assessment with the requested id.  Read back, that assessment holds its
    former answers followed by exactly one new one (whether or not the
    question had been answered before) and keeps its id, user_id, test_type,
    questions, score, subject_scores, completed_at and created_at; the users,
    questions and study-plan collections are untouched. *)
Theorem submit_answer_appends_one_answer (w w' : World) (req : SubmitAnswerRequest)
    (resp : SubmitAnswerResponse) :
  submit_answer req w = (Ok resp, w') ->
  exists a q a',
    find_one (assessment_has_id (sar_assessment_id req)) (db_assessments (db w)) = Some a /\
    find_one (question_has_id (sar_question_id req)) (db_questions (db w)) = Some q /\
    find_one (assessment_has_id (sar_assessment_id req)) (db_assessments (db w')) = Some a' /\
    a_answers a' = a_answers a ++ [recorded_answer req q] /\
    length (a_answers a') = S (length (a_answers a)) /\
    a_id a' = a_id a /\ a_user_id a' = a_user_id a /\ a_test_type a' = a_test_type a /\
    a_questions a' = a_questions a /\ a_score a' = a_score a /\
    a_subject_scores a' = a_subject_scores a /\
    a_completed_at a' = a_completed_at a /\ a_created_at a' = a_created_at a /\
    db_assessments (db w') =
      update_one (assessment_has_id (sar_assessment_id req))
                 (set_answers (a_answers a ++ [recorded_answer req q]))
                 (db_assessments (db w)) /\
    db_users (db w') = db_users (db w) /\
    db_questions (db w') = db_questions (db w) /\
    db_study_plans (db w') = db_study_plans (db w).
Proof.
  intros Hrun.
  destruct (submit_answer_ok_inv w w' req resp Hrun) as (a & q & Ha & Hq).
  rewrite (submit_answer_run w req a q Ha Hq) in Hrun.
  injection Hrun as _ <-.
  exists a, q, (set_answers (a_answers a ++ [recorded_answer req q]) a).
  repeat split; try assumption.
  - simpl. apply find_one_update_one; [assumption|].
    apply find_one_holds in Ha. exact (proj1 Ha).
  - simpl. rewrite length_app. simpl. lia.
Qed.

Lemma submit_answer_appends_one_answer_witness :
  submit_answer sample_request sample_world =
    (Ok (mkSubmitAnswerResponse true 1 "e-en" "e-hi"),
     snd (submit_answer sample_request sample_world)) /\
  exists a q a',
    find_one (assessment_has_id "A1") (db_assessments (db sample_world)) = Some a /\
    find_one (question_has_id "Q1") (db_questions (db sample_world)) = Some q /\
    find_one (assessment_has_id "A1")
             (db_assessments (db (snd (submit_answer sample_request sample_world)))) =
      Some a' /\
    a_answers a' = a_answers a ++ [recorded_answer sample_request q] /\
    a_questions a' = a_questions a.
Proof.
  split; [reflexivity|].
  destruct (submit_answer_appends_one_answer sample_world
              (snd (submit_answer sample_request sample_world)) sample_request
              (mkSubmitAnswerResponse true 1 "e-en" "e-hi") eq_refl)
    as (a & q & a' & H1 & H2 & H3 & H4 & _ & _ & _ & _ & H5 & _).
  exists a, q, a'. repeat split; assumption.
Defined.

(** ** CreateOrGetLearner *)

Lemma create_user_existing (w : World) (user_data : UserCreate) (u : User) :
  find_one (user_has_phone (uc_phone user_data)) (db_users (db w)) = Some u ->
  create_user user_data w = (Ok u, w).
Proof.
  intros Hfind. unfold create_user, bind, read_db, ret. simpl. now rewrite Hfind.
Qed.

Lemma create_user_new (w : World) (user_data : UserCreate) :
  find_one (user_has_phone (uc_phone user_data)) (db_users (db w)) = None ->
  exists u w',
    create_user user_data w = (Ok u, w') /\
    u_phone u = uc_phone user_data /\
    db_users (db w') = insert_one u (db_users (db w)).
Proof.
  intros Hfind. unfold create_user, bind, read_db, ret. simpl. rewrite Hfind.
  eexists _, _. split; [reflexivity|]. split; reflexivity.
Qed.

(** C8.  Two calls of [create_user] with the same phone number both succeed
    and return the same learner (hence the same id); the second call leaves
    the database as the first one left it, so no second record is created. *)
Theorem create_user_idempotent_on_phone (w : World) (first second : UserCreate) :
  uc_phone first = uc_phone second ->
  exists u w1 w2,
    create_user first w = (Ok u, w1) /\
    create_user second w1 = (Ok u, w2) /\
    db w2 = db w1 /\
    length (db_users (db w2)) = length (db_users (db w1)).
Proof.
  intros Hphone.
  destruct (find_one (user_has_phone (uc_phone first)) (db_users (db w))) as [u|] eqn:Hfind.
  - exists u, w, w. split; [now apply create_user_existing|].
    split; [|split; reflexivity].
    apply create_user_existing. now rewrite <- Hphone.
  - destruct (create_user_new w first Hfind) as (u & w1 & Hrun & Hu & Husers).
    exists u, w1, w1. split; [assumption|].
    split; [|split; reflexivity].
    apply create_user_existing. rewrite <- Hphone, Husers.
    apply find_one_insert_one_fresh; [assumption|].
    unfold user_has_phone. rewrite Hu. apply String.eqb_refl.
Qed.

Lemma create_user_idempotent_on_phone_witness :
  uc_phone (mkUserCreate "Ravi" "9999900001" "Banking" LANG_HINDI) =
  uc_phone (mkUserCreate "Ravi K" "9999900001" "SSC" LANG_ENGLISH) /\
  exists u w1 w2,
    create_user (mkUserCreate "Ravi" "9999900001" "Banking" LANG_HINDI) sample_world
      = (Ok u, w1) /\
    create_user (mkUserCreate "Ravi K" "9999900001" "SSC" LANG_ENGLISH) w1 = (Ok u, w2) /\
    db w2 = db w1 /\
    length (db_users (db w2)) = length (db_users (db w1)).
Proof.
  split; [reflexivity|].
  apply (create_user_idempotent_on_phone sample_world
           (mkUserCreate "Ravi" "9999900001" "Banking" LANG_HINDI)
           (mkUserCreate "Ravi K" "9999900001" "SSC" LANG_ENGLISH)).
  reflexivity.
Defined.

(** ** GetDailyPlan *)

Lemma nodup_length_le (l : list string) : length (nodup string_dec l) <= length l.
Proof.
  induction l as [|x l IH]; simpl; [lia|].
  destruct (in_dec string_dec x l); simpl; lia.
Qed.

Lemma plan_subjects_bound (weak_subjects : list string) :
  length (nodup string_dec (firstn 3 weak_subjects)) <= 3 /\
  NoDup (nodup string_dec (firstn 3 weak_subjects)).
Proof.
  split; [|apply NoDup_nodup].
  etransitivity; [apply nodup_length_le|]. apply firstn_le_length.
Qed.

Lemma get_daily_study_plan_existing (w : World) (today user_id : string)
    (u : User) (p : StudyPlan) :
  find_one (user_has_id user_id) (db_users (db w)) = Some u ->
  find_one (plan_for user_id today) (db_study_plans (db w)) = Some p ->
  get_daily_study_plan today user_id w = (Ok p, w).
Proof.
  intros Hu Hp. unfold get_daily_study_plan, bind, read_db, ret. simpl.
  now rewrite Hu, Hp.
Qed.

Lemma get_daily_study_plan_new (w : World) (today user_id : string) (u : User) :
  find_one (user_has_id user_id) (db_users (db w)) = Some u ->
  find_one (plan_for user_id today) (db_study_plans (db w)) = None ->
  exists p w' weak_subjects,
    get_daily_study_plan today user_id w = (Ok p, w') /\
    sp_user_id p = user_id /\ sp_date p = today /\
    sp_subjects p = nodup string_dec (firstn 3 weak_subjects) /\
    sp_questions_count p = 20%Z /\ sp_estimated_time p = 20%Z /\
    sp_status p = "pending" /\
    db_users (db w') = db_users (db w) /\
    db_study_plans (db w') = insert_one p (db_study_plans (db w)).
Proof.
  intros Hu Hp. unfold get_daily_study_plan, bind, read_db. simpl.
  rewrite Hu, Hp.
  destruct (flat_map weak_entry (u_skill_levels u)) as [|s rest] eqn:Hweak.
  - eexists _, _, (nth (rand_stream w 0 mod length MOCK_STUDY_PLANS) MOCK_STUDY_PLANS
                        ["quantitative"; "reasoning"]).
    split; [reflexivity|]. repeat split; reflexivity.
  - eexists _, _, (s :: rest).
    split; [reflexivity|]. repeat split; reflexivity.
Qed.

(** C9.  For an existing learner, two calls of [get_daily_study_plan] on the
    same date both succeed and return the same plan (same id, same
    subjects), and the second call writes nothing.  When the first call has
    to create the plan, the plan it stores has at most three subjects without
    repetition, questions_count 20, estimated_time 20 and status pending. *)
Theorem get_daily_study_plan_idempotent (w : World) (today user_id : string) (u : User) :
  find_one (user_has_id user_id) (db_users (db w)) = Some u ->
  exists p w1 w2,
    get_daily_study_plan today user_id w = (Ok p, w1) /\
    get_daily_study_plan today user_id w1 = (Ok p, w2) /\
    db w2 = db w1 /\
    (find_one (plan_for user_id today) (db_study_plans (db w)) = None ->
       db_study_plans (db w1) = insert_one p (db_study_plans (db w)) /\
       length (sp_subjects p) <= 3 /\ NoDup (sp_subjects p) /\
       sp_questions_count p = 20%Z /\ sp_estimated_time p = 20%Z /\
       sp_status p = "pending").
Proof.
  intros Hu.
  destruct (find_one (plan_for user_id today) (db_study_plans (db w))) as [p|] eqn:Hp.
  - exists p, w, w.
    split; [now apply (get_daily_study_plan_existing w today user_id u)|].
    split; [now apply (get_daily_study_plan_existing w today user_id u)|].
    split; [reflexivity | discriminate].
  - destruct (get_daily_study_plan_new w today user_id u Hu Hp)
      as (p & w1 & weak & Hrun & Hid & Hdate & Hsub & Hcount & Htime & Hstatus & Husers & Hplans).
    exists p, w1, w1. split; [assumption|]. split.
    + apply (get_daily_study_plan_existing w1 today user_id u).
      * now rewrite Husers.
      * rewrite Hplans. apply find_one_insert_one_fresh; [assumption|].
        unfold plan_for. rewrite Hid, Hdate, !String.eqb_refl. reflexivity.
    + split; [reflexivity|]. intros _.
      split; [assumption|]. rewrite Hsub.
      destruct (plan_subjects_bound weak) as [Hlen Hnd]. tauto.
Qed.

Lemma get_daily_study_plan_idempotent_witness :
  find_one (user_has_id "L1") (db_users (db sample_world)) = Some sample_learner /\
  exists p w1 w2,
    get_daily_study_plan "2024-05-01" "L1" sample_world = (Ok p, w1) /\
    get_daily_study_plan "2024-05-01" "L1" w1 = (Ok p, w2) /\
    db w2 = db w1 /\
    (find_one (plan_for "L1" "2024-05-01") (db_study_plans (db sample_world)) = None ->
       db_study_plans (db w1) = insert_one p (db_study_plans (db sample_world)) /\
       length (sp_subjects p) <= 3 /\ NoDup (sp_subjects p) /\
       sp_questions_count p = 20%Z /\ sp_estimated_time p = 20%Z /\
       sp_status p = "pending").
Proof.
  split; [reflexivity|].
  apply (get_daily_study_plan_idempotent sample_world "2024-05-01" "L1" sample_learner).
  reflexivity.
Defined.

(** ** Dicts *)

Lemma dict_get_set_same {V : Type} (k : string) (v : V) (d : list (string * V)) :
  dict_get k (dict_set k v d) = Some v.
Proof.
  induction d as [|[k' v'] d IH]; simpl.
  - now rewrite String.eqb_refl.
  - destruct (String.eqb k' k) eqn:E; simpl.
    + now rewrite String.eqb_refl.
    + now rewrite E.
Qed.

Lemma dict_set_set {V : Type} (k : string) (v1 v2 : V) (d : list (string * V)) :
  dict_set k v2 (dict_set k v1 d) = dict_set k v2 d.
Proof.
  induction d as [|[k' v'] d IH]; simpl.
  - now rewrite String.eqb_refl.
  - destruct (String.eqb k' k) eqn:E; simpl.
    + now rewrite String.eqb_refl.
    + rewrite E. now f_equal.
Qed.

Lemma dict_get_none_iff {V : Type} (k : string) (d : list (string * V)) :
  dict_get k d = None <-> ~ In k (dict_keys d).
Proof.
  induction d as [|[k' v'] d IH]; simpl.
  - tauto.
  - destruct (String.eqb_spec k' k) as [->|Hne].
    + split; [discriminate | tauto].
    + rewrite IH. tauto.
Qed.

Lemma dict_get_in {V : Type} (k : string) (v : V) (d : list (string * V)) :
  dict_get k d = Some v -> In (k, v) d.
Proof.
  induction d as [|[k' v'] d IH]; simpl; [discriminate|].
  destruct (String.eqb_spec k' k) as [->|Hne].
  - intros [= ->]. now left.
  - intros H. right. now apply IH.
Qed.

Lemma dict_get_unique {V : Type} (k : string) (v : V) (d : list (string * V)) :
  NoDup (dict_keys d) -> In (k, v) d -> dict_get k d = Some v.
Proof.
  induction d as [|[k' v'] d IH]; simpl; [tauto|].
  intros Hnd [Hin|Hin]; inversion Hnd as [|? ? Hnotin Hnd']; subst.
  - injection Hin as -> ->. now rewrite String.eqb_refl.
  - destruct (String.eqb_spec k' k) as [->|Hne]; [|now apply IH].
    exfalso. apply Hnotin. unfold dict_keys. apply in_map_iff. now exists (k, v).
Qed.

Lemma dict_set_absent {V : Type} (k : string) (v : V) (d : list (string * V)) :
  ~ In k (dict_keys d) -> dict_set k v d = d ++ [(k, v)].
Proof.
  induction d as [|[k' v'] d IH]; simpl; [reflexivity|].
  intros Hnotin. destruct (String.eqb_spec k' k) as [->|Hne]; [tauto|].
  f_equal. apply IH. tauto.
Qed.

Lemma dict_keys_set_present {V : Type} (k : string) (v : V) (d : list (string * V)) :
  In k (dict_keys d) -> dict_keys (dict_set k v d) = dict_keys d.
Proof.
  induction d as [|[k' v'] d IH]; simpl; [tauto|].
  intros Hin. destruct (String.eqb_spec k' k) as [->|Hne]; simpl; [reflexivity|].
  f_equal. apply IH. destruct Hin; [contradiction | assumption].
Qed.

Lemma dict_keys_set {V : Type} (k : string) (v : V) (d : list (string * V)) :
  dict_keys (dict_set k v d) =
    if in_dec string_dec k (dict_keys d) then dict_keys d else dict_keys d ++ [k].
Proof.
  destruct (in_dec string_dec k (dict_keys d)) as [Hin|Hnotin].
  - now apply dict_keys_set_present.
  - rewrite dict_set_absent by assumption. unfold dict_keys.
    now rewrite map_app.
Qed.

Lemma dict_set_NoDup {V : Type} (k : string) (v : V) (d : list (string * V)) :
  NoDup (dict_keys d) -> NoDup (dict_keys (dict_set k v d)).
Proof.
  intros Hnd. rewrite dict_keys_set.
  destruct (in_dec string_dec k (dict_keys d)) as [Hin|Hnotin]; [assumption|].
  apply NoDup_app; [assumption | repeat constructor; simpl; tauto |].
  intros x Hx [<-|[]]. contradiction.
Qed.

Lemma dict_set_Forall {V : Type} (P : string * V -> Prop) (k : string) (v : V)
    (d : list (string * V)) :
  Forall P d -> P (k, v) -> Forall P (dict_set k v d).
Proof.
  intros Hall Hkv. induction Hall as [|[k' v'] d Hx Hall IH]; simpl.
  - now constructor.
  - destruct (String.eqb k' k); constructor; assumption.
Qed.

(** ** Scoring *)

Lemma percentage_bounds (correct total : nat) :
  correct <= total ->
  (0 <= percentage correct total)%Q /\ (percentage correct total <= 100)%Q.
Proof.
  intros Hle. unfold percentage.
  destruct (0 <? total) eqn:Hpos; [|split; discriminate].
  apply Nat.ltb_lt in Hpos.
  assert (Ht : (0 < inject_Z (Z.of_nat total))%Q).
  { rewrite <- (Zlt_Qlt 0). lia. }
  assert (H0 : (0 <= inject_Z (Z.of_nat correct) / inject_Z (Z.of_nat total))%Q).
  { apply Qle_shift_div_l; [assumption|]. rewrite Qmult_0_l.
    rewrite <- (Zle_Qle 0). lia. }
  assert (H1 : (inject_Z (Z.of_nat correct) / inject_Z (Z.of_nat total) <= 1)%Q).
  { apply Qle_shift_div_r; [assumption|]. rewrite Qmult_1_l.
    rewrite <- Zle_Qle. lia. }
  split.
  - apply Qmult_le_0_compat; [assumption | discriminate].
  - setoid_replace 100%Q with (1 * 100)%Q at 2 by reflexivity.
    apply Qmult_le_compat_r; [assumption | discriminate].
Qed.

Lemma percentage_no_answers (correct : nat) : percentage correct 0 = 0%Q.
Proof. reflexivity. Qed.

Lemma count_answer_closed_form (stored_questions : list Question)
    (counters : list (string * (nat * nat))) (answer : Answer) (q : Question) :
  find_one (question_has_id (ans_question_id answer)) stored_questions = Some q ->
  count_answer stored_questions counters answer =
    let subject := SubjectType_value (q_subject q) in
    let ct := match dict_get subject counters with Some ct => ct | None => (0, 0) end in
    dict_set subject
             (fst ct + (if ans_is_correct answer then 1 else 0), snd ct + 1)
             counters.
Proof.
  intros Hq. unfold count_answer. rewrite Hq. cbv zeta.
  destruct (dict_get (SubjectType_value (q_subject q)) counters) as [[c t]|] eqn:Hget.
  - rewrite Hget. simpl fst. simpl snd.
    destruct (ans_is_correct answer).
    + rewrite dict_get_set_same. now rewrite dict_set_set.
    + now rewrite Nat.add_0_r.
  - rewrite dict_get_set_same. simpl fst. simpl snd.
    destruct (ans_is_correct answer).
    + rewrite dict_get_set_same. now rewrite !dict_set_set.
    + now rewrite !dict_set_set.
Qed.

Lemma count_answer_ok (stored_questions : list Question)
    (counters : list (string * (nat * nat))) (answer : Answer) :
  NoDup (dict_keys counters) /\ Forall counter_ok counters ->
  NoDup (dict_keys (count_answer stored_questions counters answer)) /\
  Forall counter_ok (count_answer stored_questions counters answer).
Proof.
  intros [Hnd Hall].
  destruct (find_one (question_has_id (ans_question_id answer)) stored_questions)
    as [q|] eqn:Hq.
  - rewrite (count_answer_closed_form _ _ _ q Hq). cbv zeta.
    split; [now apply dict_set_NoDup|].
    apply dict_set_Forall; [assumption|].
    unfold counter_ok. simpl.
    destruct (dict_get (SubjectType_value (q_subject q)) counters) as [[c t]|] eqn:Hget.
    + apply dict_get_in in Hget.
      rewrite Forall_forall in Hall. specialize (Hall _ Hget).
      unfold counter_ok in Hall. simpl in *.
      destruct (ans_is_correct answer); lia.
    + simpl. destruct (ans_is_correct answer); lia.
  - unfold count_answer. rewrite Hq. now split.
Qed.

Lemma count_answers_ok (stored_questions : list Question) (answers : list Answer) :
  NoDup (dict_keys (count_answers stored_questions answers)) /\
  Forall counter_ok (count_answers stored_questions answers).
Proof.
  unfold count_answers.
  assert (Hgen : forall counters,
             NoDup (dict_keys counters) /\ Forall counter_ok counters ->
             NoDup (dict_keys (fold_left (count_answer stored_questions) answers counters)) /\
             Forall counter_ok (fold_left (count_answer stored_questions) answers counters)).
  { induction answers as [|a rest IH]; intros counters Hok; simpl; [assumption|].
    apply IH. now apply count_answer_ok. }
  apply Hgen. split; constructor.
Qed.

Lemma to_percentages_keys (counters : list (string * (nat * nat))) :
  dict_keys (to_percentages counters) = dict_keys counters.
Proof.
  unfold dict_keys, to_percentages. rewrite map_map. reflexivity.
Qed.

Lemma to_percentages_range (counters : list (string * (nat * nat))) :
  Forall counter_ok counters -> Forall in_percent_range (to_percentages counters).
Proof.
  intros Hall. unfold to_percentages. apply Forall_map.
  eapply Forall_impl; [|exact Hall].
  intros [s [c t]] [Hle _]. unfold in_percent_range. simpl in *.
  now apply percentage_bounds.
Qed.

Lemma subject_scores_ok (stored_questions : list Question) (answers : list Answer) :
  NoDup (dict_keys (to_percentages (count_answers stored_questions answers))) /\
  Forall in_percent_range (to_percentages (count_answers stored_questions answers)).
Proof.
  destruct (count_answers_ok stored_questions answers) as [Hnd Hall].
  split; [now rewrite to_percentages_keys | now apply to_percentages_range].
Qed.

(** ** Skill tiers *)

Lemma skill_level_of_score_law (score : Q) : tier_law score (skill_level_of_score score).
Proof.
  unfold tier_law, skill_level_of_score.
  destruct (Qle_bool 80 score) eqn:H80; [|destruct (Qle_bool 50 score) eqn:H50].
  - apply Qle_bool_iff in H80. repeat split; intros.
    + exfalso. now apply (Qlt_not_le score 80).
    + exfalso. apply (Qlt_not_le score 50); [assumption|].
      apply Qle_trans with (y := 80%Q); [discriminate | assumption].
  - apply Qle_bool_iff in H50.
    assert (H80' : ~ (80 <= score)%Q) by (rewrite <- Qle_bool_iff; congruence).
    repeat split; intros; [contradiction|].
    exfalso. now apply (Qlt_not_le score 50).
  - assert (H80' : ~ (80 <= score)%Q) by (rewrite <- Qle_bool_iff; congruence).
    assert (H50' : ~ (50 <= score)%Q) by (rewrite <- Qle_bool_iff; congruence).
    repeat split; intros; contradiction.
Qed.

Lemma skill_levels_fold (subject_scores : list (string * Q)) :
  forall skill_levels : list (string * string),
    NoDup (dict_keys skill_levels ++ dict_keys subject_scores) ->
    fold_left (fun sl e => dict_set (fst e) (skill_level_of_score (snd e)) sl)
              subject_scores skill_levels
    = skill_levels ++ map (fun e => (fst e, skill_level_of_score (snd e))) subject_scores.
Proof.
  induction subject_scores as [|[s score] rest IH]; intros sl Hnd; simpl.
  - now rewrite app_nil_r.
  - simpl in Hnd. rewrite dict_set_absent.
    + rewrite IH.
      * now rewrite <- app_assoc.
      * unfold dict_keys in *. rewrite map_app. simpl. now rewrite <- app_assoc.
    + apply NoDup_remove_2 in Hnd. intros Hin. apply Hnd.
      apply in_or_app. now left.
Qed.

Lemma skill_levels_of_map (subject_scores : list (string * Q)) :
  NoDup (dict_keys subject_scores) ->
  skill_levels_of subject_scores
  = map (fun e => (fst e, skill_level_of_score (snd e))) subject_scores.
Proof.
  intros Hnd. unfold skill_levels_of. now rewrite skill_levels_fold.
Qed.

Lemma skill_levels_of_keys (subject_scores : list (string * Q)) :
  NoDup (dict_keys subject_scores) ->
  dict_keys (skill_levels_of subject_scores) = dict_keys subject_scores.
Proof.
  intros Hnd. rewrite skill_levels_of_map by assumption.
  unfold dict_keys. now rewrite map_map.
Qed.

Lemma skill_levels_of_get (subject_scores : list (string * Q)) (subject : string) (score : Q) :
  NoDup (dict_keys subject_scores) ->
  In (subject, score) subject_scores ->
  dict_get subject (skill_levels_of subject_scores) = Some (skill_level_of_score score).
Proof.
  intros Hnd Hin. apply dict_get_unique.
  - now rewrite skill_levels_of_keys.
  - rewrite skill_levels_of_map by assumption.
    apply in_map_iff. now exists (subject, score).
Qed.

(** ** CompleteAssessment *)

Lemma complete_assessment_run (w : World) (assessment_id : string)
    (a : Assessment) (u : User) :
  find_one (assessment_has_id assessment_id) (db_assessments (db w)) = Some a ->
  find_one (user_has_id (a_user_id a)) (db_users (db w)) = Some u ->
  complete_assessment assessment_id w =
    (Ok (mkCompleteAssessmentResponse
           (overall_score_of a)
           (subject_scores_of (db_questions (db w)) a)
           (skill_levels_of (subject_scores_of (db_questions (db w)) a))
           (length (a_answers a))
           (length (filter ans_is_correct (a_answers a)))),
     mkWorld
       (users_update_one (user_has_id (a_user_id a))
          (set_skill_levels (skill_levels_of (subject_scores_of (db_questions (db w)) a)))
          (assessments_update_one (assessment_has_id assessment_id)
             (set_completion (overall_score_of a)
                (subject_scores_of (db_questions (db w)) a) (clock w 0))
             (db w)))
       (uuid_stream w) (rand_stream w) (tail_of (clock w)) (llm w)).
Proof.
  intros Ha Hu.
  unfold complete_assessment, bind, read_db, datetime_now, modify_db, write_db, ret.
  simpl. rewrite Ha. simpl. rewrite Hu. reflexivity.
Qed.

Lemma complete_assessment_stored (w : World) (assessment_id : string) (a : Assessment) :
  find_one (assessment_has_id assessment_id) (db_assessments (db w)) = Some a ->
  db_assessments (db (snd (complete_assessment assessment_id w))) =
    update_one (assessment_has_id assessment_id)
      (set_completion (overall_score_of a)
         (subject_scores_of (db_questions (db w)) a) (clock w 0))
      (db_assessments (db w)).
Proof.
  intros Ha.
  unfold complete_assessment, bind, read_db, datetime_now, modify_db, write_db, ret, raise.
  simpl. rewrite Ha. simpl.
  destruct (find_one (user_has_id (a_user_id a)) (db_users (db w))); reflexivity.
Qed.

Lemma complete_assessment_ok_inv (w w' : World) (assessment_id : string)
    (resp : CompleteAssessmentResponse) :
  complete_assessment assessment_id w = (Ok resp, w') ->
  exists a u,
    find_one (assessment_has_id assessment_id) (db_assessments (db w)) = Some a /\
    find_one (user_has_id (a_user_id a)) (db_users (db w)) = Some u.
Proof.
  unfold complete_assessment, bind, read_db, datetime_now, modify_db, write_db, ret, raise.
  simpl.
  destruct (find_one (assessment_has_id assessment_id) (db_assessments (db w)))
    as [a|] eqn:Ha; [|discriminate].
  simpl.
  destruct (find_one (user_has_id (a_user_id a)) (db_users (db w))) as [u|] eqn:Hu;
    [|discriminate].
  intros _. now exists a, u.
Qed.

Lemma assessment_has_id_set_completion (assessment_id : string) (score : Q)
    (subject_scores : list (string * Q)) (completed_at : nat) (a : Assessment) :
  assessment_has_id assessment_id (set_completion score subject_scores completed_at a)
  = assessment_has_id assessment_id a.
Proof. reflexivity. Qed.

(** C5.  Completing an existing assessment stores an overall score between 0
    and 100 and subject scores each between 0 and 100; with an empty answer
    list the overall score is 0 (no division takes place); and when the
    handler returns, it returns the stored values. *)
Theorem complete_assessment_score_bounds (w : World) (assessment_id : string)
    (a : Assessment) :
  find_one (assessment_has_id assessment_id) (db_assessments (db w)) = Some a ->
  exists a',
    find_one (assessment_has_id assessment_id)
             (db_assessments (db (snd (complete_assessment assessment_id w)))) = Some a' /\
    (0 <= a_score a')%Q /\ (a_score a' <= 100)%Q /\
    Forall in_percent_range (a_subject_scores a') /\
    (a_answers a = [] -> a_score a' = 0%Q) /\
    (forall resp w',
        complete_assessment assessment_id w = (Ok resp, w') ->
        cr_overall_score resp = a_score a' /\
        cr_subject_scores resp = a_subject_scores a' /\
        (a_answers a = [] -> cr_overall_score resp = 0%Q)).
Proof.
  intros Ha.
  exists (set_completion (overall_score_of a)
            (subject_scores_of (db_questions (db w)) a) (clock w 0) a).
  assert (Hempty : a_answers a = [] -> overall_score_of a = 0%Q).
  { intros E. unfold overall_score_of. rewrite E. apply percentage_no_answers. }
  destruct (percentage_bounds (length (filter ans_is_correct (a_answers a)))
              (length (a_answers a)) (filter_length_le _ _)) as [Hlo Hhi].
  split.
  { rewrite (complete_assessment_stored w assessment_id a Ha).
    apply find_one_update_one; [assumption|].
    rewrite assessment_has_id_set_completion.
    apply find_one_holds in Ha. exact (proj1 Ha). }
  cbn [a_score a_subject_scores set_completion].
  split; [exact Hlo|]. split; [exact Hhi|].
  split; [apply subject_scores_ok|]. split; [exact Hempty|].
  intros resp w' Hrun.
  destruct (complete_assessment_ok_inv w w' assessment_id resp Hrun)
    as (a0 & u & Ha0 & Hu).
  rewrite Ha in Ha0. injection Ha0 as <-.
  rewrite (complete_assessment_run w assessment_id a u Ha Hu) in Hrun.
  injection Hrun as <- _.
  cbn [cr_overall_score cr_subject_scores].
  split; [reflexivity|]. split; [reflexivity | exact Hempty].
Qed.

Lemma complete_assessment_score_bounds_witness :
  find_one (assessment_has_id "A2") (db_assessments (db sample_world))
    = Some answered_assessment /\
  exists a',
    find_one (assessment_has_id "A2")
             (db_assessments (db (snd (complete_assessment "A2" sample_world)))) = Some a' /\
    (0 <= a_score a')%Q /\ (a_score a' <= 100)%Q /\
    Forall in_percent_range (a_subject_scores a').
Proof.
  split; [reflexivity|].
  destruct (complete_assessment_score_bounds sample_world "A2" answered_assessment eq_refl)
    as (a' & H1 & H2 & H3 & H4 & _).
  exists a'. repeat split; assumption.
Defined.

Lemma user_has_id_set_skill_levels (user_id : string) (sl : list (string * string))
    (u : User) :
  user_has_id user_id (set_skill_levels sl u) = user_has_id user_id u.
Proof. reflexivity. Qed.

(** What completion leaves in the database when the learner exists. *)
Lemma complete_assessment_effect (w : World) (assessment_id : string)
    (a : Assessment) (u : User) :
  find_one (assessment_has_id assessment_id) (db_assessments (db w)) = Some a ->
  find_one (user_has_id (a_user_id a)) (db_users (db w)) = Some u ->
  exists resp w',
    complete_assessment assessment_id w = (Ok resp, w') /\
    cr_subject_scores resp = subject_scores_of (db_questions (db w)) a /\
    cr_skill_levels resp = skill_levels_of (cr_subject_scores resp) /\
    find_one (assessment_has_id assessment_id) (db_assessments (db w')) =
      Some (set_completion (overall_score_of a) (cr_subject_scores resp) (clock w 0) a) /\
    find_one (user_has_id (a_user_id a)) (db_users (db w')) =
      Some (set_skill_levels (cr_skill_levels resp) u).
Proof.
  intros Ha Hu. eexists _, _.
  split; [exact (complete_assessment_run w assessment_id a u Ha Hu)|].
  simpl. split; [reflexivity|]. split; [reflexivity|]. split.
  - apply find_one_update_one; [assumption|].
    rewrite assessment_has_id_set_completion.
    apply find_one_holds in Ha. exact (proj1 Ha).
  - apply find_one_update_one; [assumption|].
    rewrite user_has_id_set_skill_levels.
    apply find_one_holds in Hu. exact (proj1 Hu).
Qed.

(** C2.  When the assessment and its learner exist, completion succeeds, and
    for every subject with a score in the completed assessment's
    subject_scores the learner read back afterwards has a tier for that
    subject obeying the thresholds: advanced from 80 up, intermediate from 50
    up to but excluding 80, beginner below 50. *)
Theorem complete_assessment_tier_thresholds (w : World) (assessment_id : string)
    (a : Assessment) (u : User) :
  find_one (assessment_has_id assessment_id) (db_assessments (db w)) = Some a ->
  find_one (user_has_id (a_user_id a)) (db_users (db w)) = Some u ->
  exists resp w' a' u',
    complete_assessment assessment_id w = (Ok resp, w') /\
    find_one (assessment_has_id assessment_id) (db_assessments (db w')) = Some a' /\
    a_completed_at a' <> None /\
    find_one (user_has_id (a_user_id a)) (db_users (db w')) = Some u' /\
    forall (subject : string) (score : Q),
      In (subject, score) (a_subject_scores a') ->
      exists tier,
        dict_get subject (u_skill_levels u') = Some tier /\
        dict_get subject (cr_skill_levels resp) = Some tier /\
        tier_law score tier.
Proof.
  intros Ha Hu.
  destruct (complete_assessment_effect w assessment_id a u Ha Hu)
    as (resp & w' & Hrun & Hscores & Hlevels & Ha' & Hu').
  eexists resp, w', _, _.
  split; [exact Hrun|]. split; [exact Ha'|]. split; [discriminate|].
  split; [exact Hu'|].
  simpl. intros subject score Hin.
  exists (skill_level_of_score score).
  assert (Hget : dict_get subject (cr_skill_levels resp) = Some (skill_level_of_score score)).
  { rewrite Hlevels. apply skill_levels_of_get; [|assumption].
    rewrite Hscores. apply subject_scores_ok. }
  split; [assumption|]. split; [assumption|].
  apply skill_level_of_score_law.
Qed.

Lemma complete_assessment_tier_thresholds_witness :
  find_one (assessment_has_id "A2") (db_assessments (db sample_world))
    = Some answered_assessment /\
  find_one (user_has_id (a_user_id answered_assessment)) (db_users (db sample_world))
    = Some sample_learner /\
  exists resp w' a' u',
    complete_assessment "A2" sample_world = (Ok resp, w') /\
    find_one (assessment_has_id "A2") (db_assessments (db w')) = Some a' /\
    a_completed_at a' <> None /\
    find_one (user_has_id (a_user_id answered_assessment)) (db_users (db w')) = Some u' /\
    forall (subject : string) (score : Q),
      In (subject, score) (a_subject_scores a') ->
      exists tier,
        dict_get subject (u_skill_levels u') = Some tier /\
        dict_get subject (cr_skill_levels resp) = Some tier /\
        tier_law score tier.
Proof.
  split; [reflexivity|]. split; [reflexivity|].
  apply (complete_assessment_tier_thresholds sample_world "A2"
           answered_assessment sample_learner); reflexivity.
Defined.

(** C3.  When the assessment and its learner exist, completion replaces the
    learner's whole tier mapping: read back, its keys are exactly the
    subjects of this assessment's subject_scores, every other field of the
    learner is as before, and a subject that had a tier but has no score in
    this assessment has no tier any more. *)
Theorem complete_assessment_replaces_skill_levels (w : World) (assessment_id : string)
    (a : Assessment) (u : User) :
  find_one (assessment_has_id assessment_id) (db_assessments (db w)) = Some a ->
  find_one (user_has_id (a_user_id a)) (db_users (db w)) = Some u ->
  exists resp w' a' u',
    complete_assessment assessment_id w = (Ok resp, w') /\
    find_one (assessment_has_id assessment_id) (db_assessments (db w')) = Some a' /\
    find_one (user_has_id (a_user_id a)) (db_users (db w')) = Some u' /\
    dict_keys (u_skill_levels u') = dict_keys (a_subject_scores a') /\
    u' = set_skill_levels (u_skill_levels u') u /\
    forall subject : string,
      In subject (dict_keys (u_skill_levels u)) ->
      ~ In subject (dict_keys (a_subject_scores a')) ->
      dict_get subject (u_skill_levels u') = None.
Proof.
  intros Ha Hu.
  destruct (complete_assessment_effect w assessment_id a u Ha Hu)
    as (resp & w' & Hrun & Hscores & Hlevels & Ha' & Hu').
  eexists resp, w', _, _.
  split; [exact Hrun|]. split; [exact Ha'|]. split; [exact Hu'|].
  simpl.
  assert (Hkeys : dict_keys (cr_skill_levels resp) = dict_keys (cr_subject_scores resp)).
  { rewrite Hlevels. apply skill_levels_of_keys. rewrite Hscores. apply subject_scores_ok. }
  split; [assumption|]. split; [reflexivity|].
  intros subject _ Hnotin. apply dict_get_none_iff. now rewrite Hkeys.
Qed.

Lemma complete_assessment_replaces_skill_levels_witness :
  find_one (assessment_has_id "A3") (db_assessments (db tiered_world))
    = Some tiered_assessment /\
  find_one (user_has_id (a_user_id tiered_assessment)) (db_users (db tiered_world))
    = Some tiered_learner /\
  In "english" (dict_keys (u_skill_levels tiered_learner)) /\
  exists resp w' a' u',
    complete_assessment "A3" tiered_world = (Ok resp, w') /\
    find_one (assessment_has_id "A3") (db_assessments (db w')) = Some a' /\
    find_one (user_has_id (a_user_id tiered_assessment)) (db_users (db w')) = Some u' /\
    dict_keys (u_skill_levels u') = dict_keys (a_subject_scores a') /\
    u' = set_skill_levels (u_skill_levels u') tiered_learner /\
    forall subject : string,
      In subject (dict_keys (u_skill_levels tiered_learner)) ->
      ~ In subject (dict_keys (a_subject_scores a')) ->
      dict_get subject (u_skill_levels u') = None.
Proof.
  split; [reflexivity|]. split; [reflexivity|]. split; [simpl; tauto|].
  apply (complete_assessment_replaces_skill_levels tiered_world "A3"
           tiered_assessment tiered_learner); reflexivity.
Defined.

(** ** The random module *)

Lemma remove_nth_length {A : Type} (i : nat) (l : list A) :
  i < length l -> length (remove_nth i l) = length l - 1.
Proof.
  intros Hi. unfold remove_nth. rewrite length_app, length_firstn, length_skipn. lia.
Qed.

Lemma remove_nth_incl {A : Type} (i : nat) (l : list A) : incl (remove_nth i l) l.
Proof.
  unfold remove_nth. revert i. induction l as [|x l IH]; intros i y Hy.
  - destruct i; simpl in Hy; contradiction.
  - destruct i as [|i]; simpl in Hy.
    + now right.
    + destruct Hy as [->|Hy]; [now left | right; now apply (IH i)].
Qed.

Lemma random_choice_spec {A : Type} (l : list A) (w : World) :
  l <> [] ->
  exists x w', random_choice l w = (Ok x, w') /\ In x l /\
               db w' = db w /\ llm w' = llm w.
Proof.
  intros Hne. destruct l as [|d l]; [contradiction|].
  unfold random_choice, bind, random_draw, ret.
  eexists _, _. split; [reflexivity|]. split; [|split; reflexivity].
  apply nth_In. apply Nat.mod_upper_bound. discriminate.
Qed.

Lemma random_sample_step {A : Type} (d : A) (rest : list A) (k : nat) (w : World) :
  random_sample (d :: rest) (S k) w =
    match random_sample
            (remove_nth (rand_stream w 0 mod length (d :: rest)) (d :: rest)) k
            (mkWorld (db w) (uuid_stream w) (tail_of (rand_stream w)) (clock w) (llm w))
    with
    | (Ok l, w') => (Ok (nth (rand_stream w 0 mod length (d :: rest)) (d :: rest) d :: l), w')
    | (Raise e, w') => (Raise e, w')
    end.
Proof. reflexivity. Qed.

Lemma random_sample_spec {A : Type} (k : nat) :
  forall (population : list A) (w : World),
    k <= length population ->
    exists l w', random_sample population k w = (Ok l, w') /\
                 length l = k /\ incl l population /\
                 db w' = db w /\ llm w' = llm w.
Proof.
  induction k as [|k IH]; intros population w Hk.
  - exists [], w. simpl. unfold ret. repeat split. intros x [].
  - destruct population as [|d rest]; [simpl in Hk; lia|].
    set (pop := d :: rest) in *.
    assert (Hi : rand_stream w 0 mod length pop < length pop).
    { apply Nat.mod_upper_bound. discriminate. }
    set (w1 := mkWorld (db w) (uuid_stream w) (tail_of (rand_stream w)) (clock w) (llm w)).
    destruct (IH (remove_nth (rand_stream w 0 mod length pop) pop) w1)
      as (l & w' & Hrun & Hlen & Hincl & Hdb & Hllm).
    { rewrite remove_nth_length by assumption. lia. }
    exists (nth (rand_stream w 0 mod length pop) pop d :: l), w'.
    split.
    + unfold pop at 1. rewrite random_sample_step. fold pop. fold w1.
      now rewrite Hrun.
    + split; [simpl; lia|]. split; [|split; assumption].
      intros x [<-|Hx].
      * now apply nth_In.
      * eapply remove_nth_incl. now apply Hincl.
Qed.

Lemma random_shuffle_spec {A : Type} (l : list A) (w : World) :
  exists l' w', random_shuffle l w = (Ok l', w') /\
                length l' = length l /\ incl l' l /\
                db w' = db w /\ llm w' = llm w.
Proof. unfold random_shuffle. apply random_sample_spec. lia. Qed.

(** ** StartDiagnostic *)

Lemma with_identity_ids (catalog : list QDict) :
  map fst (with_identity catalog) = seq 0 (length catalog).
Proof.
  unfold with_identity. generalize 0 as start.
  induction catalog as [|q rest IH]; intros start; simpl; [reflexivity|].
  now rewrite IH.
Qed.

Lemma with_identity_NoDup (catalog : list QDict) :
  NoDup (map fst (with_identity catalog)).
Proof. rewrite with_identity_ids. apply seq_NoDup. Qed.

Lemma with_identity_snd (catalog : list QDict) (q : nat * QDict) :
  In q (with_identity catalog) -> In (snd q) catalog.
Proof.
  destruct q as [i q]. unfold with_identity. intros H.
  now apply in_combine_r in H.
Qed.

Lemma same_identity_same_entry {A : Type} (l : list (nat * A)) (x y : nat * A) :
  NoDup (map fst l) -> In x l -> In y l -> fst x = fst y -> x = y.
Proof.
  induction l as [|z l IH]; simpl; [tauto|].
  intros Hnd Hx Hy Hxy. inversion Hnd as [|? ? Hnotin Hnd']; subst.
  destruct Hx as [->|Hx], Hy as [->|Hy].
  - reflexivity.
  - exfalso. apply Hnotin. rewrite Hxy. now apply in_map.
  - exfalso. apply Hnotin. rewrite <- Hxy. now apply in_map.
  - now apply IH.
Qed.

Lemma mem_nat_In (n : nat) (s : list nat) : mem_nat n s = true <-> In n s.
Proof.
  unfold mem_nat. rewrite existsb_exists. split.
  - intros (x & Hx & E). apply Nat.eqb_eq in E. now subst.
  - intros H. exists n. split; [assumption | apply Nat.eqb_refl].
Qed.

Lemma subject_slice_In (catalog : list (nat * QDict)) (subject : string) (q : nat * QDict) :
  In q (subject_slice catalog subject) <-> In q catalog /\ d_subject (snd q) = subject.
Proof.
  unfold subject_slice. rewrite filter_In. now rewrite String.eqb_eq.
Qed.

Lemma nth_remove_nth_Permutation {A : Type} (d : A) (l : list A) :
  forall i, i < length l -> Permutation l (nth i l d :: remove_nth i l).
Proof.
  unfold remove_nth. induction l as [|a l IH]; intros i Hi; [simpl in Hi; lia|].
  destruct i as [|i]; simpl.
  - apply Permutation_refl.
  - apply perm_trans with (a :: nth i l d :: firstn i l ++ skipn (S i) l).
    + apply perm_skip. apply IH. simpl in Hi. lia.
    + apply perm_swap.
Qed.

(** A sample is a choice of distinct positions: what is drawn and what is
    left make up the population. *)
Lemma random_sample_Permutation {A : Type} (k : nat) :
  forall (population : list A) (w : World) (l : list A) (w' : World),
    random_sample population k w = (Ok l, w') ->
    exists rest, Permutation population (l ++ rest).
Proof.
  induction k as [|k IH]; intros population w l w' Hrun.
  - simpl in Hrun. unfold ret in Hrun. injection Hrun as <- _.
    exists population. apply Permutation_refl.
  - destruct population as [|d rest0]; [discriminate|].
    rewrite random_sample_step in Hrun.
    set (i := rand_stream w 0 mod length (d :: rest0)) in *.
    destruct (random_sample (remove_nth i (d :: rest0)) k _) as [[l0|e] w2] eqn:Hrec;
      [|discriminate].
    injection Hrun as <- _.
    destruct (IH _ _ _ _ Hrec) as (rest & Hperm).
    exists rest. simpl.
    apply perm_trans with (nth i (d :: rest0) d :: remove_nth i (d :: rest0)).
    + apply nth_remove_nth_Permutation. apply Nat.mod_upper_bound. discriminate.
    + now apply perm_skip.
Qed.

Lemma random_sample_NoDup {A B : Type} (f : A -> B) (k : nat) (population : list A)
    (w : World) (l : list A) (w' : World) :
  random_sample population k w = (Ok l, w') ->
  NoDup (map f population) -> NoDup (map f l).
Proof.
  intros Hrun Hnd.
  destruct (random_sample_Permutation k population w l w' Hrun) as (rest & Hperm).
  apply (Permutation_map f) in Hperm. rewrite map_app in Hperm.
  apply (Permutation_NoDup Hperm) in Hnd. now apply NoDup_app_remove_r in Hnd.
Qed.

Lemma random_shuffle_Permutation {A : Type} (l : list A) (w : World) (l' : list A)
    (w' : World) :
  random_shuffle l w = (Ok l', w') -> Permutation l l'.
Proof.
  intros Hrun.
  destruct (random_shuffle_spec l w) as (l2 & w2 & Hrun2 & Hlen & _).
  rewrite Hrun in Hrun2. injection Hrun2 as <- _.
  destruct (random_sample_Permutation (length l) l w l' w' Hrun) as (rest & Hperm).
  assert (Hrest : rest = []).
  { apply Permutation_length in Hperm. rewrite length_app in Hperm.
    destruct rest; [reflexivity | simpl in Hperm; lia]. }
  subst rest. now rewrite app_nil_r in Hperm.
Qed.

Lemma subject_slice_distinct (catalog : list (nat * QDict)) (subject : string) :
  NoDup (map fst catalog) -> NoDup (map fst (subject_slice catalog subject)).
Proof.
  unfold subject_slice. induction catalog as [|entry catalog IH]; intros Hcat.
  - constructor.
  - inversion Hcat as [|? ? Hnew Hcat']; subst. simpl.
    destruct (String.eqb (d_subject (snd entry)) subject); [|now apply IH].
    simpl. constructor; [|now apply IH].
    intros Hold. apply Hnew. apply in_map_iff in Hold.
    destruct Hold as (other & Hid & Hother). apply filter_In in Hother.
    apply in_map_iff. exists other. tauto.
Qed.

Lemma filter_nil_none {A : Type} (p : A -> bool) (l : list A) (x : A) :
  filter p l = [] -> In x l -> p x = false.
Proof.
  intros Hnil Hin. destruct (p x) eqn:Hp; [|reflexivity].
  assert (Hx : In x (filter p l)) by (apply filter_In; tauto).
  rewrite Hnil in Hx. contradiction.
Qed.

Lemma with_identity_length (catalog : list QDict) :
  length (with_identity catalog) = length catalog.
Proof.
  unfold with_identity. rewrite length_combine, length_seq. apply Nat.min_id.
Qed.

Lemma distinct_within (catalog picked : list (nat * QDict)) :
  NoDup (map fst picked) -> incl picked catalog -> length picked <= length catalog.
Proof.
  intros Hnd Hincl. apply NoDup_incl_length; [|assumption].
  now apply NoDup_map_inv in Hnd.
Qed.

(** The per-subject loop, entered with distinct questions of other subjects
    only, finds every entry of the next subject unused and adds up to three
    of them, all different. *)
Lemma sample_per_subject_spec (catalog : list (nat * QDict)) (subjects : list string) :
  NoDup (map fst catalog) ->
  NoDup subjects ->
  forall (questions : list (nat * QDict)) (w : World),
    incl questions catalog ->
    NoDup (map fst questions) ->
    (forall q, In q questions -> ~ In (d_subject (snd q)) subjects) ->
    exists questions' w',
      sample_per_subject catalog subjects questions (map fst questions) w
        = (Ok (questions', map fst questions'), w') /\
      incl questions' catalog /\
      NoDup (map fst questions') /\
      length questions' = length questions + per_subject_count catalog subjects /\
      db w' = db w /\ llm w' = llm w.
Proof.
  intros Hcat Hsubjects.
  induction subjects as [|s rest IH]; intros questions w Hincl Hnd Hother.
  - exists questions, w. unfold per_subject_count. simpl. unfold ret.
    repeat split; [assumption | assumption | lia].
  - inversion Hsubjects as [|? ? Hs Hrest]; subst.
    assert (Hfresh : forall q, In q (subject_slice catalog s) ->
                               ~ In (fst q) (map fst questions)).
    { intros q Hq Hused. apply subject_slice_In in Hq. destruct Hq as [Hq Hsub].
      apply in_map_iff in Hused. destruct Hused as (q' & Hfst & Hq').
      assert (q' = q)
        by exact (same_identity_same_entry catalog q' q Hcat (Hincl q' Hq') Hq Hfst).
      subst q'. apply (Hother q Hq'). rewrite Hsub. now left. }
    assert (Hall : filter (unused (map fst questions)) (subject_slice catalog s)
                   = subject_slice catalog s).
    { apply forallb_filter_id. apply forallb_forall. intros q Hq.
      unfold unused. apply negb_true_iff. apply not_true_is_false.
      rewrite mem_nat_In. now apply Hfresh. }
    destruct (random_sample_spec (Nat.min 3 (length (subject_slice catalog s)))
                (subject_slice catalog s) w)
      as (selected & w1 & Hrun & Hlen & Hsel & Hdb1 & Hllm1); [lia|].
    assert (Hsel_nd : NoDup (map fst selected)).
    { apply (random_sample_NoDup fst _ _ _ _ _ Hrun).
      now apply subject_slice_distinct. }
    destruct (IH Hrest (questions ++ selected) w1)
      as (questions' & w' & Hrun' & Hincl' & Hnd' & Hlen' & Hdb' & Hllm').
    { apply incl_app; [assumption|].
      intros q Hq. apply Hsel in Hq. now apply subject_slice_In in Hq. }
    { rewrite map_app. apply NoDup_app; [assumption | assumption |].
      intros i Hi Hi'. apply in_map_iff in Hi'. destruct Hi' as (q & <- & Hq).
      apply (Hfresh q); [now apply Hsel | assumption]. }
    { intros q Hq Hin. apply in_app_or in Hq. destruct Hq as [Hq|Hq].
      - apply (Hother q Hq). now right.
      - apply Hsel in Hq. apply subject_slice_In in Hq. destruct Hq as [_ Hsub].
        rewrite Hsub in Hin. contradiction. }
    exists questions', w'. split.
    + cbn [sample_per_subject]. fold (subject_slice catalog s). rewrite Hall.
      unfold bind at 1. rewrite Hrun. rewrite <- map_app. exact Hrun'.
    + split; [assumption|]. split; [assumption|]. split.
      * rewrite Hlen', length_app, Hlen. unfold per_subject_count. simpl. lia.
      * split; congruence.
Qed.

(** The top-up loop adds distinct unused entries, one per pass, and stops
    early only when the whole catalog is in use. *)
Lemma fill_up_spec (catalog : list (nat * QDict)) :
  NoDup (map fst catalog) ->
  forall (passes : nat) (questions : list (nat * QDict)) (w : World),
    incl questions catalog ->
    NoDup (map fst questions) ->
    exists questions' w',
      fill_up passes catalog questions (map fst questions) w
        = (Ok (questions', map fst questions'), w') /\
      incl questions' catalog /\
      NoDup (map fst questions') /\
      length questions <= length questions' /\
      (length questions' = length questions + passes \/
       (length questions' = length catalog /\
        length questions' <= length questions + passes)) /\
      db w' = db w /\ llm w' = llm w.
Proof.
  intros Hcat. induction passes as [|passes IH]; intros questions w Hincl Hnd.
  - exists questions, w. simpl. unfold ret.
    repeat split; try assumption; [lia | left; lia].
  - cbn [fill_up].
    destruct (filter (unused (map fst questions)) catalog) as [|x rest] eqn:Hrem.
    + exists questions, w. unfold ret.
      assert (Hfull : length catalog <= length questions).
      { rewrite <- (length_map fst catalog), <- (length_map fst questions).
        apply NoDup_incl_length; [assumption|].
        intros i Hi. apply in_map_iff in Hi. destruct Hi as (q & <- & Hq).
        pose proof (filter_nil_none _ _ q Hrem Hq) as Hused.
        unfold unused in Hused. apply negb_false_iff in Hused.
        now apply mem_nat_In. }
      pose proof (distinct_within catalog questions Hnd Hincl).
      repeat split; try assumption; [lia | right; lia].
    + destruct (random_choice_spec (x :: rest) w) as (selected & w1 & Hrun & Hin & Hdb1 & Hllm1);
        [discriminate|].
      rewrite <- Hrem in Hin. apply filter_In in Hin. destruct Hin as [Hsel Hunused].
      assert (Hnew : ~ In (fst selected) (map fst questions)).
      { unfold unused in Hunused. apply negb_true_iff in Hunused.
        rewrite <- mem_nat_In. congruence. }
      destruct (IH (questions ++ [selected]) w1)
        as (questions' & w' & Hrun' & Hincl' & Hnd' & Hle & Hlen & Hdb' & Hllm').
      { apply incl_app; [assumption|]. intros q [<-|[]]. assumption. }
      { rewrite map_app. apply NoDup_app; [assumption | repeat constructor; intros [] |].
        intros i Hi [<-|[]]. contradiction. }
      exists questions', w'. split.
      * unfold bind. rewrite Hrun.
        change [fst selected] with (map fst [selected]). rewrite <- map_app. exact Hrun'.
      * rewrite length_app in Hle, Hlen. simpl in Hle, Hlen.
        repeat split; try assumption; try congruence; [lia|].
        destruct Hlen as [Hlen|[Hlen Hle']]; [left | right]; lia.
Qed.

(** The questions of a diagnostic over any catalog: distinct catalog
    entries, as many as [diagnostic_count] says. *)
Lemma select_diagnostic_questions_spec (catalog : list QDict) (w : World) :
  exists picked w',
    select_diagnostic_questions catalog w = (Ok (map snd picked), w') /\
    incl picked (with_identity catalog) /\
    NoDup (map fst picked) /\
    length picked = diagnostic_count catalog /\
    length picked <= length catalog /\
    db w' = db w /\ llm w' = llm w.
Proof.
  assert (Hsubjects : NoDup diagnostic_subjects).
  { unfold diagnostic_subjects.
    repeat constructor; simpl; intuition discriminate. }
  pose proof (with_identity_NoDup catalog) as Hcat.
  destruct (sample_per_subject_spec (with_identity catalog) diagnostic_subjects
              Hcat Hsubjects [] w)
    as (qs & w1 & Hrun1 & Hincl1 & Hnd1 & Hlen1 & Hdb1 & Hllm1).
  { intros q []. }
  { constructor. }
  { intros q []. }
  simpl in Hlen1.
  destruct (fill_up_spec (with_identity catalog) Hcat (10 - length qs) qs w1 Hincl1 Hnd1)
    as (qs2 & w2 & Hrun2 & Hincl2 & Hnd2 & Hle2 & Hlen2 & Hdb2 & Hllm2).
  destruct (random_shuffle_spec qs2 w2) as (qs3 & w3 & Hrun3 & Hlen3 & _ & Hdb3 & Hllm3).
  pose proof (random_shuffle_Permutation qs2 w2 qs3 w3 Hrun3) as Hperm.
  pose proof (distinct_within _ _ Hnd2 Hincl2) as Hbound.
  rewrite with_identity_length in Hbound, Hlen2.
  exists qs3, w3. split.
  - unfold select_diagnostic_questions. unfold bind at 1.
    change (map fst (@nil (nat * QDict))) with (@nil nat) in Hrun1. rewrite Hrun1.
    unfold bind at 1. rewrite Hrun2.
    unfold bind. rewrite Hrun3. reflexivity.
  - split.
    { intros q Hq. apply Hincl2. apply (Permutation_in q (Permutation_sym Hperm) Hq). }
    split.
    { apply (Permutation_NoDup (Permutation_map fst Hperm) Hnd2). }
    split; [|split; [lia | split; congruence]].
    unfold diagnostic_count. rewrite <- Hlen1.
    destruct (Nat.leb_spec 10 (length qs)); lia.
Qed.

Lemma uuid4_for_each_spec {A : Type} (l : list A) :
  forall w : World,
    exists ids w', uuid4_for_each l w = (Ok ids, w') /\ length ids = length l /\
                   db w' = db w /\ llm w' = llm w.
Proof.
  induction l as [|x l IH]; intros w.
  - exists [], w. now repeat split.
  - set (w1 := mkWorld (db w) (tail_of (uuid_stream w)) (rand_stream w) (clock w) (llm w)).
    destruct (IH w1) as (ids & w' & Hrun & Hlen & Hdb & Hllm).
    exists (uuid_stream w 0 :: ids), w'. split.
    + cbn [uuid4_for_each]. unfold bind at 1. unfold uuid4. fold w1.
      unfold bind at 1. rewrite Hrun. reflexivity.
    + simpl. repeat split; [lia | assumption | assumption].
Qed.

Lemma question_of_dict_spec (new_id : string) (q_data : QDict) :
  convertible_dict q_data = true ->
  exists q, (forall w, question_of_dict new_id q_data w = (Ok q, w)) /\
            q_id q = new_id /\ copies_dict q q_data.
Proof.
  unfold convertible_dict, question_of_dict. intros Hconv.
  destruct (SubjectType_of (d_subject q_data)) as [s|]; [|discriminate].
  destruct (DifficultyLevel_of (d_difficulty q_data)) as [l|]; [|discriminate].
  eexists. split; [reflexivity|]. unfold copies_dict. simpl. tauto.
Qed.

Lemma question_objects_of_spec (questions : list QDict) :
  forall ids : list string,
    length ids = length questions ->
    forallb convertible_dict questions = true ->
    exists objects,
      (forall w, question_objects_of ids questions w = (Ok objects, w)) /\
      map q_id objects = ids /\
      Forall2 copies_dict objects questions.
Proof.
  induction questions as [|q_data rest IH]; intros ids Hlen Hconv.
  - exists []. destruct ids; [|discriminate]. simpl. unfold ret. repeat split. constructor.
  - destruct ids as [|i ids]; [discriminate|].
    simpl in Hconv. apply andb_true_iff in Hconv. destruct Hconv as [Hq Hrest].
    destruct (question_of_dict_spec i q_data Hq) as (q & Hrun & Hid & Hcopy).
    destruct (IH ids) as (objects & Hrun' & Hids & Hall); [simpl in Hlen; lia | assumption |].
    exists (q :: objects). split.
    + intros w. cbn [question_objects_of]. unfold bind at 1. rewrite Hrun.
      unfold bind at 1. rewrite Hrun'. reflexivity.
    + split; [simpl; congruence|]. now constructor.
Qed.

Lemma forallb_incl {A : Type} (p : A -> bool) (l l' : list A) :
  incl l l' -> forallb p l' = true -> forallb p l = true.
Proof.
  intros Hincl Hall. apply forallb_forall. intros x Hx.
  rewrite forallb_forall in Hall. apply Hall. now apply Hincl.
Qed.

(** A diagnostic over any catalog whose entries the enums accept: it
    succeeds, stores one fresh question per picked entry and reports them. *)
Lemma start_diagnostic_test_on_spec (catalog : list QDict) (user_id : string) (w : World) :
  forallb convertible_dict catalog = true ->
  exists resp w' picked objects,
    start_diagnostic_test_on catalog user_id w = (Ok resp, w') /\
    incl picked (with_identity catalog) /\
    NoDup (map fst picked) /\
    length picked = diagnostic_count catalog /\
    Forall2 copies_dict objects (map snd picked) /\
    dr_total_questions resp = length picked /\
    dr_questions resp = map summary_of objects /\
    db_questions (db w') = db_questions (db w) ++ objects /\
    llm w' = llm w.
Proof.
  intros Hconv.
  destruct (select_diagnostic_questions_spec catalog w)
    as (picked & w1 & Hsel & Hincl & Hnd & Hlen & _ & Hdb1 & Hllm1).
  destruct (uuid4_for_each_spec (map snd picked) w1)
    as (ids & w2 & Hids & Hlen2 & Hdb2 & Hllm2).
  destruct (question_objects_of_spec (map snd picked) ids Hlen2)
    as (objects & Hobj & _ & Hall).
  { eapply forallb_incl; [|exact Hconv].
    intros q Hq. apply in_map_iff in Hq. destruct Hq as (iq & <- & Hiq).
    apply with_identity_snd. now apply Hincl. }
  eexists _, _, picked, objects. split.
  - unfold start_diagnostic_test_on.
    unfold bind at 1. rewrite Hsel.
    unfold bind at 1. rewrite Hids.
    unfold bind at 1. unfold uuid4.
    unfold bind at 1. unfold datetime_now.
    unfold bind at 1. cbn [a_questions]. rewrite Hobj.
    unfold bind, modify_db, read_db, write_db, ret. cbn [a_id]. reflexivity.
  - cbn [dr_total_questions dr_questions].
    split; [assumption|]. split; [assumption|]. split; [assumption|].
    split; [assumption|]. split; [apply length_map|]. split; [reflexivity|].
    simpl. unfold insert_many. rewrite Hdb2, Hdb1, Hllm2, Hllm1. split; reflexivity.
Qed.

Lemma SAMPLE_QUESTIONS_convertible : forallb convertible_dict SAMPLE_QUESTIONS = true.
Proof. vm_compute. reflexivity. Qed.

Lemma SAMPLE_QUESTIONS_diagnostic_count : diagnostic_count SAMPLE_QUESTIONS = 12.
Proof. vm_compute. reflexivity. Qed.

Lemma Forall2_copies_from (objects : list Question) (entries catalog : list QDict) :
  Forall2 copies_dict objects entries ->
  incl entries catalog ->
  Forall (fun q => exists d, In d catalog /\ copies_dict q d) objects.
Proof.
  intros Hall. induction Hall as [|q d objects entries Hq Hall IH]; intros Hincl.
  - constructor.
  - constructor.
    + exists d. split; [apply Hincl; now left | assumption].
    + apply IH. intros x Hx. apply Hincl. now right.
Qed.

(** What a diagnostic over the shipped bank does, whatever the random draws:
    twelve questions, each a copy of a bank entry, appended to the questions
    collection. *)
Lemma start_diagnostic_test_spec (user_id : string) (w : World) :
  exists resp w' objects,
    start_diagnostic_test user_id w = (Ok resp, w') /\
    dr_total_questions resp = 12 /\
    dr_questions resp = map summary_of objects /\
    length objects = 12 /\
    Forall (fun q => exists d, In d SAMPLE_QUESTIONS /\ copies_dict q d) objects /\
    db_questions (db w') = db_questions (db w) ++ objects /\
    llm w' = llm w.
Proof.
  destruct (start_diagnostic_test_on_spec SAMPLE_QUESTIONS user_id w
              SAMPLE_QUESTIONS_convertible)
    as (resp & w' & picked & objects & Hrun & Hincl & _ & Hlen & Hall & Htotal & Hqs
        & Hdb & Hllm).
  rewrite SAMPLE_QUESTIONS_diagnostic_count in Hlen.
  exists resp, w', objects. split; [exact Hrun|].
  split; [congruence|]. split; [assumption|]. split.
  - apply Forall2_length in Hall. rewrite length_map in Hall. congruence.
  - split; [|split; assumption].
    apply (Forall2_copies_from objects (map snd picked)); [assumption|].
    intros q Hq. apply in_map_iff in Hq. destruct Hq as (iq & <- & Hiq).
    apply with_identity_snd. now apply Hincl.
Qed.


(** No catalog makes a diagnostic longer than twelve questions, and a
    catalog with ten entries or more never makes it shorter than ten. *)
Lemma diagnostic_count_range (catalog : list QDict) :
  diagnostic_count catalog <= 12 /\
  (10 <= length catalog -> 10 <= diagnostic_count catalog).
Proof.
  assert (Hcollected : per_subject_count (with_identity catalog) diagnostic_subjects <= 12).
  { unfold per_subject_count, diagnostic_subjects. cbn [map list_sum fold_right].
    pose proof (Nat.le_min_l 3 (length (subject_slice (with_identity catalog) "quantitative"))).
    pose proof (Nat.le_min_l 3 (length (subject_slice (with_identity catalog) "reasoning"))).
    pose proof (Nat.le_min_l 3 (length (subject_slice (with_identity catalog) "english"))).
    pose proof (Nat.le_min_l 3 (length (subject_slice (with_identity catalog)
                                          "general_knowledge"))).
    lia. }
  unfold diagnostic_count. cbv zeta.
  destruct (Nat.leb_spec 10 (per_subject_count (with_identity catalog) diagnostic_subjects));
    lia.
Qed.

(** C4.  On the shipped question bank the diagnostic succeeds for every
    learner id and whatever the random draws, and it returns twelve
    questions, three from each of the four subjects: more than the ten
    questions its docstring announces, because nothing trims the list once
    the per-subject loop has collected more than ten. *)
Theorem start_diagnostic_test_returns_twelve (user_id : string) (w : World) :
  exists resp w',
    start_diagnostic_test user_id w = (Ok resp, w') /\
    dr_total_questions resp = 12 /\
    length (dr_questions resp) = 12 /\
    ~ length (dr_questions resp) <= 10.
Proof.
  destruct (start_diagnostic_test_spec user_id w)
    as (resp & w' & objects & Hrun & Htotal & Hqs & Hlen & _).
  exists resp, w'. split; [assumption|]. split; [assumption|].
  rewrite Hqs, length_map, Hlen. split; [reflexivity | lia].
Qed.

(** ** GetAdaptivePractice *)

Lemma weakest_subjects_nonempty (skill_levels : list (string * string)) :
  weakest_subjects_of skill_levels <> [].
Proof.
  unfold weakest_subjects_of.
  destruct (flat_map weighted_entry skill_levels); discriminate.
Qed.

Lemma weighted_entry_subject (e : string * string) (s : string) :
  In s (weighted_entry e) -> s = fst e.
Proof.
  destruct e as [subject level]. unfold weighted_entry.
  destruct (String.eqb level "beginner"); [|destruct (String.eqb level "intermediate")];
    simpl; intuition congruence.
Qed.

Lemma accepted_entry_In (skill_levels : list (string * string)) (e : string * string) :
  accepted_skill_levels skill_levels -> In e skill_levels ->
  exists subject level,
    SubjectType_of (fst e) = Some subject /\ DifficultyLevel_of (snd e) = Some level.
Proof.
  unfold accepted_skill_levels. rewrite forallb_forall. intros Hall Hin.
  specialize (Hall e Hin). unfold accepted_entry in Hall.
  destruct (SubjectType_of (fst e)) as [s|]; [|discriminate].
  destruct (DifficultyLevel_of (snd e)) as [l|]; [|discriminate].
  now exists s, l.
Qed.

(** With an accepted tier mapping, every subject an adaptive pass can draw
    and the difficulty it looks up pass the enum conversions. *)
Lemma weakest_subjects_accepted (user : User) (s : string) :
  accepted_skill_levels (u_skill_levels user) ->
  In s (weakest_subjects_of (u_skill_levels user)) ->
  exists subject level,
    SubjectType_of s = Some subject /\
    DifficultyLevel_of (difficulty_for user s) = Some level.
Proof.
  intros Hacc Hin.
  assert (Hlevel : exists level, DifficultyLevel_of (difficulty_for user s) = Some level).
  { unfold difficulty_for.
    destruct (dict_get s (u_skill_levels user)) as [lv|] eqn:Hget.
    - apply dict_get_in in Hget.
      destruct (accepted_entry_In _ _ Hacc Hget) as (_ & level & _ & Hl).
      now exists level.
    - now exists BEGINNER. }
  destruct Hlevel as (level & Hlevel).
  unfold weakest_subjects_of in Hin.
  destruct (flat_map weighted_entry (u_skill_levels user)) as [|x rest] eqn:Hflat.
  - simpl in Hin.
    destruct Hin as [<-|[<-|[<-|[<-|[]]]]]; eexists _, level; (split; [reflexivity | assumption]).
  - rewrite <- Hflat in Hin. apply in_flat_map in Hin.
    destruct Hin as (e & He & Hs). apply weighted_entry_subject in Hs. subst s.
    destruct (accepted_entry_In _ _ Hacc He) as (subject & _ & Hsub & _).
    now exists subject, level.
Qed.

Lemma generate_adaptive_question_spec (subject difficulty : string) (w : World) :
  exists r w',
    generate_adaptive_question subject difficulty w = (Ok r, w') /\
    db w' = db w /\ llm w' = tail_of (llm w) /\ uuid_stream w' = uuid_stream w /\
    match llm w 0 with
    | JSONQuestion p => r = Some p
    | JSONUnusable => r = None
    | NotJSON => exists d, In d SAMPLE_QUESTIONS /\ r = Some (payload_of_dict d)
    end.
Proof.
  unfold generate_adaptive_question. unfold bind at 1. unfold ask_llm.
  destruct (llm w 0) as [| |p] eqn:Hreply.
  - set (w1 := mkWorld (db w) (uuid_stream w) (rand_stream w) (clock w) (tail_of (llm w))).
    set (matching := filter _ SAMPLE_QUESTIONS).
    destruct matching as [|m ms] eqn:Hmatch.
    + destruct SAMPLE_QUESTIONS as [|q0 rest] eqn:Hbank.
      * unfold SAMPLE_QUESTIONS in Hbank. discriminate.
      * eexists _, _. split; [reflexivity|]. repeat split.
        exists q0. split; [now left | reflexivity].
    + destruct (random_choice_spec (m :: ms) w1) as (q & w' & Hrun & Hin & Hdb & Hllm);
        [discriminate|].
      exists (Some (payload_of_dict q)), w'. split.
      * unfold bind. rewrite Hrun. reflexivity.
      * split; [assumption|]. split; [assumption|]. split.
        -- unfold random_choice, bind, random_draw, ret in Hrun.
           injection Hrun as _ <-. reflexivity.
        -- exists q. split; [|reflexivity].
           rewrite <- Hmatch in Hin. unfold matching in Hin.
           now apply filter_In in Hin.
  - eexists _, _. split; [reflexivity|]. now repeat split.
  - eexists _, _. split; [reflexivity|]. now repeat split.
Qed.

Lemma MOCK_ADAPTIVE_QUESTIONS_convertible :
  forallb convertible_dict MOCK_ADAPTIVE_QUESTIONS = true.
Proof. vm_compute. reflexivity. Qed.

(** The inner [try] body: a stored question under the learner's exam, or an
    exception that leaves the database alone. *)
Lemma generated_question_spec (user : User) (selected_subject difficulty : string)
    (w : World) :
  (exists q w',
      generated_question user selected_subject difficulty w = (Ok q, w') /\
      db w' = questions_insert_one q (db w) /\ llm w' = tail_of (llm w) /\
      q_exam_type q = u_target_exam user /\
      ((exists p, llm w 0 = JSONQuestion p /\ copies_payload q p) \/
       (llm w 0 = NotJSON /\
        exists d, In d SAMPLE_QUESTIONS /\ copies_payload q (payload_of_dict d)))) \/
  (exists e w',
      generated_question user selected_subject difficulty w = (Raise e, w') /\
      db w' = db w /\ llm w' = tail_of (llm w) /\
      (llm w 0 = JSONUnusable \/
       SubjectType_of selected_subject = None \/
       DifficultyLevel_of difficulty = None)).
Proof.
  destruct (generate_adaptive_question_spec selected_subject difficulty w)
    as (r & w1 & Hgen & Hdb & Hllm & Huuid & Hreply).
  assert (Hstep : generated_question user selected_subject difficulty w =
                  match r, SubjectType_of selected_subject, DifficultyLevel_of difficulty with
                  | Some p, Some subject, Some level =>
                      let q := mkQuestion (uuid_stream w1 0) subject level
                                 (p_question_text_en p) (p_question_text_hi p)
                                 (p_options_en p) (p_options_hi p) (p_correct_answer p)
                                 (p_explanation_en p) (p_explanation_hi p)
                                 (u_target_exam user) in
                      (Ok q,
                       mkWorld (questions_insert_one q (db w1)) (tail_of (uuid_stream w1))
                               (rand_stream w1) (clock w1) (llm w1))
                  | _, _, _ => (Raise ValidationError, w1)
                  end).
  { unfold generated_question. unfold bind at 1. rewrite Hgen.
    destruct r as [p|]; [|reflexivity].
    destruct (SubjectType_of selected_subject); [|reflexivity].
    destruct (DifficultyLevel_of difficulty); reflexivity. }
  rewrite Hstep. clear Hstep.
  destruct r as [p|].
  - destruct (SubjectType_of selected_subject) as [subject|].
    + destruct (DifficultyLevel_of difficulty) as [level|].
      * left. eexists _, _. split; [reflexivity|].
        cbn [db llm q_exam_type]. rewrite Hdb. split; [reflexivity|].
        split; [assumption|]. split; [reflexivity|].
        destruct (llm w 0) as [| |p0].
        -- right. split; [reflexivity|]. destruct Hreply as (d & Hd & Hp).
           injection Hp as ->. exists d. split; [assumption|].
           unfold copies_payload. simpl. tauto.
        -- discriminate.
        -- left. injection Hreply as ->. exists p0. split; [reflexivity|].
           unfold copies_payload. simpl. tauto.
      * right. exists ValidationError, w1. unfold raise.
        split; [reflexivity|]. split; [assumption|]. split; [assumption|].
        right. right. reflexivity.
    + right. exists ValidationError, w1. unfold raise.
      split; [reflexivity|]. split; [assumption|]. split; [assumption|].
      right. left. reflexivity.
  - right. exists ValidationError, w1. unfold raise.
    split; [reflexivity|]. split; [assumption|]. split; [assumption|].
    left. destruct (llm w 0) as [| |p0]; [|reflexivity|discriminate].
    destruct Hreply as (d & _ & Hd). discriminate.
Qed.

(** The inner [except] body never fails and stores a copy of a mock entry. *)
Lemma mock_question_for_spec (used_questions : list string) (w : World) :
  exists q used' w' m,
    mock_question_for used_questions w = (Ok (q, used'), w') /\
    In m MOCK_ADAPTIVE_QUESTIONS /\ copies_dict q m /\
    db w' = questions_insert_one q (db w) /\ llm w' = llm w.
Proof.
  unfold mock_question_for.
  set (available := filter _ MOCK_ADAPTIVE_QUESTIONS).
  assert (Hchoice : exists pool used0,
             match available with
             | [] => (MOCK_ADAPTIVE_QUESTIONS, [])
             | _ :: _ => (available, used_questions)
             end = (pool, used0) /\ pool <> [] /\ incl pool MOCK_ADAPTIVE_QUESTIONS).
  { destruct available as [|a rest] eqn:Havail.
    - exists MOCK_ADAPTIVE_QUESTIONS, []. split; [reflexivity|].
      split; [unfold MOCK_ADAPTIVE_QUESTIONS; discriminate | apply incl_refl].
    - exists (a :: rest), used_questions. split; [reflexivity|].
      split; [discriminate|]. rewrite <- Havail. unfold available.
      intros x Hx. now apply filter_In in Hx. }
  destruct Hchoice as (pool & used0 & -> & Hne & Hincl).
  destruct (random_choice_spec pool w Hne) as (m & w1 & Hrun & Hin & Hdb & Hllm).
  assert (Hconv : convertible_dict m = true).
  { pose proof MOCK_ADAPTIVE_QUESTIONS_convertible as Hall.
    rewrite forallb_forall in Hall. apply Hall. now apply Hincl. }
  destruct (question_of_dict_spec (uuid_stream w1 0) m Hconv) as (q & Hq & _ & Hcopy).
  eexists q, _, _, m. split.
  - unfold bind at 1. rewrite Hrun.
    unfold bind at 1. unfold uuid4.
    unfold bind at 1. rewrite Hq.
    unfold bind, modify_db, read_db, write_db, ret. reflexivity.
  - split; [now apply Hincl|]. split; [assumption|].
    cbn [db llm set_db]. rewrite Hdb, Hllm. split; reflexivity.
Qed.

Lemma question_source_later (w w1 : World) (user : User) (q : Question) :
  llm w1 = tail_of (llm w) ->
  question_source w1 user q -> question_source w user q.
Proof.
  intros Hllm [(n & p & Hn & H)|[(n & d & Hn & H)|(m & Hm & Hcopy & [(n & Hn)|Hacc])]];
    try (rewrite Hllm in Hn; unfold tail_of in Hn).
  - left. now exists (S n), p.
  - right. left. now exists (S n), d.
  - right. right. exists m. split; [assumption|]. split; [assumption|].
    left. now exists (S n).
  - right. right. exists m. split; [assumption|]. split; [assumption|]. now right.
Qed.

(** One pass appends exactly one question and stores it. *)
Lemma adaptive_pass_spec (user : User) (questions : list Question)
    (used_questions : list string) (w : World) :
  exists q used' w',
    adaptive_pass user (questions, used_questions) w = (Ok (questions ++ [q], used'), w') /\
    db w' = questions_insert_one q (db w) /\
    llm w' = tail_of (llm w) /\
    question_source w user q.
Proof.
  destruct (random_choice_spec (weakest_subjects_of (u_skill_levels user)) w
              (weakest_subjects_nonempty _))
    as (s & w1 & Hchoice & Hs & Hdb1 & Hllm1).
  unfold adaptive_pass. unfold bind at 1. rewrite Hchoice.
  unfold try_except. unfold bind at 1.
  destruct (generated_question_spec user s (difficulty_for user s) w1)
    as [(q & w2 & Hrun & Hdb2 & Hllm2 & Hexam & Hsrc)
       |(e & w2 & Hrun & Hdb2 & Hllm2 & Hcause)];
    unfold difficulty_for in Hrun; rewrite Hrun.
  - exists q, used_questions, w2. split; [reflexivity|].
    split; [congruence|]. split; [congruence|].
    rewrite Hllm1 in Hsrc.
    destruct Hsrc as [(p & Hp & Hcopy)|(Hn & d & Hd & Hcopy)].
    + left. now exists 0, p.
    + right. left. now exists 0, d.
  - destruct (mock_question_for_spec used_questions w2)
      as (q & used' & w3 & m & Hmock & Hm & Hcopy & Hdb3 & Hllm3).
    exists q, used', w3. split.
    + unfold bind. rewrite Hmock. reflexivity.
    + split; [congruence|]. split; [congruence|].
      right. right. exists m. split; [assumption|]. split; [assumption|].
      rewrite Hllm1 in Hcause.
      destruct Hcause as [Hun|Hbad]; [left; now exists 0|].
      right. intros Hacc.
      destruct (weakest_subjects_accepted user s Hacc Hs) as (subject & level & H1 & H2).
      destruct Hbad; congruence.
Qed.

Lemma adaptive_passes_spec (user : User) (n : nat) :
  forall (questions : list Question) (used_questions : list string) (w : World),
    exists new used' w',
      adaptive_passes n user (questions, used_questions) w
        = (Ok (questions ++ new, used'), w') /\
      length new = n /\
      Forall (question_source w user) new /\
      db_questions (db w') = db_questions (db w) ++ new /\
      db_users (db w') = db_users (db w) /\
      db_assessments (db w') = db_assessments (db w) /\
      db_study_plans (db w') = db_study_plans (db w).
Proof.
  induction n as [|n IH]; intros questions used_questions w.
  - exists [], used_questions, w. simpl. unfold ret.
    rewrite !app_nil_r. repeat split. constructor.
  - destruct (adaptive_pass_spec user questions used_questions w)
      as (q & used1 & w1 & Hpass & Hdb1 & Hllm1 & Hsrc).
    destruct (IH (questions ++ [q]) used1 w1)
      as (new & used' & w' & Hrest & Hlen & Hall & Hq & Hu & Ha & Hp).
    exists (q :: new), used', w'. split.
    + cbn [adaptive_passes]. unfold bind. rewrite Hpass, Hrest.
      now rewrite <- app_assoc.
    + split; [simpl; lia|]. split.
      * constructor; [assumption|].
        eapply Forall_impl; [|exact Hall].
        intros x Hx. now apply (question_source_later w w1).
      * rewrite Hq, Hu, Ha, Hp, Hdb1. unfold questions_insert_one, insert_one. simpl.
        rewrite <- app_assoc. repeat split.
Qed.





(** ** The index invariant of questions *)










(** * Further properties of the handlers *)

(** ** Learners *)

(** X1.  A learner created under a phone number that was not registered,
    with an id no stored learner carries, is the learner [get_user] returns
    for that id; the new profile starts without skill tiers. *)
Theorem get_user_after_create_user (w : World) (user_data : UserCreate) :
  find_one (user_has_phone (uc_phone user_data)) (db_users (db w)) = None ->
  find_one (user_has_id (uuid_stream w 0)) (db_users (db w)) = None ->
  exists u w1,
    create_user user_data w = (Ok u, w1) /\
    get_user (u_id u) w1 = (Ok u, w1) /\
    u_id u = uuid_stream w 0 /\
    u_name u = uc_name user_data /\ u_phone u = uc_phone user_data /\
    u_target_exam u = uc_target_exam user_data /\
    u_skill_levels u = [] /\
    db_users (db w1) = db_users (db w) ++ [u].
Proof.
  intros Hphone Hid.
  unfold create_user, bind, read_db. rewrite Hphone.
  eexists _, _. split; [reflexivity|].
  split.
  - unfold get_user, bind, read_db. simpl.
    rewrite find_one_insert_one_fresh; [reflexivity | assumption |].
    unfold user_has_id. simpl. apply String.eqb_refl.
  - repeat split.
Qed.

Lemma get_user_after_create_user_witness :
  find_one (user_has_phone "9999900007") (db_users (db sample_world)) = None /\
  find_one (user_has_id (uuid_stream sample_world 0)) (db_users (db sample_world)) = None /\
  exists u w1,
    create_user (mkUserCreate "Ira" "9999900007" "State PSC" LANG_HINDI) sample_world
      = (Ok u, w1) /\
    get_user (u_id u) w1 = (Ok u, w1) /\
    u_id u = uuid_stream sample_world 0 /\
    u_name u = "Ira" /\ u_phone u = "9999900007" /\
    u_target_exam u = "State PSC" /\
    u_skill_levels u = [] /\
    db_users (db w1) = db_users (db sample_world) ++ [u].
Proof.
  split; [reflexivity|]. split; [reflexivity|].
  apply (get_user_after_create_user sample_world
           (mkUserCreate "Ira" "9999900007" "State PSC" LANG_HINDI)); reflexivity.
Defined.

(** ** Submitting answers *)

(** X2.  [submit_answer] has two outcomes only.  It succeeds exactly when
    the assessment id and the question id are both known; otherwise it
    raises a 404 and the world is left as it was, with the assessment looked
    up first: an unknown assessment is reported even when the question is
    unknown too. *)
Theorem submit_answer_outcomes (w : World) (req : SubmitAnswerRequest) :
  let known_assessment :=
    find_one (assessment_has_id (sar_assessment_id req)) (db_assessments (db w)) in
  let known_question :=
    find_one (question_has_id (sar_question_id req)) (db_questions (db w)) in
  ((exists resp w', submit_answer req w = (Ok resp, w')) <->
   (known_assessment <> None /\ known_question <> None)) /\
  (known_assessment = None <->
   submit_answer req w = (Raise (HTTPException 404 "Assessment not found"), w)) /\
  ((known_assessment <> None /\ known_question = None) <->
   submit_answer req w = (Raise (HTTPException 404 "Question not found"), w)).
Proof.
  cbv zeta.
  destruct (find_one (assessment_has_id (sar_assessment_id req)) (db_assessments (db w)))
    as [a|] eqn:Ha.
  - destruct (find_one (question_has_id (sar_question_id req)) (db_questions (db w)))
      as [q|] eqn:Hq.
    + rewrite (submit_answer_run w req a q Ha Hq).
      split; [|split].
      * split; [intros _; split; discriminate | intros _; eexists _, _; reflexivity].
      * split; discriminate.
      * split; [intros [_ H]; discriminate | discriminate].
    + assert (Hrun : submit_answer req w
                     = (Raise (HTTPException 404 "Question not found"), w)).
      { unfold submit_answer, bind, read_db, raise. now rewrite Ha, Hq. }
      rewrite Hrun. split; [|split].
      * split; [intros (resp & w' & H); discriminate | intros [_ H]; now contradiction H].
      * split; discriminate.
      * split; [reflexivity | intros _; split; [discriminate | reflexivity]].
  - assert (Hrun : submit_answer req w
                   = (Raise (HTTPException 404 "Assessment not found"), w)).
    { unfold submit_answer, bind, read_db, raise. now rewrite Ha. }
    rewrite Hrun. split; [|split].
    + split; [intros (resp & w' & H); discriminate | intros [H _]; now contradiction H].
    + split; reflexivity.
    + split; [intros [H _]; now contradiction H | discriminate].
Qed.

(** ** Completing assessments *)

(** X3.  Completing an assessment whose learner is missing is not atomic:
    the handler raises (its return statement reads a variable that was never
    assigned), yet the score, the subject scores and the completion time are
    already stored on the assessment; the users collection is untouched. *)
Theorem complete_assessment_without_learner (w : World) (assessment_id : string)
    (a : Assessment) :
  find_one (assessment_has_id assessment_id) (db_assessments (db w)) = Some a ->
  find_one (user_has_id (a_user_id a)) (db_users (db w)) = None ->
  exists w' a',
    complete_assessment assessment_id w = (Raise UnboundLocalError, w') /\
    find_one (assessment_has_id assessment_id) (db_assessments (db w')) = Some a' /\
    a_completed_at a' = Some (clock w 0) /\
    a_score a' = overall_score_of a /\
    a_subject_scores a' = subject_scores_of (db_questions (db w)) a /\
    a_answers a' = a_answers a /\
    db_users (db w') = db_users (db w) /\
    db_questions (db w') = db_questions (db w).
Proof.
  intros Ha Hu.
  eexists _, (set_completion (overall_score_of a)
                (subject_scores_of (db_questions (db w)) a) (clock w 0) a).
  split.
  - unfold complete_assessment, bind, read_db, datetime_now, modify_db, write_db, ret, raise.
    simpl. rewrite Ha. simpl. rewrite Hu. reflexivity.
  - simpl. split; [|repeat split].
    apply find_one_update_one; [assumption|].
    rewrite assessment_has_id_set_completion.
    apply find_one_holds in Ha. exact (proj1 Ha).
Qed.

Lemma complete_assessment_without_learner_witness :
  find_one (assessment_has_id "A9") (db_assessments (db orphan_world))
    = Some orphan_assessment /\
  find_one (user_has_id (a_user_id orphan_assessment)) (db_users (db orphan_world)) = None /\
  exists w' a',
    complete_assessment "A9" orphan_world = (Raise UnboundLocalError, w') /\
    find_one (assessment_has_id "A9") (db_assessments (db w')) = Some a' /\
    a_completed_at a' = Some (clock orphan_world 0) /\
    a_score a' = overall_score_of orphan_assessment /\
    a_subject_scores a' = subject_scores_of (db_questions (db orphan_world)) orphan_assessment /\
    a_answers a' = a_answers orphan_assessment /\
    db_users (db w') = db_users (db orphan_world) /\
    db_questions (db w') = db_questions (db orphan_world).
Proof.
  split; [reflexivity|]. split; [reflexivity|].
  apply (complete_assessment_without_learner orphan_world "A9" orphan_assessment);
    reflexivity.
Defined.

Lemma update_one_twice {A : Type} (p : A -> bool) (f g : A -> A) (docs : list A) :
  (forall x, p x = true -> p (f x) = true) ->
  update_one p g (update_one p f docs) = update_one p (fun x => g (f x)) docs.
Proof.
  intros Hkeep. induction docs as [|d rest IH]; simpl; [reflexivity|].
  destruct (p d) eqn:Hd; simpl.
  - now rewrite (Hkeep d Hd).
  - rewrite Hd. now f_equal.
Qed.

Lemma update_one_ext {A : Type} (p : A -> bool) (f g : A -> A) (docs : list A) :
  (forall x, f x = g x) -> update_one p f docs = update_one p g docs.
Proof.
  intros Hfg. induction docs as [|d rest IH]; simpl; [reflexivity|].
  destruct (p d); [now rewrite Hfg | now f_equal].
Qed.

(** X4.  Nothing stops a second completion, and it is a recomputation: run
    again on the state the first run left, [complete_assessment] returns the
    same response, leaves the learner as the first run left them, and changes
    nothing on the assessment but its completion time. *)
Theorem complete_assessment_twice (w : World) (assessment_id : string)
    (a : Assessment) (u : User) :
  find_one (assessment_has_id assessment_id) (db_assessments (db w)) = Some a ->
  find_one (user_has_id (a_user_id a)) (db_users (db w)) = Some u ->
  exists resp w1 w2 a1 a2,
    complete_assessment assessment_id w = (Ok resp, w1) /\
    complete_assessment assessment_id w1 = (Ok resp, w2) /\
    find_one (assessment_has_id assessment_id) (db_assessments (db w1)) = Some a1 /\
    find_one (assessment_has_id assessment_id) (db_assessments (db w2)) = Some a2 /\
    a2 = set_completion (a_score a1) (a_subject_scores a1) (clock w1 0) a1 /\
    db_users (db w2) = db_users (db w1) /\
    db_questions (db w2) = db_questions (db w1).
Proof.
  intros Ha Hu.
  pose proof (complete_assessment_run w assessment_id a u Ha Hu) as Hrun1.
  set (scores := subject_scores_of (db_questions (db w)) a) in *.
  set (a1 := set_completion (overall_score_of a) scores (clock w 0) a).
  set (u1 := set_skill_levels (skill_levels_of scores) u).
  match type of Hrun1 with _ = (_, ?W) => set (w1 := W) in * end.
  assert (Ha1 : find_one (assessment_has_id assessment_id) (db_assessments (db w1)) = Some a1).
  { simpl. apply find_one_update_one; [assumption|].
    apply find_one_holds in Ha. exact (proj1 Ha). }
  assert (Hu1 : find_one (user_has_id (a_user_id a1)) (db_users (db w1)) = Some u1).
  { simpl. apply find_one_update_one; [assumption|].
    apply find_one_holds in Hu. exact (proj1 Hu). }
  pose proof (complete_assessment_run w1 assessment_id a1 u1 Ha1 Hu1) as Hrun2.
  match type of Hrun2 with _ = (_, ?W) => set (w2 := W) in * end.
  exists (mkCompleteAssessmentResponse (overall_score_of a) scores (skill_levels_of scores)
            (length (a_answers a)) (length (filter ans_is_correct (a_answers a)))),
         w1, w2, a1,
         (set_completion (a_score a1) (a_subject_scores a1) (clock w1 0) a1).
  split; [exact Hrun1|]. split; [exact Hrun2|]. split; [exact Ha1|].
  split.
  - unfold w2. simpl. apply find_one_update_one; [exact Ha1|].
    apply find_one_holds in Ha. exact (proj1 Ha).
  - split; [reflexivity|]. split; [|reflexivity].
    unfold w2, w1. simpl. rewrite update_one_twice.
    + apply update_one_ext. reflexivity.
    + intros x Hx. exact Hx.
Qed.

Lemma complete_assessment_twice_witness :
  find_one (assessment_has_id "A2") (db_assessments (db sample_world))
    = Some answered_assessment /\
  find_one (user_has_id (a_user_id answered_assessment)) (db_users (db sample_world))
    = Some sample_learner /\
  exists resp w1 w2 a1 a2,
    complete_assessment "A2" sample_world = (Ok resp, w1) /\
    complete_assessment "A2" w1 = (Ok resp, w2) /\
    find_one (assessment_has_id "A2") (db_assessments (db w1)) = Some a1 /\
    find_one (assessment_has_id "A2") (db_assessments (db w2)) = Some a2 /\
    a2 = set_completion (a_score a1) (a_subject_scores a1) (clock w1 0) a1 /\
    db_users (db w2) = db_users (db w1) /\
    db_questions (db w2) = db_questions (db w1).
Proof.
  split; [reflexivity|]. split; [reflexivity|].
  apply (complete_assessment_twice sample_world "A2" answered_assessment sample_learner);
    reflexivity.
Defined.

Lemma percentage_all (n : nat) : 0 < n -> (percentage n n == 100)%Q.
Proof.
  intros Hn. unfold percentage.
  destruct (0 <? n) eqn:Hpos; [|apply Nat.ltb_ge in Hpos; lia].
  unfold Qdiv. rewrite Qmult_inv_r.
  - reflexivity.
  - unfold Qeq. simpl. lia.
Qed.

Lemma skill_level_of_full_score (score : Q) :
  (score == 100)%Q -> skill_level_of_score score = "advanced".
Proof.
  intros Hfull. unfold skill_level_of_score.
  assert (H80 : Qle_bool 80 score = true).
  { apply Qle_bool_iff. rewrite Hfull. discriminate. }
  now rewrite H80.
Qed.

Lemma count_answers_all_correct (stored_questions : list Question) (answers : list Answer) :
  Forall (fun answer => ans_is_correct answer = true) answers ->
  Forall (fun e => fst (snd e) = snd (snd e) /\ 0 < snd (snd e))
         (count_answers stored_questions answers).
Proof.
  unfold count_answers. intros Hall.
  assert (Hgen : forall counters,
             Forall (fun e => fst (snd e) = snd (snd e) /\ 0 < snd (snd e)) counters ->
             Forall (fun e => fst (snd e) = snd (snd e) /\ 0 < snd (snd e))
                    (fold_left (count_answer stored_questions) answers counters)).
  { induction Hall as [|answer rest Hright Hall IH]; intros counters Hinv; simpl;
      [assumption|].
    apply IH.
    destruct (find_one (question_has_id (ans_question_id answer)) stored_questions)
      as [q|] eqn:Hq.
    - rewrite (count_answer_closed_form _ _ _ q Hq). cbv zeta. rewrite Hright.
      apply dict_set_Forall; [assumption|]. simpl.
      destruct (dict_get (SubjectType_value (q_subject q)) counters) as [[c t]|] eqn:Hget.
      + apply dict_get_in in Hget. rewrite Forall_forall in Hinv.
        specialize (Hinv _ Hget). simpl in *. lia.
      + simpl. lia.
    - unfold count_answer. now rewrite Hq. }
  apply Hgen. constructor.
Qed.

(** X5.  When every answer of a non-empty assessment carries a true
    correctness flag, completion reports an overall score of 100, a score of
    100 for every subject it lists, and the advanced tier for each of them. *)
Theorem complete_assessment_all_correct (w : World) (assessment_id : string)
    (a : Assessment) (u : User) :
  find_one (assessment_has_id assessment_id) (db_assessments (db w)) = Some a ->
  find_one (user_has_id (a_user_id a)) (db_users (db w)) = Some u ->
  a_answers a <> [] ->
  Forall (fun answer => ans_is_correct answer = true) (a_answers a) ->
  exists resp w',
    complete_assessment assessment_id w = (Ok resp, w') /\
    (cr_overall_score resp == 100)%Q /\
    cr_correct_answers resp = cr_total_questions resp /\
    Forall (fun e => (snd e == 100)%Q) (cr_subject_scores resp) /\
    Forall (fun e => snd e = "advanced") (cr_skill_levels resp).
Proof.
  intros Ha Hu Hne Hall.
  eexists _, _. split; [exact (complete_assessment_run w assessment_id a u Ha Hu)|].
  cbn [cr_overall_score cr_correct_answers cr_total_questions cr_subject_scores
       cr_skill_levels].
  assert (Hfilter : filter ans_is_correct (a_answers a) = a_answers a).
  { apply forallb_filter_id. apply forallb_forall.
    rewrite Forall_forall in Hall. exact Hall. }
  assert (Hscores : Forall (fun e => (snd e == 100)%Q)
                           (subject_scores_of (db_questions (db w)) a)).
  { unfold subject_scores_of, to_percentages. apply Forall_map.
    eapply Forall_impl; [|exact (count_answers_all_correct _ _ Hall)].
    intros [s [c t]] [Hct Hpos]. simpl in *. subst c. now apply percentage_all. }
  split.
  - unfold overall_score_of. rewrite Hfilter. apply percentage_all.
    destruct (a_answers a); [contradiction | simpl; lia].
  - split; [now rewrite Hfilter|]. split; [exact Hscores|].
    rewrite skill_levels_of_map by apply subject_scores_ok.
    apply Forall_map. eapply Forall_impl; [|exact Hscores].
    intros e He. simpl. now apply skill_level_of_full_score.
Qed.

Lemma complete_assessment_all_correct_witness :
  find_one (assessment_has_id "A3") (db_assessments (db tiered_world))
    = Some tiered_assessment /\
  find_one (user_has_id (a_user_id tiered_assessment)) (db_users (db tiered_world))
    = Some tiered_learner /\
  a_answers tiered_assessment <> [] /\
  Forall (fun answer => ans_is_correct answer = true) (a_answers tiered_assessment) /\
  exists resp w',
    complete_assessment "A3" tiered_world = (Ok resp, w') /\
    (cr_overall_score resp == 100)%Q /\
    cr_correct_answers resp = cr_total_questions resp /\
    Forall (fun e => (snd e == 100)%Q) (cr_subject_scores resp) /\
    Forall (fun e => snd e = "advanced") (cr_skill_levels resp).
Proof.
  split; [reflexivity|]. split; [reflexivity|].
  split; [discriminate|]. split; [repeat constructor|].
  apply (complete_assessment_all_correct tiered_world "A3" tiered_assessment tiered_learner).
  - reflexivity.
  - reflexivity.
  - discriminate.
  - repeat constructor.
Defined.

Lemma dict_set_sum (g : nat * nat -> nat) (k : string) (v : nat * nat)
    (d : list (string * (nat * nat))) :
  list_sum (map (fun e => g (snd e)) (dict_set k v d))
  + match dict_get k d with Some old => g old | None => 0 end
  = list_sum (map (fun e => g (snd e)) d) + g v.
Proof.
  induction d as [|[k' v'] d IH]; simpl.
  - lia.
  - destruct (String.eqb k' k); simpl; lia.
Qed.

(** X6.  The subject tally of a completion covers exactly the answers whose
    question is still stored: the subject totals add up to the number of
    those answers and the subject correct counts to the number of those
    among them flagged correct.  An answer to a question that is gone
    weighs on the overall score only. *)
Theorem count_answers_covers_known_questions (stored_questions : list Question)
    (answers : list Answer) :
  counted_total (count_answers stored_questions answers)
    = length (filter (question_known stored_questions) answers) /\
  counted_correct (count_answers stored_questions answers)
    = length (filter (fun answer => question_known stored_questions answer
                                    && ans_is_correct answer) answers).
Proof.
  unfold count_answers.
  assert (Hgen : forall counters,
             counted_total (fold_left (count_answer stored_questions) answers counters)
             = counted_total counters
               + length (filter (question_known stored_questions) answers) /\
             counted_correct (fold_left (count_answer stored_questions) answers counters)
             = counted_correct counters
               + length (filter (fun answer => question_known stored_questions answer
                                               && ans_is_correct answer) answers)).
  { induction answers as [|answer rest IH]; intros counters; simpl; [lia|].
    destruct (IH (count_answer stored_questions counters answer)) as [IHt IHc].
    rewrite IHt, IHc. clear IH IHt IHc.
    destruct (find_one (question_has_id (ans_question_id answer)) stored_questions)
      as [q|] eqn:Hq.
    - assert (Hknown : question_known stored_questions answer = true)
        by (unfold question_known; now rewrite Hq).
      rewrite Hknown. cbn [andb].
      rewrite (count_answer_closed_form _ _ _ q Hq). cbv zeta.
      set (subject := SubjectType_value (q_subject q)).
      set (ct := match dict_get subject counters with Some ct => ct | None => (0, 0) end).
      set (bonus := if ans_is_correct answer then 1 else 0).
      pose proof (dict_set_sum snd subject (fst ct + bonus, snd ct + 1) counters) as Ht.
      pose proof (dict_set_sum fst subject (fst ct + bonus, snd ct + 1) counters) as Hc.
      unfold counted_total, counted_correct.
      assert (Hold : match dict_get subject counters with
                     | Some old => snd old | None => 0 end = snd ct
                     /\ match dict_get subject counters with
                        | Some old => fst old | None => 0 end = fst ct).
      { unfold ct. destruct (dict_get subject counters); split; reflexivity. }
      destruct Hold as [Holdt Holdc]. rewrite Holdt in Ht. rewrite Holdc in Hc.
      cbn [fst snd] in Ht, Hc.
      assert (Hbonus : length (if ans_is_correct answer
                               then answer :: filter (fun answer0 =>
                                      question_known stored_questions answer0
                                      && ans_is_correct answer0) rest
                               else filter (fun answer0 =>
                                      question_known stored_questions answer0
                                      && ans_is_correct answer0) rest)
                       = bonus + length (filter (fun answer0 =>
                                      question_known stored_questions answer0
                                      && ans_is_correct answer0) rest)).
      { unfold bonus. destruct (ans_is_correct answer); reflexivity. }
      rewrite Hbonus. cbn [length]. lia.
    - assert (Hknown : question_known stored_questions answer = false)
        by (unfold question_known; now rewrite Hq).
      rewrite Hknown. cbn [andb].
      unfold count_answer. rewrite Hq. lia. }
  destruct (Hgen []) as [Ht Hc]. unfold counted_total, counted_correct in *.
  simpl in Ht, Hc. split; assumption.
Qed.

(** X7.  An answer submitted before completion is counted by it: completing
    right after a successful submission reports one more answered question
    than the assessment held before, and one more correct answer exactly when
    the selected option is the stored question's correct answer. *)
Theorem submit_then_complete_counts (w : World) (req : SubmitAnswerRequest)
    (a : Assessment) (q : Question) (u : User) :
  find_one (assessment_has_id (sar_assessment_id req)) (db_assessments (db w)) = Some a ->
  find_one (question_has_id (sar_question_id req)) (db_questions (db w)) = Some q ->
  find_one (user_has_id (a_user_id a)) (db_users (db w)) = Some u ->
  exists sresp w1 cresp w2,
    submit_answer req w = (Ok sresp, w1) /\
    complete_assessment (sar_assessment_id req) w1 = (Ok cresp, w2) /\
    cr_total_questions cresp = S (length (a_answers a)) /\
    cr_correct_answers cresp
      = length (filter ans_is_correct (a_answers a))
        + (if sr_is_correct sresp then 1 else 0) /\
    sr_is_correct sresp = Z.eqb (sar_selected_option req) (q_correct_answer q).
Proof.
  intros Ha Hq Hu.
  pose proof (submit_answer_run w req a q Ha Hq) as Hsubmit.
  match type of Hsubmit with _ = (Ok ?R, ?W) => set (sresp := R) in *; set (w1 := W) in * end.
  set (a1 := set_answers (a_answers a ++ [recorded_answer req q]) a).
  assert (Ha1 : find_one (assessment_has_id (sar_assessment_id req))
                         (db_assessments (db w1)) = Some a1).
  { simpl. apply find_one_update_one; [assumption|].
    apply find_one_holds in Ha. exact (proj1 Ha). }
  assert (Hu1 : find_one (user_has_id (a_user_id a1)) (db_users (db w1)) = Some u)
    by exact Hu.
  eexists sresp, w1, _, _. split; [exact Hsubmit|].
  split; [exact (complete_assessment_run w1 (sar_assessment_id req) a1 u Ha1 Hu1)|].
  cbn [cr_total_questions cr_correct_answers a_answers a1 set_answers].
  split; [rewrite length_app; simpl; lia|]. split; [|reflexivity].
  rewrite filter_app, length_app. f_equal.
  unfold sresp. cbn [sr_is_correct filter recorded_answer ans_is_correct].
  destruct (Z.eqb (sar_selected_option req) (q_correct_answer q)); reflexivity.
Qed.

Lemma submit_then_complete_counts_witness :
  find_one (assessment_has_id (sar_assessment_id sample_request))
           (db_assessments (db sample_world)) = Some sample_assessment /\
  find_one (question_has_id (sar_question_id sample_request))
           (db_questions (db sample_world)) = Some sample_stored_question /\
  find_one (user_has_id (a_user_id sample_assessment)) (db_users (db sample_world))
    = Some sample_learner /\
  exists sresp w1 cresp w2,
    submit_answer sample_request sample_world = (Ok sresp, w1) /\
    complete_assessment (sar_assessment_id sample_request) w1 = (Ok cresp, w2) /\
    cr_total_questions cresp = S (length (a_answers sample_assessment)) /\
    cr_correct_answers cresp
      = length (filter ans_is_correct (a_answers sample_assessment))
        + (if sr_is_correct sresp then 1 else 0) /\
    sr_is_correct sresp
      = Z.eqb (sar_selected_option sample_request) (q_correct_answer sample_stored_question).
Proof.
  split; [reflexivity|]. split; [reflexivity|]. split; [reflexivity|].
  apply (submit_then_complete_counts sample_world sample_request sample_assessment
           sample_stored_question sample_learner); reflexivity.
Defined.

(** ** Adaptive practice *)

(** X8.  For an unknown learner [get_adaptive_practice] does not answer 404:
    the "User not found" exception is raised inside the handler's own [try]
    and comes out as a 500.  Nothing is written. *)
Theorem get_adaptive_practice_unknown_learner (w : World) (user_id : string) (count : Z) :
  find_one (user_has_id user_id) (db_users (db w)) = None ->
  exists detail,
    get_adaptive_practice user_id count w = (Raise (HTTPException 500 detail), w).
Proof.
  intros Hnone. eexists.
  unfold get_adaptive_practice, try_except, bind, read_db, raise.
  rewrite Hnone. reflexivity.
Qed.

Lemma get_adaptive_practice_unknown_learner_witness :
  find_one (user_has_id "nobody") (db_users (db sample_world)) = None /\
  exists detail,
    get_adaptive_practice "nobody" 5 sample_world
      = (Raise (HTTPException 500 detail), sample_world).
Proof.
  split; [reflexivity|].
  apply (get_adaptive_practice_unknown_learner sample_world "nobody" 5). reflexivity.
Defined.



(** X10.  When the generator's reply is not JSON, the fallback inside
    [generate_adaptive_question] never fails: it hands out a sample question
    of the requested subject and difficulty if the bank has one, and the
    bank's first entry otherwise, whatever was asked for. *)
Theorem generate_adaptive_question_fallback (subject difficulty : string) (w : World) :
  llm w 0 = NotJSON ->
  exists d w',
    generate_adaptive_question subject difficulty w
      = (Ok (Some (payload_of_dict d)), w') /\
    In d SAMPLE_QUESTIONS /\
    db w' = db w /\
    ((d_subject d = subject /\ d_difficulty d = difficulty) \/
     ((forall e, In e SAMPLE_QUESTIONS ->
                 ~ (d_subject e = subject /\ d_difficulty e = difficulty)) /\
      nth_error SAMPLE_QUESTIONS 0 = Some d)).
Proof.
  intros Hreply.
  unfold generate_adaptive_question. unfold bind at 1. unfold ask_llm. rewrite Hreply.
  set (w1 := mkWorld (db w) (uuid_stream w) (rand_stream w) (clock w) (tail_of (llm w))).
  destruct (filter (fun q => String.eqb (d_subject q) subject
                             && String.eqb (d_difficulty q) difficulty)
                   SAMPLE_QUESTIONS) as [|m ms] eqn:Hmatch.
  - assert (Hnone : forall e, In e SAMPLE_QUESTIONS ->
                              ~ (d_subject e = subject /\ d_difficulty e = difficulty)).
    { intros e He [Hs Hd].
      pose proof (filter_nil_none _ _ e Hmatch He) as Hfalse. cbv beta in Hfalse.
      rewrite Hs, Hd, !String.eqb_refl in Hfalse. discriminate. }
    destruct SAMPLE_QUESTIONS as [|q0 rest] eqn:Hbank.
    + unfold SAMPLE_QUESTIONS in Hbank. discriminate.
    + exists q0, w1. split; [reflexivity|]. split; [now left|]. split; [reflexivity|].
      right. split; [assumption | reflexivity].
  - destruct (random_choice_spec (m :: ms) w1) as (d & w' & Hrun & Hin & Hdb & _);
      [discriminate|].
    exists d, w'. split; [unfold bind; now rewrite Hrun|].
    rewrite <- Hmatch in Hin. apply filter_In in Hin. destruct Hin as [Hd Hboth].
    apply andb_true_iff in Hboth. destruct Hboth as [Hs Hl].
    apply String.eqb_eq in Hs, Hl.
    split; [assumption|]. split; [assumption|]. left. now split.
Qed.

Lemma generate_adaptive_question_fallback_witness :
  llm sample_world 0 = NotJSON /\
  exists d w',
    generate_adaptive_question "english" "advanced" sample_world
      = (Ok (Some (payload_of_dict d)), w') /\
    In d SAMPLE_QUESTIONS /\
    db w' = db sample_world /\
    ((d_subject d = "english" /\ d_difficulty d = "advanced") \/
     ((forall e, In e SAMPLE_QUESTIONS ->
                 ~ (d_subject e = "english" /\ d_difficulty e = "advanced")) /\
      nth_error SAMPLE_QUESTIONS 0 = Some d)).
Proof.
  split; [reflexivity|].
  apply (generate_adaptive_question_fallback "english" "advanced" sample_world).
  reflexivity.
Defined.

Lemma mock_texts_distinct : NoDup mock_texts.
Proof.
  assert (H : nodup string_dec mock_texts = mock_texts) by (vm_compute; reflexivity).
  rewrite <- H. apply NoDup_nodup.
Qed.

Lemma mock_texts_length : length mock_texts = 20.
Proof. reflexivity. Qed.

Lemma mem_str_In (x : string) (s : list string) : mem_str x s = true <-> In x s.
Proof.
  unfold mem_str. rewrite existsb_exists. split.
  - intros (y & Hy & E). apply String.eqb_eq in E. now subst.
  - intros H. exists x. split; [assumption | apply String.eqb_refl].
Qed.

(** While fewer than twenty mock texts are in use, the [except] body picks a
    mock question whose text is not among them and records it. *)
Lemma mock_question_for_fresh (used_questions : list string) (w : World) :
  incl used_questions mock_texts ->
  NoDup used_questions ->
  length used_questions < 20 ->
  exists q w',
    mock_question_for used_questions w
      = (Ok (q, used_questions ++ [q_question_text_en q]), w') /\
    ~ In (q_question_text_en q) used_questions /\
    In (q_question_text_en q) mock_texts /\
    llm w' = llm w.
Proof.
  intros Hincl Hnd Hlen.
  unfold mock_question_for.
  destruct (filter (fun q => negb (mem_str (d_question_text_en q) used_questions))
                   MOCK_ADAPTIVE_QUESTIONS) as [|a rest] eqn:Havail.
  - exfalso.
    assert (Hall : incl mock_texts used_questions).
    { intros t Ht. unfold mock_texts in Ht. apply in_map_iff in Ht.
      destruct Ht as (m & <- & Hm).
      pose proof (filter_nil_none _ _ m Havail Hm) as Hused. cbv beta in Hused.
      apply negb_false_iff in Hused. now apply mem_str_In. }
    pose proof (NoDup_incl_length mock_texts_distinct Hall) as Hle.
    rewrite mock_texts_length in Hle. lia.
  - destruct (random_choice_spec (a :: rest) w) as (m & w1 & Hrun & Hin & Hdb & Hllm);
      [discriminate|].
    rewrite <- Havail in Hin. apply filter_In in Hin. destruct Hin as [Hm Hunused].
    assert (Hconv : convertible_dict m = true).
    { pose proof MOCK_ADAPTIVE_QUESTIONS_convertible as Hall.
      rewrite forallb_forall in Hall. now apply Hall. }
    destruct (question_of_dict_spec (uuid_stream w1 0) m Hconv) as (q & Hq & _ & Hcopy).
    destruct Hcopy as (Htext & _).
    exists q. eexists. split.
    + unfold bind at 1. rewrite Hrun.
      unfold bind at 1. unfold uuid4.
      unfold bind at 1. rewrite Hq.
      unfold bind, modify_db, read_db, write_db, ret. rewrite Htext. reflexivity.
    + rewrite Htext. split.
      * apply negb_true_iff in Hunused. rewrite <- mem_str_In. congruence.
      * split; [unfold mock_texts; now apply in_map | simpl; exact Hllm].
Qed.

Lemma adaptive_pass_unusable (user : User) (questions : list Question)
    (used_questions : list string) (w : World) :
  llm w 0 = JSONUnusable ->
  incl used_questions mock_texts ->
  NoDup used_questions ->
  length used_questions < 20 ->
  exists q w',
    adaptive_pass user (questions, used_questions) w
      = (Ok (questions ++ [q], used_questions ++ [q_question_text_en q]), w') /\
    ~ In (q_question_text_en q) used_questions /\
    In (q_question_text_en q) mock_texts /\
    llm w' = tail_of (llm w).
Proof.
  intros Hreply Hincl Hnd Hlen.
  destruct (random_choice_spec (weakest_subjects_of (u_skill_levels user)) w
              (weakest_subjects_nonempty _))
    as (s & w1 & Hchoice & _ & _ & Hllm1).
  unfold adaptive_pass. unfold bind at 1. rewrite Hchoice.
  unfold try_except. unfold bind at 1.
  destruct (generated_question_spec user s (difficulty_for user s) w1)
    as [(q & w2 & _ & _ & _ & _ & Hsrc)|(e & w2 & Hrun & _ & Hllm2 & _)].
  - exfalso. rewrite Hllm1, Hreply in Hsrc.
    destruct Hsrc as [(p & Hp & _)|(Hn & _)]; discriminate.
  - unfold difficulty_for in Hrun. rewrite Hrun.
    destruct (mock_question_for_fresh used_questions w2 Hincl Hnd Hlen)
      as (q & w3 & Hmock & Hnew & Hin & Hllm3).
    exists q, w3. split; [unfold bind; now rewrite Hmock|].
    split; [assumption|]. split; [assumption | congruence].
Qed.

Lemma adaptive_passes_unusable (user : User) (n : nat) :
  forall (questions : list Question) (used_questions : list string) (w : World),
    (forall i, llm w i = JSONUnusable) ->
    incl used_questions mock_texts ->
    NoDup used_questions ->
    length used_questions + n <= 20 ->
    exists new w',
      adaptive_passes n user (questions, used_questions) w
        = (Ok (questions ++ new, used_questions ++ map q_question_text_en new), w') /\
      incl (map q_question_text_en new) mock_texts /\
      NoDup (used_questions ++ map q_question_text_en new).
Proof.
  induction n as [|n IH]; intros questions used_questions w Hreplies Hincl Hnd Hlen.
  - exists [], w. simpl. unfold ret. rewrite !app_nil_r.
    split; [reflexivity|]. split; [intros x [] | assumption].
  - destruct (adaptive_pass_unusable user questions used_questions w (Hreplies 0) Hincl Hnd)
      as (q & w1 & Hpass & Hnew & Hin & Hllm1); [lia|].
    destruct (IH (questions ++ [q]) (used_questions ++ [q_question_text_en q]) w1)
      as (new & w' & Hrest & Hincl' & Hnd').
    { intros i. rewrite Hllm1. apply Hreplies. }
    { apply incl_app; [assumption|]. intros x [<-|[]]. assumption. }
    { apply NoDup_app; [assumption | repeat constructor; intros [] |].
      intros x Hx [<-|[]]. contradiction. }
    { rewrite length_app. simpl. lia. }
    exists (q :: new), w'. split.
    + cbn [adaptive_passes]. unfold bind. rewrite Hpass, Hrest.
      simpl. now rewrite <- !app_assoc.
    + simpl. split.
      * intros x [<-|Hx]; [assumption | now apply Hincl'].
      * rewrite <- app_assoc in Hnd'. exact Hnd'.
Qed.

(** X11.  When every reply of the generator is JSON from which no Question
    can be built, a batch of up to twenty questions comes from the mock
    catalog without repetition: no two questions of the batch share their
    English text. *)
Theorem get_adaptive_practice_mock_batch_distinct (user_id : string) (count : Z)
    (user : User) (w : World) :
  find_one (user_has_id user_id) (db_users (db w)) = Some user ->
  (forall i, llm w i = JSONUnusable) ->
  (count <= 20)%Z ->
  exists resp w',
    get_adaptive_practice user_id count w = (Ok resp, w') /\
    length (ar_questions resp) = Z.to_nat count /\
    NoDup (map q_question_text_en (ar_questions resp)) /\
    incl (map q_question_text_en (ar_questions resp)) mock_texts.
Proof.
  intros Huser Hreplies Hcount.
  set (w0 := mkWorld (assessments_insert_one (opened_assessment w user_id user) (db w))
                     (tail_of (uuid_stream w)) (rand_stream w) (tail_of (clock w)) (llm w)).
  destruct (adaptive_passes_unusable user (Z.to_nat count) [] [] w0)
    as (new & w' & Hrun & Hincl & Hnd).
  { exact Hreplies. }
  { intros x []. }
  { constructor. }
  { simpl. lia. }
  destruct (adaptive_passes_spec user (Z.to_nat count) [] [] w0)
    as (new2 & used2 & w2 & Hrun2 & Hlen & _).
  rewrite Hrun in Hrun2. injection Hrun2 as Hnew _ _. simpl in Hnew. subst new2.
  exists (mkAdaptivePracticeResponse new (uuid_stream w 0)), w'. split.
  - unfold get_adaptive_practice, try_except.
    unfold bind at 1. unfold read_db. rewrite Huser.
    unfold bind at 1. unfold uuid4.
    unfold bind at 1. unfold datetime_now.
    unfold bind at 1. unfold modify_db, bind, read_db, write_db, set_db.
    cbn [db uuid_stream rand_stream clock llm].
    fold (opened_assessment w user_id user). fold w0. rewrite Hrun. reflexivity.
  - cbn [ar_questions]. split; [assumption|]. split; assumption.
Qed.

Lemma get_adaptive_practice_mock_batch_distinct_witness :
  find_one (user_has_id "L2") (db_users (db unusable_world)) = Some tiered_learner /\
  (forall i, llm unusable_world i = JSONUnusable) /\
  (7 <= 20)%Z /\
  exists resp w',
    get_adaptive_practice "L2" 7 unusable_world = (Ok resp, w') /\
    length (ar_questions resp) = Z.to_nat 7 /\
    NoDup (map q_question_text_en (ar_questions resp)) /\
    incl (map q_question_text_en (ar_questions resp)) mock_texts.
Proof.
  split; [reflexivity|]. split; [intros i; reflexivity|]. split; [lia|].
  apply (get_adaptive_practice_mock_batch_distinct "L2" 7 tiered_learner unusable_world).
  - reflexivity.
  - intros i. reflexivity.
  - lia.
Defined.

(** ** Daily plans *)





Lemma find_one_insert_one_other {A : Type} (p : A -> bool) (docs : list A) (x : A) :
  p x = false -> find_one p (insert_one x docs) = find_one p docs.
Proof.
  unfold find_one, insert_one. intros Hx.
  induction docs as [|d rest IH]; simpl.
  - now rewrite Hx.
  - destruct (p d); [reflexivity | assumption].
Qed.

(** X13.  A call of [get_daily_study_plan] for an existing learner succeeds
    and leaves every plan of another learner or another date as it was:
    looking such a plan up afterwards gives what it gave before.  Learners,
    questions and assessments are never written. *)
Theorem get_daily_study_plan_keeps_other_plans (w : World) (today user_id : string)
    (u : User) (other_user other_date : string) :
  find_one (user_has_id user_id) (db_users (db w)) = Some u ->
  other_user <> user_id \/ other_date <> today ->
  exists p w',
    get_daily_study_plan today user_id w = (Ok p, w') /\
    find_one (plan_for other_user other_date) (db_study_plans (db w'))
      = find_one (plan_for other_user other_date) (db_study_plans (db w)) /\
    db_users (db w') = db_users (db w) /\
    db_questions (db w') = db_questions (db w) /\
    db_assessments (db w') = db_assessments (db w).
Proof.
  intros Hu Hother.
  destruct (find_one (plan_for user_id today) (db_study_plans (db w))) as [p|] eqn:Hp.
  - exists p, w. split; [now apply (get_daily_study_plan_existing w today user_id u)|].
    repeat split.
  - unfold get_daily_study_plan, bind, read_db. simpl. rewrite Hu, Hp.
    assert (Hmiss : forall new_id subjects created_at,
               plan_for other_user other_date
                 (mkStudyPlan new_id user_id today subjects 20 20 "pending" created_at)
               = false).
    { intros. unfold plan_for. simpl. apply andb_false_iff.
      destruct Hother as [Hne|Hne]; [left | right];
        apply String.eqb_neq; congruence. }
    destruct (flat_map weak_entry (u_skill_levels u)) as [|s0 rest].
    + eexists _, _. split; [reflexivity|]. simpl.
      split; [now apply find_one_insert_one_other | repeat split].
    + eexists _, _. split; [reflexivity|]. simpl.
      split; [now apply find_one_insert_one_other | repeat split].
Qed.

Lemma get_daily_study_plan_keeps_other_plans_witness :
  find_one (user_has_id "L1") (db_users (db sample_world)) = Some sample_learner /\
  ("L1" <> "L1" \/ "2024-04-30" <> "2024-05-01") /\
  exists p w',
    get_daily_study_plan "2024-05-01" "L1" sample_world = (Ok p, w') /\
    find_one (plan_for "L1" "2024-04-30") (db_study_plans (db w'))
      = find_one (plan_for "L1" "2024-04-30") (db_study_plans (db sample_world)) /\
    db_users (db w') = db_users (db sample_world) /\
    db_questions (db w') = db_questions (db sample_world) /\
    db_assessments (db w') = db_assessments (db sample_world).
Proof.
  split; [reflexivity|]. split; [right; discriminate|].
  apply (get_daily_study_plan_keeps_other_plans sample_world "2024-05-01" "L1"
           sample_learner "L1" "2024-04-30").
  - reflexivity.
  - right. discriminate.
Defined.

(** ** Diagnostics *)

(** What a diagnostic writes, for any catalog the enums accept. *)
Lemma start_diagnostic_test_on_effect (catalog : list QDict) (user_id : string) (w : World) :
  forallb convertible_dict catalog = true ->
  exists resp w' stored a,
    start_diagnostic_test_on catalog user_id w = (Ok resp, w') /\
    db_assessments (db w') = db_assessments (db w) ++ [a] /\
    db_questions (db w') = db_questions (db w) ++ stored /\
    db_users (db w') = db_users (db w) /\
    db_study_plans (db w') = db_study_plans (db w) /\
    dr_questions resp = map summary_of stored /\
    dr_total_questions resp = length stored /\
    a_id a = dr_assessment_id resp /\
    a_user_id a = user_id /\ a_test_type a = "diagnostic" /\
    a_questions a = map q_id stored /\
    a_answers a = [] /\ a_completed_at a = None.
Proof.
  intros Hconv.
  destruct (select_diagnostic_questions_spec catalog w)
    as (picked & w1 & Hsel & Hincl & _ & _ & _ & Hdb1 & _).
  destruct (uuid4_for_each_spec (map snd picked) w1)
    as (ids & w2 & Hids & Hlen2 & Hdb2 & _).
  destruct (question_objects_of_spec (map snd picked) ids Hlen2)
    as (objects & Hobj & Hqids & Hall).
  { eapply forallb_incl; [|exact Hconv].
    intros q Hq. apply in_map_iff in Hq. destruct Hq as (iq & <- & Hiq).
    apply with_identity_snd. now apply Hincl. }
  eexists _, _, objects, (mkAssessment (uuid_stream w2 0) user_id "diagnostic" ids [] 0 []
                                       None (clock w2 0)).
  split.
  - unfold start_diagnostic_test_on.
    unfold bind at 1. rewrite Hsel.
    unfold bind at 1. rewrite Hids.
    unfold bind at 1. unfold uuid4.
    unfold bind at 1. unfold datetime_now.
    unfold bind at 1. cbn [a_questions]. rewrite Hobj.
    unfold bind, modify_db, read_db, write_db, ret. cbn [a_id]. reflexivity.
  - simpl. unfold insert_one, insert_many. rewrite Hdb2, Hdb1.
    apply Forall2_length in Hall. rewrite Hall.
    repeat split. now rewrite Hqids.
Qed.

(** X14.  A diagnostic stores its questions and one assessment that lists
    them: the new assessment is of kind diagnostic, belongs to the given
    learner id, has no answers and no completion time, and its question ids
    are the ids of the stored questions, which are the ids shown in the
    response, in the same order.  Learners and study plans are untouched. *)
Theorem start_diagnostic_test_links_questions (user_id : string) (w : World) :
  exists resp w' stored a,
    start_diagnostic_test user_id w = (Ok resp, w') /\
    db_assessments (db w') = db_assessments (db w) ++ [a] /\
    db_questions (db w') = db_questions (db w) ++ stored /\
    a_id a = dr_assessment_id resp /\
    a_user_id a = user_id /\ a_test_type a = "diagnostic" /\
    a_answers a = [] /\ a_completed_at a = None /\
    a_questions a = map q_id stored /\
    a_questions a = map qs_id (dr_questions resp) /\
    length (a_questions a) = dr_total_questions resp /\
    db_users (db w') = db_users (db w) /\
    db_study_plans (db w') = db_study_plans (db w).
Proof.
  destruct (start_diagnostic_test_on_effect SAMPLE_QUESTIONS user_id w
              SAMPLE_QUESTIONS_convertible)
    as (resp & w' & stored & a & Hrun & Ha & Hq & Hu & Hp & Hresp & Htotal & Hid & Huid
        & Hkind & Hqs & Hans & Hdone).
  exists resp, w', stored, a. split; [exact Hrun|].
  repeat split; try assumption.
  - rewrite Hqs, Hresp, map_map. reflexivity.
  - rewrite Hqs, length_map. now rewrite Htotal.
Qed.

(** X15.  Unknown learner ids are handled unevenly.  [get_user],
    [get_daily_study_plan] and [get_user_progress] raise a 404 "User not
    found" and write nothing; [start_diagnostic_test] never looks the learner
    up, so it succeeds and stores an assessment owned by the unknown id. *)
Theorem unknown_learner_handling (w : World) (user_id today : string)
    (round2 : Q -> Q) :
  find_one (user_has_id user_id) (db_users (db w)) = None ->
  get_user user_id w = (Raise (HTTPException 404 "User not found"), w) /\
  get_daily_study_plan today user_id w = (Raise (HTTPException 404 "User not found"), w) /\
  get_user_progress round2 user_id w = (Raise (HTTPException 404 "User not found"), w) /\
  exists resp w' a,
    start_diagnostic_test user_id w = (Ok resp, w') /\
    db_assessments (db w') = db_assessments (db w) ++ [a] /\
    a_user_id a = user_id /\
    find_one (user_has_id user_id) (db_users (db w')) = None.
Proof.
  intros Hnone. split; [|split; [|split]].
  - unfold get_user, bind, read_db, raise. now rewrite Hnone.
  - unfold get_daily_study_plan, bind, read_db, raise. now rewrite Hnone.
  - unfold get_user_progress, bind, read_db, raise. now rewrite Hnone.
  - destruct (start_diagnostic_test_on_effect SAMPLE_QUESTIONS user_id w
                SAMPLE_QUESTIONS_convertible)
      as (resp & w' & stored & a & Hrun & Ha & _ & Hu & _ & _ & _ & _ & Huid & _).
    exists resp, w', a. split; [exact Hrun|]. split; [assumption|].
    split; [assumption | now rewrite Hu].
Qed.

Lemma unknown_learner_handling_witness :
  find_one (user_has_id "nobody") (db_users (db sample_world)) = None /\
  get_user "nobody" sample_world
    = (Raise (HTTPException 404 "User not found"), sample_world) /\
  get_daily_study_plan "2024-05-01" "nobody" sample_world
    = (Raise (HTTPException 404 "User not found"), sample_world) /\
  get_user_progress (fun x => x) "nobody" sample_world
    = (Raise (HTTPException 404 "User not found"), sample_world) /\
  exists resp w' a,
    start_diagnostic_test "nobody" sample_world = (Ok resp, w') /\
    db_assessments (db w') = db_assessments (db sample_world) ++ [a] /\
    a_user_id a = "nobody" /\
    find_one (user_has_id "nobody") (db_users (db w')) = None.
Proof.
  split; [reflexivity|].
  apply (unknown_learner_handling sample_world "nobody" "2024-05-01" (fun x => x)).
  reflexivity.
Defined.


(** X16.  Whatever the catalog and the random draws, a diagnostic never
    uses a catalog entry twice: the stored questions copy, one for one,
    entries at pairwise different positions of the catalog. *)
Theorem diagnostic_uses_each_entry_once (catalog : list QDict) (user_id : string)
    (w : World) :
  forallb convertible_dict catalog = true ->
  exists resp w' picked stored,
    start_diagnostic_test_on catalog user_id w = (Ok resp, w') /\
    incl picked (with_identity catalog) /\
    NoDup (map fst picked) /\
    Forall2 copies_dict stored (map snd picked) /\
    dr_questions resp = map summary_of stored /\
    db_questions (db w') = db_questions (db w) ++ stored.
Proof.
  intros Hconv.
  destruct (start_diagnostic_test_on_spec catalog user_id w Hconv)
    as (resp & w' & picked & stored & Hrun & Hincl & Hnd & _ & Hall & _ & Hqs & Hdb & _).
  exists resp, w', picked, stored. repeat split; assumption.
Qed.

Lemma diagnostic_uses_each_entry_once_witness :
  forallb convertible_dict SAMPLE_QUESTIONS = true /\
  exists resp w' picked stored,
    start_diagnostic_test_on SAMPLE_QUESTIONS "L1" sample_world = (Ok resp, w') /\
    incl picked (with_identity SAMPLE_QUESTIONS) /\
    NoDup (map fst picked) /\
    Forall2 copies_dict stored (map snd picked) /\
    dr_questions resp = map summary_of stored /\
    db_questions (db w') = db_questions (db sample_world) ++ stored.
Proof.
  split; [vm_compute; reflexivity|].
  apply (diagnostic_uses_each_entry_once SAMPLE_QUESTIONS "L1" sample_world).
  vm_compute. reflexivity.
Defined.

(** X18.  The length of a diagnostic, for any catalog the enums accept: never
    more than twelve questions and never more than the catalog holds, and at
    least ten as soon as the catalog holds ten. *)
Theorem diagnostic_length_range (catalog : list QDict) (user_id : string) (w : World) :
  forallb convertible_dict catalog = true ->
  exists resp w',
    start_diagnostic_test_on catalog user_id w = (Ok resp, w') /\
    dr_total_questions resp = length (dr_questions resp) /\
    dr_total_questions resp <= 12 /\
    dr_total_questions resp <= length catalog /\
    (10 <= length catalog -> 10 <= dr_total_questions resp).
Proof.
  intros Hconv.
  destruct (start_diagnostic_test_on_spec catalog user_id w Hconv)
    as (resp & w' & picked & stored & Hrun & Hincl & Hnd & Hlen & Hall & Htotal & Hqs & _).
  pose proof (distinct_within _ _ Hnd Hincl) as Hbound.
  rewrite with_identity_length in Hbound.
  destruct (diagnostic_count_range catalog) as [Hmax Hmin].
  exists resp, w'. split; [exact Hrun|].
  split.
  - rewrite Hqs, length_map. apply Forall2_length in Hall.
    rewrite length_map in Hall. congruence.
  - rewrite Htotal. split; [lia|]. split; [lia|].
    intros Hten. specialize (Hmin Hten). lia.
Qed.

Lemma diagnostic_length_range_witness :
  forallb convertible_dict small_catalog = true /\
  exists resp w',
    start_diagnostic_test_on small_catalog "L1" sample_world = (Ok resp, w') /\
    dr_total_questions resp = length (dr_questions resp) /\
    dr_total_questions resp <= 12 /\
    dr_total_questions resp <= length small_catalog /\
    (10 <= length small_catalog -> 10 <= dr_total_questions resp).
Proof.
  split; [reflexivity|].
  apply (diagnostic_length_range small_catalog "L1" sample_world). reflexivity.
Defined.

(** ** Listing assessments and progress *)

Lemma insert_sorted_Permutation {A : Type} (before : A -> A -> bool) (x : A) (l : list A) :
  Permutation (x :: l) (insert_sorted before x l).
Proof.
  induction l as [|y rest IH]; simpl; [apply Permutation_refl|].
  destruct (before x y); [apply Permutation_refl|].
  apply perm_trans with (y :: x :: rest); [apply perm_swap | now apply perm_skip].
Qed.

Lemma sort_with_Permutation {A : Type} (before : A -> A -> bool) (l : list A) :
  Permutation l (sort_with before l).
Proof.
  unfold sort_with. induction l as [|x rest IH]; simpl; [constructor|].
  apply perm_trans with (x :: fold_right (insert_sorted before) [] rest).
  - now apply perm_skip.
  - apply insert_sorted_Permutation.
Qed.

(** Sorting by a numeric key, in either direction, gives a list in which
    every element comes before all later ones. *)
Lemma sort_with_sorted {A : Type} (before : A -> A -> bool) (l : list A) :
  (forall a b, before a b = false -> before b a = true) ->
  (forall a b c, before a b = true -> before b c = true -> before a c = true) ->
  StronglySorted (fun a b => before a b = true) (sort_with before l).
Proof.
  intros Htotal Htrans. unfold sort_with.
  induction l as [|x rest IH]; simpl; [constructor|].
  set (sorted := fold_right (insert_sorted before) [] rest) in *.
  clearbody sorted. clear rest.
  induction sorted as [|y tail IHt]; simpl.
  - repeat constructor.
  - inversion IH as [|? ? Htail Hy]; subst.
    destruct (before x y) eqn:Hxy.
    + constructor; [assumption|]. constructor; [assumption|].
      eapply Forall_impl; [|exact Hy]. intros z Hz. now apply (Htrans x y z).
    + constructor; [now apply IHt|].
      apply (Permutation_Forall (insert_sorted_Permutation before x tail)).
      constructor; [now apply Htotal | assumption].
Qed.

(** X19.  [get_user_assessments] never fails and never writes.  It returns
    the stored assessments carrying the given learner id, each exactly once
    and none of another learner, ordered from the latest creation time to the
    earliest; for an id no assessment carries the list is empty. *)
Theorem get_user_assessments_newest_first (user_id : string) (w : World) :
  exists l,
    get_user_assessments user_id w = (Ok l, w) /\
    Permutation (filter (owned_by user_id) (db_assessments (db w))) l /\
    (forall a, In a l <-> In a (db_assessments (db w)) /\ a_user_id a = user_id) /\
    StronglySorted (fun a b => a_created_at b <= a_created_at a) l.
Proof.
  eexists. split; [reflexivity|].
  set (mine := filter (owned_by user_id) (db_assessments (db w))).
  set (before := fun a b : Assessment => a_created_at b <=? a_created_at a).
  pose proof (sort_with_Permutation before mine) as Hperm.
  split; [exact Hperm|]. split.
  - intros a. split.
    + intros Ha. apply (Permutation_in a (Permutation_sym Hperm)) in Ha.
      unfold mine in Ha. apply filter_In in Ha. destruct Ha as [Ha Hown].
      split; [assumption | now apply String.eqb_eq].
    + intros [Ha Hown]. apply (Permutation_in a Hperm).
      unfold mine. apply filter_In. split; [assumption | now apply String.eqb_eq].
  - assert (Hsorted : StronglySorted (fun a b => before a b = true) (sort_with before mine)).
    { apply sort_with_sorted; unfold before.
      - intros a b H. apply Nat.leb_gt in H. apply Nat.leb_le. lia.
      - intros a b c H1 H2. apply Nat.leb_le in H1, H2. apply Nat.leb_le. lia. }
    clear Hperm. induction Hsorted as [|a l Hl IH Hall]; constructor; [assumption|].
    eapply Forall_impl; [|exact Hall]. intros b Hb. now apply Nat.leb_le.
Qed.

Lemma last_seven_length {A : Type} (l : list A) :
  length (last_seven l) = Nat.min 7 (length l).
Proof. unfold last_seven. rewrite length_skipn. lia. Qed.

Lemma get_user_progress_run (round2 : Q -> Q) (user_id : string) (u : User) (w : World) :
  find_one (user_has_id user_id) (db_users (db w)) = Some u ->
  exists resp,
    get_user_progress round2 user_id w = (Ok resp, w) /\
    pr_total_tests_taken resp = length (filter (counts_for user_id) (db_assessments (db w))) /\
    length (pr_recent_scores resp) = Nat.min 7 (pr_total_tests_taken resp) /\
    pr_skill_levels resp = u_skill_levels u /\
    pr_strong_subjects resp = subjects_at "advanced" (u_skill_levels u) /\
    pr_weak_subjects resp = subjects_at "beginner" (u_skill_levels u) /\
    (pr_total_tests_taken resp = 0 ->
     pr_average_score resp = round2 0%Q /\ pr_recent_scores resp = []) /\
    (pr_total_tests_taken resp <= 1 -> pr_improvement_trend resp = round2 0%Q).
Proof.
  intros Hu. unfold get_user_progress, bind, read_db, ret. rewrite Hu.
  fold (counts_for user_id).
  set (assessments := sort_with _ (filter (counts_for user_id) (db_assessments (db w)))).
  assert (Hlen : length assessments
                 = length (filter (counts_for user_id) (db_assessments (db w)))).
  { symmetry. apply Permutation_length. apply sort_with_Permutation. }
  eexists. split; [reflexivity|].
  cbn [pr_total_tests_taken pr_recent_scores pr_skill_levels pr_strong_subjects
       pr_weak_subjects pr_average_score pr_improvement_trend].
  split; [exact Hlen|]. split; [rewrite length_map; apply last_seven_length|].
  split; [reflexivity|]. split; [reflexivity|]. split; [reflexivity|]. split.
  - intros Hzero. destruct assessments; [split; reflexivity | discriminate].
  - intros Hone. rewrite length_map, last_seven_length.
    destruct (2 <=? Nat.min 7 (length assessments)) eqn:Htwo; [|reflexivity].
    apply Nat.leb_le in Htwo. lia.
Qed.

(** X20.  For an existing learner [get_user_progress] answers without
    writing: the number of tests taken is the number of that learner's
    assessments that have a completion time, the recent scores are at most
    the seven last of them, and the tiers are the learner's stored ones.
    With no completed assessment the average is computed from 0 without
    dividing, and with fewer than two the trend is computed from 0. *)
Theorem get_user_progress_summary (round2 : Q -> Q) (user_id : string) (u : User)
    (w : World) :
  find_one (user_has_id user_id) (db_users (db w)) = Some u ->
  exists resp,
    get_user_progress round2 user_id w = (Ok resp, w) /\
    pr_total_tests_taken resp = length (filter (counts_for user_id) (db_assessments (db w))) /\
    length (pr_recent_scores resp) = Nat.min 7 (pr_total_tests_taken resp) /\
    pr_skill_levels resp = u_skill_levels u /\
    (pr_total_tests_taken resp = 0 ->
     pr_average_score resp = round2 0%Q /\ pr_recent_scores resp = []) /\
    (pr_total_tests_taken resp <= 1 -> pr_improvement_trend resp = round2 0%Q).
Proof.
  intros Hu.
  destruct (get_user_progress_run round2 user_id u w Hu)
    as (resp & Hrun & Htotal & Hrecent & Hlevels & _ & _ & Hzero & Hone).
  exists resp. repeat split; try assumption; now apply Hzero.
Qed.

Lemma get_user_progress_summary_witness :
  find_one (user_has_id "L1") (db_users (db sample_world)) = Some sample_learner /\
  exists resp,
    get_user_progress (fun x => x) "L1" sample_world = (Ok resp, sample_world) /\
    pr_total_tests_taken resp
      = length (filter (counts_for "L1") (db_assessments (db sample_world))) /\
    length (pr_recent_scores resp) = Nat.min 7 (pr_total_tests_taken resp) /\
    pr_skill_levels resp = u_skill_levels sample_learner /\
    (pr_total_tests_taken resp = 0 ->
     pr_average_score resp = 0%Q /\ pr_recent_scores resp = []) /\
    (pr_total_tests_taken resp <= 1 -> pr_improvement_trend resp = 0%Q).
Proof.
  split; [reflexivity|].
  apply (get_user_progress_summary (fun x => x) "L1" sample_learner sample_world).
  reflexivity.
Defined.

Lemma filter_update_one_gains {A : Type} (counted target : A -> bool) (f : A -> A)
    (docs : list A) (x : A) :
  find_one target docs = Some x ->
  counted x = false ->
  counted (f x) = true ->
  length (filter counted (update_one target f docs)) = S (length (filter counted docs)).
Proof.
  unfold find_one. induction docs as [|d rest IH]; simpl; intros Hfind Hx Hfx;
    [discriminate|].
  destruct (target d) eqn:Hd.
  - injection Hfind as ->. simpl. now rewrite Hx, Hfx.
  - simpl. destruct (counted d); simpl; rewrite IH; auto.
Qed.

(** X21.  Progress follows completion.  When an assessment without
    completion time is completed for its existing learner, the learner's
    number of tests taken grows by exactly one, and the tiers the progress
    report shows afterwards are the tiers the completion returned. *)
Theorem progress_after_completion (round2 : Q -> Q) (assessment_id : string)
    (a : Assessment) (u : User) (w : World) :
  find_one (assessment_has_id assessment_id) (db_assessments (db w)) = Some a ->
  a_completed_at a = None ->
  find_one (user_has_id (a_user_id a)) (db_users (db w)) = Some u ->
  exists before cresp w1 after,
    get_user_progress round2 (a_user_id a) w = (Ok before, w) /\
    complete_assessment assessment_id w = (Ok cresp, w1) /\
    get_user_progress round2 (a_user_id a) w1 = (Ok after, w1) /\
    pr_total_tests_taken after = S (pr_total_tests_taken before) /\
    pr_skill_levels after = cr_skill_levels cresp.
Proof.
  intros Ha Hopen Hu.
  destruct (get_user_progress_run round2 (a_user_id a) u w Hu)
    as (before & Hbefore & Htotal0 & _).
  destruct (complete_assessment_effect w assessment_id a u Ha Hu)
    as (cresp & w1 & Hrun & Hscores & Hlevels & Ha1 & Hu1).
  destruct (get_user_progress_run round2 (a_user_id a) _ w1 Hu1)
    as (after & Hafter & Htotal1 & _ & Hlv & _).
  exists before, cresp, w1, after.
  split; [assumption|]. split; [assumption|]. split; [assumption|].
  split; [|exact Hlv].
  rewrite Htotal1, Htotal0.
  rewrite (complete_assessment_run w assessment_id a u Ha Hu) in Hrun.
  injection Hrun as _ <-. simpl.
  apply filter_update_one_gains with (x := a); [assumption | |].
  - unfold counts_for, is_completed. rewrite Hopen. apply andb_false_r.
  - unfold counts_for, owned_by, is_completed. simpl.
    now rewrite String.eqb_refl.
Qed.

Lemma progress_after_completion_witness :
  find_one (assessment_has_id "A2") (db_assessments (db sample_world))
    = Some answered_assessment /\
  a_completed_at answered_assessment = None /\
  find_one (user_has_id (a_user_id answered_assessment)) (db_users (db sample_world))
    = Some sample_learner /\
  exists before cresp w1 after,
    get_user_progress (fun x => x) (a_user_id answered_assessment) sample_world
      = (Ok before, sample_world) /\
    complete_assessment "A2" sample_world = (Ok cresp, w1) /\
    get_user_progress (fun x => x) (a_user_id answered_assessment) w1 = (Ok after, w1) /\
    pr_total_tests_taken after = S (pr_total_tests_taken before) /\
    pr_skill_levels after = cr_skill_levels cresp.
Proof.
  split; [reflexivity|]. split; [reflexivity|]. split; [reflexivity|].
  apply (progress_after_completion (fun x => x) "A2" answered_assessment sample_learner
           sample_world); reflexivity.
Defined.

Lemma skill_level_advanced_iff (score : Q) :
  skill_level_of_score score = "advanced" <-> (80 <= score)%Q.
Proof.
  unfold skill_level_of_score.
  destruct (Qle_bool 80 score) eqn:H80.
  - apply Qle_bool_iff in H80. tauto.
  - assert (~ (80 <= score)%Q) by (rewrite <- Qle_bool_iff; congruence).
    destruct (Qle_bool 50 score); split; try discriminate; contradiction.
Qed.

Lemma skill_level_beginner_iff (score : Q) :
  skill_level_of_score score = "beginner" <-> (score < 50)%Q.
Proof.
  destruct (skill_level_of_score_law score) as (Hadv & Hmid & Hlow).
  split.
  - intros Hb. apply Qnot_le_lt. intros H50.
    destruct (Qlt_le_dec score 80) as [Hlt|Hge].
    + rewrite (Hmid H50 Hlt) in Hb. discriminate.
    + rewrite (Hadv Hge) in Hb. discriminate.
  - exact Hlow.
Qed.

Lemma subjects_at_In (level subject : string) (skill_levels : list (string * string)) :
  In subject (subjects_at level skill_levels) <-> In (subject, level) skill_levels.
Proof.
  unfold subjects_at. rewrite in_map_iff. split.
  - intros ([s l] & Hs & He). apply filter_In in He. destruct He as [He Hl].
    simpl in *. apply String.eqb_eq in Hl. now subst.
  - intros He. exists (subject, level). split; [reflexivity|].
    apply filter_In. split; [assumption | apply String.eqb_refl].
Qed.

(** X22.  After a completion, the progress report's strong subjects are
    exactly the subjects the completed assessment scored at 80 or more, and
    its weak subjects exactly those it scored below 50; subjects scored in
    between are in neither list. *)
Theorem progress_strong_and_weak_subjects (round2 : Q -> Q) (assessment_id : string)
    (a : Assessment) (u : User) (w : World) :
  find_one (assessment_has_id assessment_id) (db_assessments (db w)) = Some a ->
  find_one (user_has_id (a_user_id a)) (db_users (db w)) = Some u ->
  exists cresp w1 report,
    complete_assessment assessment_id w = (Ok cresp, w1) /\
    get_user_progress round2 (a_user_id a) w1 = (Ok report, w1) /\
    forall subject,
      (In subject (pr_strong_subjects report) <->
       exists score, In (subject, score) (cr_subject_scores cresp) /\ (80 <= score)%Q) /\
      (In subject (pr_weak_subjects report) <->
       exists score, In (subject, score) (cr_subject_scores cresp) /\ (score < 50)%Q).
Proof.
  intros Ha Hu.
  destruct (complete_assessment_effect w assessment_id a u Ha Hu)
    as (cresp & w1 & Hrun & Hscores & Hlevels & _ & Hu1).
  destruct (get_user_progress_run round2 (a_user_id a) _ w1 Hu1)
    as (report & Hreport & _ & _ & _ & Hstrong & Hweak & _).
  exists cresp, w1, report. split; [assumption|]. split; [assumption|].
  assert (Hmap : cr_skill_levels cresp
                 = map (fun e => (fst e, skill_level_of_score (snd e)))
                       (cr_subject_scores cresp)).
  { rewrite Hlevels. apply skill_levels_of_map. rewrite Hscores. apply subject_scores_ok. }
  assert (Hin : forall subject level,
             In (subject, level) (cr_skill_levels cresp) <->
             exists score, In (subject, score) (cr_subject_scores cresp) /\
                           skill_level_of_score score = level).
  { intros subject level. rewrite Hmap, in_map_iff. split.
    - intros ([s score] & Heq & He). simpl in Heq. injection Heq as -> <-.
      now exists score.
    - intros (score & He & <-). now exists (subject, score). }
  intros subject. rewrite Hstrong, Hweak. cbn [u_skill_levels set_skill_levels].
  rewrite !subjects_at_In, !Hin. split.
  - split; intros (score & He & Hl); exists score; (split; [assumption|]);
      now apply skill_level_advanced_iff.
  - split; intros (score & He & Hl); exists score; (split; [assumption|]);
      now apply skill_level_beginner_iff.
Qed.

Lemma progress_strong_and_weak_subjects_witness :
  find_one (assessment_has_id "A3") (db_assessments (db tiered_world))
    = Some tiered_assessment /\
  find_one (user_has_id (a_user_id tiered_assessment)) (db_users (db tiered_world))
    = Some tiered_learner /\
  exists cresp w1 report,
    complete_assessment "A3" tiered_world = (Ok cresp, w1) /\
    get_user_progress (fun x => x) (a_user_id tiered_assessment) w1 = (Ok report, w1) /\
    forall subject,
      (In subject (pr_strong_subjects report) <->
       exists score, In (subject, score) (cr_subject_scores cresp) /\ (80 <= score)%Q) /\
      (In subject (pr_weak_subjects report) <->
       exists score, In (subject, score) (cr_subject_scores cresp) /\ (score < 50)%Q).
Proof.
  split; [reflexivity|]. split; [reflexivity|].
  apply (progress_strong_and_weak_subjects (fun x => x) "A3" tiered_assessment
           tiered_learner tiered_world); reflexivity.
Defined.

(** ** Feedback *)

Lemma py_getitem_in_range {A : Type} (l : list A) (i : Z) :
  (exists x, py_getitem l i = Some x) <->
  (- Z.of_nat (length l) <= i < Z.of_nat (length l))%Z.
Proof.
  unfold py_getitem.
  destruct (0 <=? i)%Z eqn:Hpos.
  - apply Z.leb_le in Hpos. split.
    + intros (x & Hx).
      assert (Z.to_nat i < length l) by (apply nth_error_Some; congruence). lia.
    + intros Hi. destruct (nth_error l (Z.to_nat i)) as [x|] eqn:Hx; [now exists x|].
      apply nth_error_None in Hx. lia.
  - apply Z.leb_gt in Hpos.
    destruct (- Z.of_nat (length l) <=? i)%Z eqn:Hlow.
    + apply Z.leb_le in Hlow. split; [intros _; lia|]. intros _.
      destruct (nth_error l (Z.to_nat (Z.of_nat (length l) + i))) as [x|] eqn:Hx;
        [now exists x|].
      apply nth_error_None in Hx. lia.
    + apply Z.leb_gt in Hlow. split; [intros (x & Hx); discriminate | lia].
Qed.

(** X23.  [get_ai_feedback] reads but never writes the database.  For a
    stored question it succeeds exactly when the question's correct answer
    and the learner's answer are both indices Python accepts for the option
    list (from minus its length up to its length, excluded), and then returns
    the given feedback text with the explanation in the requested language;
    otherwise it raises an IndexError before the language model is called. *)
Theorem get_ai_feedback_outcomes (ai_feedback : string) (req : FeedbackRequest)
    (q : Question) (w : World) :
  find_one (question_has_id (fr_question_id req)) (db_questions (db w)) = Some q ->
  let n := Z.of_nat (length (q_options_en q)) in
  let acceptable i := (- n <= i < n)%Z in
  db (snd (get_ai_feedback ai_feedback req w)) = db w /\
  (acceptable (q_correct_answer q) /\ acceptable (fr_user_answer req) ->
   exists w',
     get_ai_feedback ai_feedback req w
       = (Ok (mkFeedbackResponse ai_feedback (explanation_in (fr_language req) q)
                "Focus on similar question patterns and practice daily for better retention."),
          w') /\
     llm w' = tail_of (llm w)) /\
  (~ (acceptable (q_correct_answer q) /\ acceptable (fr_user_answer req)) ->
   get_ai_feedback ai_feedback req w = (Raise IndexError, w)).
Proof.
  intros Hq n acceptable.
  pose proof (py_getitem_in_range (q_options_en q) (q_correct_answer q)) as Hcorrect.
  pose proof (py_getitem_in_range (q_options_en q) (fr_user_answer req)) as Hanswer.
  fold n in Hcorrect, Hanswer.
  unfold get_ai_feedback, bind, read_db, raise, ask_llm, ret. rewrite Hq.
  destruct (py_getitem (q_options_en q) (q_correct_answer q)) as [c|];
    destruct (py_getitem (q_options_en q) (fr_user_answer req)) as [s|].
  - split; [reflexivity|]. split.
    + intros _. eexists. split; reflexivity.
    + intros Hbad. exfalso. apply Hbad. split.
      * apply Hcorrect. now exists c.
      * apply Hanswer. now exists s.
  - split; [reflexivity|]. split; [|reflexivity].
    intros [_ Hok]. apply Hanswer in Hok. destruct Hok as (x & Hx). discriminate.
  - split; [reflexivity|]. split; [|reflexivity].
    intros [Hok _]. apply Hcorrect in Hok. destruct Hok as (x & Hx). discriminate.
  - split; [reflexivity|]. split; [|reflexivity].
    intros [Hok _]. apply Hcorrect in Hok. destruct Hok as (x & Hx). discriminate.
Qed.

Lemma get_ai_feedback_outcomes_witness :
  find_one (question_has_id "Q1") (db_questions (db sample_world))
    = Some sample_stored_question /\
  db (snd (get_ai_feedback "Look at the percentage again."
             (mkFeedbackRequest "Q1" (-1) LANG_HINDI) sample_world)) = db sample_world /\
  exists w',
    get_ai_feedback "Look at the percentage again."
                    (mkFeedbackRequest "Q1" (-1) LANG_HINDI) sample_world
      = (Ok (mkFeedbackResponse "Look at the percentage again." "e-hi"
               "Focus on similar question patterns and practice daily for better retention."),
         w') /\
    llm w' = tail_of (llm sample_world).
Proof.
  split; [reflexivity|].
  destruct (get_ai_feedback_outcomes "Look at the percentage again."
              (mkFeedbackRequest "Q1" (-1) LANG_HINDI) sample_stored_question
              sample_world eq_refl) as (Hdb & Hok & _).
  split; [exact Hdb|]. apply Hok. simpl. lia.
Defined.

(** ** No guard after completion *)

(** X24.  Completion does not close an assessment.  A submission made after
    [complete_assessment] is accepted like any other: the answer is appended,
    while the stored score, subject scores and completion time stay those of
    the completion, which did not see that answer. *)
Theorem submit_after_completion (w : World) (req : SubmitAnswerRequest)
    (a : Assessment) (q : Question) (u : User) :
  find_one (assessment_has_id (sar_assessment_id req)) (db_assessments (db w)) = Some a ->
  find_one (question_has_id (sar_question_id req)) (db_questions (db w)) = Some q ->
  find_one (user_has_id (a_user_id a)) (db_users (db w)) = Some u ->
  exists cresp w1 sresp w2 a2,
    complete_assessment (sar_assessment_id req) w = (Ok cresp, w1) /\
    submit_answer req w1 = (Ok sresp, w2) /\
    find_one (assessment_has_id (sar_assessment_id req)) (db_assessments (db w2)) = Some a2 /\
    a_answers a2 = a_answers a ++ [recorded_answer req q] /\
    a_completed_at a2 = Some (clock w 0) /\
    a_score a2 = cr_overall_score cresp /\
    a_score a2 = overall_score_of a /\
    a_subject_scores a2 = cr_subject_scores cresp.
Proof.
  intros Ha Hq Hu.
  pose proof (complete_assessment_run w (sar_assessment_id req) a u Ha Hu) as Hcomplete.
  match type of Hcomplete with _ = (Ok ?R, ?W) =>
    set (cresp := R) in *; set (w1 := W) in * end.
  set (a1 := set_completion (overall_score_of a)
               (subject_scores_of (db_questions (db w)) a) (clock w 0) a).
  assert (Ha1 : find_one (assessment_has_id (sar_assessment_id req))
                         (db_assessments (db w1)) = Some a1).
  { simpl. apply find_one_update_one; [assumption|].
    apply find_one_holds in Ha. exact (proj1 Ha). }
  assert (Hq1 : find_one (question_has_id (sar_question_id req))
                         (db_questions (db w1)) = Some q) by exact Hq.
  eexists cresp, w1, _, _, (set_answers (a_answers a1 ++ [recorded_answer req q]) a1).
  split; [exact Hcomplete|].
  split; [exact (submit_answer_run w1 req a1 q Ha1 Hq1)|].
  split.
  - cbn [db set_db db_assessments assessments_update_one].
    apply find_one_update_one; [exact Ha1|].
    apply find_one_holds in Ha. exact (proj1 Ha).
  - repeat split.
Qed.

Lemma submit_after_completion_witness :
  find_one (assessment_has_id (sar_assessment_id sample_request))
           (db_assessments (db sample_world)) = Some sample_assessment /\
  find_one (question_has_id (sar_question_id sample_request))
           (db_questions (db sample_world)) = Some sample_stored_question /\
  find_one (user_has_id (a_user_id sample_assessment)) (db_users (db sample_world))
    = Some sample_learner /\
  exists cresp w1 sresp w2 a2,
    complete_assessment (sar_assessment_id sample_request) sample_world = (Ok cresp, w1) /\
    submit_answer sample_request w1 = (Ok sresp, w2) /\
    find_one (assessment_has_id (sar_assessment_id sample_request))
             (db_assessments (db w2)) = Some a2 /\
    a_answers a2
      = a_answers sample_assessment ++ [recorded_answer sample_request sample_stored_question] /\
    a_completed_at a2 = Some (clock sample_world 0) /\
    a_score a2 = cr_overall_score cresp /\
    a_score a2 = overall_score_of sample_assessment /\
    a_subject_scores a2 = cr_subject_scores cresp.
Proof.
  split; [reflexivity|]. split; [reflexivity|]. split; [reflexivity|].
  apply (submit_after_completion sample_world sample_request sample_assessment
           sample_stored_question sample_learner); reflexivity.
Defined.

(** ** The earlier create_user *)

(** X25.  The earlier version of [create_user] has no phone lookup: every
    call stores a new learner, so two calls with one phone number leave two
    records carrying that number, whatever the database held before. *)
Theorem create_user_original_duplicates (w : World) (first second : UserCreate) :
  exists u1 w1 u2 w2,
    create_user_original first w = (Ok u1, w1) /\
    create_user_original second w1 = (Ok u2, w2) /\
    db_users (db w2) = (db_users (db w) ++ [u1]) ++ [u2] /\
    length (db_users (db w2)) = 2 + length (db_users (db w)) /\
    u_phone u1 = uc_phone first /\ u_phone u2 = uc_phone second /\
    u_id u1 = uuid_stream w 0 /\ u_id u2 = uuid_stream w 1.
Proof.
  unfold create_user_original, bind, uuid4, datetime_now, modify_db, read_db, write_db, ret.
  cbn [db uuid_stream rand_stream clock llm set_db].
  eexists _, _, _, _. split; [reflexivity|]. split; [reflexivity|].
  cbn [db db_users users_insert_one u_phone u_id]. unfold insert_one, tail_of.
  split; [reflexivity|]. split; [|repeat split].
  unfold set_db. cbn [db db_users users_insert_one]. unfold insert_one.
  rewrite !length_app. simpl. lia.
Qed.

(** ** Adaptivity *)







